(** * fibber: the BERT classifier metric (fibber/metrics/bert_classifier.py)

    A shallow embedding of the classifier training / fine-tuning pipeline:
    the optimizer and schedule factory [get_optimizer], the evaluation
    routine [run_evaluate], the checkpoint lookup and training loop
    [load_or_train_bert_clf], and the [BertClassifier] facade with its
    prediction and robust fine-tuning methods.

    Python objects that are mutated in place (the model, the validation
    iterator, the summary writer, the optimizer, the facade itself) are
    threaded explicitly: every embedded function returns the outcome of the
    call (a value or the exception raised) together with the objects as
    they are when the call exits, so that the state left behind by a raise
    can be stated too.

    The tensor library, the tokenizer, the pretrained weights and the data
    loaders are not part of the repository's code; they are the members of
    the class [Collaborators] below. *)

From Stdlib Require Import ZArith QArith Qminmax Lia.
From Stdlib Require Import Ascii DecimalString DecimalN.
From stdpp Require Import gmap strings list.

(** ** Python exceptions and outcomes *)

Inductive exn : Type :=
| AssertionError (msg : string)
| RuntimeError (msg : string)
| ZeroDivisionError
| StopIteration
| KeyError (key : string)
| TypeError
| ValueError
| AttributeError (name : string)
| OSError
| LibraryError.

Inductive outcome (A : Type) : Type :=
| Return (a : A)
| Raise (e : exn).
Arguments Return {A} a.
Arguments Raise {A} e.

Definition is_raise {A : Type} (o : outcome A) : bool :=
  match o with Return _ => false | Raise _ => true end.

(** A computation over mutable objects [S]: the outcome and the objects on exit. *)
Definition M (S A : Type) : Type := S -> outcome A * S.

Definition ret {S A : Type} (a : A) : M S A := fun s => (Return a, s).

Definition raise {S A : Type} (e : exn) : M S A := fun s => (Raise e, s).

Definition bind {S A B : Type} (m : M S A) (k : A -> M S B) : M S B :=
  fun s => match m s with
           | (Return a, s') => k a s'
           | (Raise e, s') => (Raise e, s')
           end.

Definition get {S : Type} : M S S := fun s => (Return s, s).

Definition modify {S : Type} (f : S -> S) : M S unit := fun s => (Return tt, f s).

Definition lift_outcome {S A : Type} (o : outcome A) : M S A := fun s => (o, s).

Declare Scope py_scope.
Delimit Scope py_scope with py.
Notation "x <- c1 ;; c2" := (bind c1 (fun x => c2))
  (at level 100, c1 at next level, right associativity) : py_scope.
Notation "c1 ;;; c2" := (bind c1 (fun _ => c2))
  (at level 100, right associativity) : py_scope.

(** Python's [assert cond, msg]. *)
Definition py_assert {S : Type} (cond : bool) (msg : string) : M S unit :=
  if cond then ret tt else raise (AssertionError msg).

(** ** Values stored in data records *)

Inductive pyval : Type :=
| PStr (s : string)
| PInt (z : Z).

(** A data record is a dict from field names to values: [gmap string pyval]. *)

(** [key in d] *)
Definition py_in (key : string) (d : gmap string pyval) : bool :=
  bool_decide (is_Some (d !! key)).

(** [d[key]] *)
Definition py_getitem (d : gmap string pyval) (key : string) : outcome pyval :=
  match d !! key with
  | Some v => Return v
  | None => Raise (KeyError key)
  end.

(** ** Collaborators outside the repository's code *)

Class Collaborators : Type := {
  (** model weights, tokenized inputs, label tensors, losses, logits,
      optimizer-internal buffers, the validation iterator, datasets,
      log-probability arrays, the SEM word map and the LM handle *)
  Params : Type;
  Encoded : Type;
  Labels : Type;
  Loss : Type;
  Logits : Type;
  OptState : Type;
  Iter : Type;
  Dataset : Type;
  Dist : Type;
  WordMap : Type;
  LM : Type;
  (** [model(seq, mask, tok_type, labels=label)[:2]] in the given mode *)
  forward : bool -> Params -> Encoded -> Labels -> Loss * Logits;
  (** the exception that call raises on an input and a label tensor that do
      not fit together (not one label per row, a label outside the classes),
      [None] when it returns.  The batches of the data loaders fit by
      construction; [robust_tune_step] builds its own from the records. *)
  forward_raises : Params -> Encoded -> Labels -> option exn;
  (** [model(input_ids=..., token_type_ids=..., attention_mask=...)[0]] *)
  classify : bool -> Params -> Encoded -> Logits;
  (** [seq.size(0)] *)
  batch_size : Encoded -> Z;
  (** [logits.argmax(dim=1).eq(label).float().sum()] *)
  num_correct : Logits -> Labels -> Z;
  (** [logits.argmax(axis=1)] *)
  argmax_labels : Logits -> list Z;
  (** [next(dataloader_iter)]; [None] is StopIteration *)
  next_batch : Iter -> option ((Encoded * Labels) * Iter);
  (** fresh optimizer buffers for a parameter set *)
  opt_init : Params -> OptState;
  (** [opt.zero_grad(); loss.backward(); opt.step()] for the loss of one
      forward pass in the given mode, with the optimizer algorithm, the
      current learning rate and the weight decay *)
  opt_update : string -> Q -> Q -> OptState -> bool -> Params ->
               Encoded -> Labels -> OptState * Params;
  (** [get_root_dir()] *)
  root_dir : string;
  (** [from_pretrained(resources.get_transformers(model_init), num_labels)] *)
  pretrained : string -> Z -> Params;
  (** [len(trainset["label_mapping"])] and [trainset["cased"]] *)
  num_labels : Dataset -> Z;
  cased : Dataset -> bool;
  (** [sem_transform_dataset] *)
  sem_transform_dataset : Dataset -> option WordMap -> Dataset;
  (** the batches the training [DataLoader] yields, in order *)
  train_batches : Dataset -> string -> Z -> list (Encoded * Labels);
  (** [iter(DataLoader(DatasetForBert(testset, ...)))] *)
  val_iter : Dataset -> string -> Z -> Iter;
  (** [self._tokenizer(text=..., text_pair=..., padding=True)] *)
  tokenizer : list pyval -> option (list pyval) -> outcome Encoded;
  (** [torch.tensor(labels)] *)
  tensor_of_labels : list pyval -> outcome Labels;
  (** [sem_fix_sentences] and [lmag_fix_sentences] *)
  sem_fix_sentences : list pyval -> option WordMap -> outcome (list pyval);
  lmag_fix_sentences : list pyval -> option (list pyval) -> LM -> Params ->
                       outcome (list pyval);
  (** [F.log_softmax(logits, dim=1)] and the vote over [lmag_repeat]
      rewrites of each candidate (reshaping fails on a ragged batch) *)
  log_softmax : Logits -> Dist;
  lmag_vote : Logits -> Z -> Z -> outcome Dist;
}.

(** ** The model object *)

Section Model.
Context `{Collaborators}.

(** A [torch.nn.Module]: its weights and its [training] flag. *)
Record model : Type := {
  training : bool;
  parameters : Params;
}.

(** [model.eval()] *)
Definition model_eval (m : model) : model :=
  {| training := false; parameters := parameters m |}.

(** [model.train()] *)
Definition model_train (m : model) : model :=
  {| training := true; parameters := parameters m |}.

(** ** The summary writer *)

(** What [add_scalar] receives.  The floating-point expressions the code
    passes are kept symbolic: [ErrorRate correct count] stands for
    [1 - correct / count] and [MeanLoss l] for [np.mean(l)]. *)
Inductive scalar : Type :=
| LossValue (l : Loss)
| ErrorRate (correct count : Z)
| MeanLoss (l : list Loss).

Record scalar_event : Type := {
  ev_tag : string;
  ev_value : scalar;
  ev_step : Z;
}.

(** A [SummaryWriter]: its log directory and the events written, oldest first. *)
Record SummaryWriter : Type := {
  logdir : string;
  events : list scalar_event;
}.

(** [summary.add_scalar(tag, value, step)] *)
Definition add_scalar (tag : string) (v : scalar) (step : Z) (w : SummaryWriter)
  : SummaryWriter :=
  {| logdir := logdir w;
     events := events w ++ [{| ev_tag := tag; ev_value := v; ev_step := step |}] |}.

(** ** run_evaluate *)

(** The objects [run_evaluate] receives by reference. *)
Record eval_heap : Type := {
  h_model : model;
  h_iter : Iter;
  h_summary : SummaryWriter;
}.

Definition set_h_model (f : model -> model) (h : eval_heap) : eval_heap :=
  {| h_model := f (h_model h); h_iter := h_iter h; h_summary := h_summary h |}.

Definition set_h_summary (f : SummaryWriter -> SummaryWriter) (h : eval_heap)
  : eval_heap :=
  {| h_model := h_model h; h_iter := h_iter h; h_summary := f (h_summary h) |}.

(** [next(dataloader_iter)] *)
Definition py_next : M eval_heap (Encoded * Labels) :=
  fun h => match next_batch (h_iter h) with
           | Some (b, it') =>
               (Return b,
                {| h_model := h_model h; h_iter := it'; h_summary := h_summary h |})
           | None => (Raise StopIteration, h)
           end.

(** The accumulators of the evaluation loop: [correct], [count], [loss_list]. *)
Record eval_acc : Type := {
  correct : Z;
  count : Z;
  loss_list : list Loss;
}.

(** The body of [for v_step in range(eval_steps)], run [n] times. *)
Fixpoint eval_loop (n : nat) (acc : eval_acc) : M eval_heap eval_acc :=
  match n with
  | O => ret acc
  | S n' =>
      (b <- py_next ;;
       h <- get ;;
       let '(loss, logits) :=
         forward (training (h_model h)) (parameters (h_model h)) (fst b) (snd b) in
       eval_loop n'
         {| correct := correct acc + num_correct logits (snd b);
            count := count acc + batch_size (fst b);
            loss_list := loss_list acc ++ [loss] |})%py
  end.

(** [run_evaluate(model, dataloader_iter, eval_steps, summary, global_step, device)].
    With [eval_steps <= 0] the loop body never runs, [correct] and [count]
    are still the Python integers [0], and [correct / count] raises; after a
    first iteration [correct] is a numpy scalar and the division no longer
    raises. *)
Definition run_evaluate (eval_steps : Z) (global_step : Z) : M eval_heap unit :=
  (modify (set_h_model model_eval) ;;;
   acc <- eval_loop (Z.to_nat eval_steps)
            {| correct := 0; count := 0; loss_list := [] |} ;;
   (if (eval_steps <=? 0)%Z then raise ZeroDivisionError else ret tt) ;;;
   modify (set_h_summary
             (add_scalar "clf_val/error_rate"
                (ErrorRate (correct acc) (count acc)) global_step)) ;;;
   modify (set_h_summary
             (add_scalar "clf_val/loss" (MeanLoss (loss_list acc)) global_step)) ;;;
   modify (set_h_model model_train))%py.

(** ** get_optimizer *)

(** Modelled from the spec: [transformers.get_linear_schedule_with_warmup]
    is not part of the sources; this is the multiplier of the schedule the
    spec describes (linear increase from zero over the warmup window, then
    linear decay to zero by the final step), written as the library's
    [lr_lambda] computes it, over the rationals:
    [current_step / max(1, warmup)] below the warmup boundary and
    [max(0, (train_step - current_step) / max(1, train_step - warmup))]
    from it on. *)
Definition lr_lambda (num_warmup_steps num_training_steps current_step : Z) : Q :=
  if (current_step <? num_warmup_steps)%Z
  then inject_Z current_step / inject_Z (Z.max 1 num_warmup_steps)
  else Qmax 0 (inject_Z (num_training_steps - current_step)
               / inject_Z (Z.max 1 (num_training_steps - num_warmup_steps))).

(** A torch optimizer: the algorithm, the learning rate of its parameter
    group, the weight decay and its buffers.  An optimizer holds the
    parameter tensors of the model object it was created on; [opt_bound]
    says that this object is still the one the optimizer is stepped with
    (the facade can replace its model by a freshly loaded one, whose tensors
    the optimizer does not hold). *)
Record optimizer : Type := {
  opt_algorithm : string;
  opt_lr : Q;
  opt_weight_decay : Q;
  opt_state : OptState;
  opt_bound : bool;
}.

(** The [LambdaLR] schedule: the rate the optimizer was created with and the
    number of [step()] calls so far. *)
Record scheduler : Type := {
  num_warmup_steps : Z;
  num_training_steps : Z;
  base_lr : Q;
  last_epoch : Z;
}.

(** The learning rate the schedule sets after [s] steps. *)
Definition lr_at (sche : scheduler) (s : Z) : Q :=
  base_lr sche * lr_lambda (num_warmup_steps sche) (num_training_steps sche) s.

(** [sche.get_last_lr()] *)
Definition get_lr (sche : scheduler) : Q := lr_at sche (last_epoch sche).

Definition set_opt_lr (lr : Q) (opt : optimizer) : optimizer :=
  {| opt_algorithm := opt_algorithm opt; opt_lr := lr;
     opt_weight_decay := opt_weight_decay opt; opt_state := opt_state opt;
     opt_bound := opt_bound opt |}.

(** The optimizer once the model it was created on has been replaced. *)
Definition unbind (opt : optimizer) : optimizer :=
  {| opt_algorithm := opt_algorithm opt; opt_lr := opt_lr opt;
     opt_weight_decay := opt_weight_decay opt; opt_state := opt_state opt;
     opt_bound := false |}.

(** [sche.step()]: advance the schedule and write the new rate into the optimizer. *)
Definition sche_step (os : optimizer * scheduler) : optimizer * scheduler :=
  let sche' := {| num_warmup_steps := num_warmup_steps (snd os);
                  num_training_steps := num_training_steps (snd os);
                  base_lr := base_lr (snd os);
                  last_epoch := last_epoch (snd os) + 1 |} in
  (set_opt_lr (get_lr sche') (fst os), sche').

(** The optimizer a constructor call that succeeds builds. *)
Definition fresh_optimizer (algorithm : string) (lr decay : Q) (params : Params)
  : optimizer :=
  {| opt_algorithm := algorithm; opt_lr := lr; opt_weight_decay := decay;
     opt_state := opt_init params; opt_bound := true |}.

(** [torch.optim.Adam / SGD / AdamW (params=params, lr=lr, weight_decay=decay)]:
    the three constructors reject a negative learning rate and a negative
    weight decay with a ValueError. *)
Definition new_optimizer (algorithm : string) (lr decay : Q) (params : Params)
  : outcome optimizer :=
  if (Qle_bool 0 lr && Qle_bool 0 decay)%bool
  then Return (fresh_optimizer algorithm lr decay params)
  else Raise ValueError.

(** [transformers.get_linear_schedule_with_warmup(opt, warmup, train_step)]:
    the schedule starts at step 0 and sets the optimizer's rate for it. *)
Definition get_linear_schedule_with_warmup (opt : optimizer) (warmup train_step : Z)
  : optimizer * scheduler :=
  let sche := {| num_warmup_steps := warmup; num_training_steps := train_step;
                 base_lr := opt_lr opt; last_epoch := 0 |} in
  (set_opt_lr (get_lr sche) opt, sche).

(** The default of [get_optimizer]'s [warmup] argument, which no caller overrides. *)
Definition default_warmup : Z := 1000.

(** [get_optimizer(optimizer_name, lr, decay, train_step, params, warmup=1000)] *)
Definition get_optimizer (optimizer_name : string) (lr decay : Q) (train_step : Z)
    (params : Params) (warmup : Z) : outcome (optimizer * scheduler) :=
  let with_schedule (constructed : outcome optimizer) :=
    match constructed with
    | Return opt => Return (get_linear_schedule_with_warmup opt warmup train_step)
    | Raise e => Raise e
    end in
  if String.eqb optimizer_name "adam" then
    with_schedule (new_optimizer "adam" lr decay params)
  else if String.eqb optimizer_name "sgd" then
    with_schedule (new_optimizer "sgd" lr decay params)
  else if String.eqb optimizer_name "adamw" then
    with_schedule (new_optimizer "adamw" lr decay params)
  else Raise (AssertionError "unkown optimizer").

(** [opt.zero_grad(); loss.backward(); opt.step()] on a model.  The step
    moves the parameters the optimizer holds: those of the model when the
    optimizer is bound to it, and otherwise tensors that no longer belong to
    any model in use, so that the model keeps its weights (the buffers of
    such an optimizer are not observed again and are left as they are). *)
Definition optimizer_step (opt : optimizer) (m : model) (b : Encoded * Labels)
  : optimizer * model :=
  if opt_bound opt then
    let '(st', p') := opt_update (opt_algorithm opt) (opt_lr opt) (opt_weight_decay opt)
                        (opt_state opt) (training m) (parameters m) (fst b) (snd b) in
    ({| opt_algorithm := opt_algorithm opt; opt_lr := opt_lr opt;
        opt_weight_decay := opt_weight_decay opt; opt_state := st';
        opt_bound := true |},
     {| training := training m; parameters := p' |})
  else (opt, m).

End Model.

(** ** Checkpoint paths *)

(** [s.startswith("/")] and [s.endswith("/")] *)
Definition starts_with_sep (s : string) : bool :=
  match s with
  | String c _ => Ascii.eqb c "/"%char
  | EmptyString => false
  end.

Fixpoint ends_with_sep (s : string) : bool :=
  match s with
  | EmptyString => false
  | String c EmptyString => Ascii.eqb c "/"%char
  | String _ s' => ends_with_sep s'
  end.

(** [os.path.join(a, b)] (posixpath): an absolute [b] replaces [a]; otherwise
    the two are glued with one separator unless [a] is empty or already ends
    with one. *)
Definition path_join (a b : string) : string :=
  if starts_with_sep b then b
  else if (String.eqb a EmptyString || ends_with_sep a)%bool then a +:+ b
  else a +:+ "/" +:+ b.

(** The decimal digits of a natural number. *)
Definition str_of_N (n : N) : string := NilEmpty.string_of_uint (N.to_uint n).

Fixpoint zeros (k : nat) : string :=
  match k with
  | O => EmptyString
  | S k' => String "0"%char (zeros k')
  end.

(** Left-pad with ["0"] to the given width. *)
Definition zfill (width : nat) (s : string) : string :=
  zeros (width - String.length s) +:+ s.

(** ["%04d" % z]: at least four characters, the sign included. *)
Definition format_04d (z : Z) : string :=
  if (z <? 0)%Z then "-" +:+ zfill 3 (str_of_N (Z.to_N (- z)))
  else zfill 4 (str_of_N (Z.to_N z)).

(** Reading a ["%04d"] rendering back. *)
Definition parse_04d (s : string) : option Z :=
  match NilEmpty.uint_of_string s with
  | Some u => Some (Z.of_N (N.of_uint u))
  | None =>
      match s with
      | String c r =>
          if Ascii.eqb c "-"%char then
            match NilEmpty.uint_of_string r with
            | Some u => Some (- Z.of_N (N.of_uint u))%Z
            | None => None
            end
          else None
      | EmptyString => None
      end
  end.

(** [model_init + "-%04dk" % (step // 1000)] *)
Definition ckpt_name (model_init : string) (step : Z) : string :=
  model_init +:+ "-" +:+ format_04d (step / 1000) +:+ "k".

(** The defense-mode tag of the base checkpoints. *)
Definition defense_tag (enable_sem : bool) : string :=
  if enable_sem then "bert_clf_sem" else "bert_clf".

(** What is at a path of the file system: a complete saved model, or
    anything else (a partial directory, a file).  The file system is the map
    from the paths that exist to what they hold; the directories that
    [SummaryWriter] and [save_pretrained] create on the way to their target
    are not recorded (a checkpoint path ends in ["k"], the summary directory
    does not). *)
Inductive fs_entry (P : Type) : Type :=
| SavedModel (p : P)
| OtherEntry.
Arguments SavedModel {P} p.
Arguments OtherEntry {P}.

Section Training.
Context `{Collaborators}.

(** [os.path.join(get_root_dir(), tag, dataset_name)] *)
Definition model_dir_of (enable_sem : bool) (dataset_name : string) : string :=
  path_join (path_join root_dir (defense_tag enable_sem)) dataset_name.

(** The checkpoint path of lines 133-138 and of line 206. *)
Definition ckpt_path_of (enable_sem : bool) (dataset_name model_init : string)
    (step : Z) : string :=
  path_join (model_dir_of enable_sem dataset_name) (ckpt_name model_init step).

(** [os.path.exists(path)] *)
Definition path_exists (fs : gmap string (fs_entry Params)) (path : string) : bool :=
  bool_decide (is_Some (fs !! path)).

(** [BertForSequenceClassification.from_pretrained(path)]: fails on anything
    but a complete saved model; a loaded model is in eval mode. *)
Definition from_pretrained (fs : gmap string (fs_entry Params)) (path : string)
  : outcome model :=
  match fs !! path with
  | Some (SavedModel p) => Return {| training := false; parameters := p |}
  | _ => Raise OSError
  end.

(** [model.save_pretrained(path)]: the directory is created if need be and
    the model files are written into it, over those it held.  This is what
    the library does at a path that is absent or is a directory; at a
    regular file it logs an error and writes nothing, a case the statements
    on snapshots exclude by asking for a path that is absent or holds a
    saved model (inside a training run the gating path starts absent and
    is only written by the run's own saves). *)
Definition save_pretrained (m : model) (path : string)
    (fs : gmap string (fs_entry Params)) : gmap string (fs_entry Params) :=
  <[path := SavedModel (parameters m)]> fs.

(** The arguments of [load_or_train_bert_clf] ([device] only places tensors). *)
Record train_args : Type := {
  model_init : string;
  dataset_name : string;
  trainset : Dataset;
  testset : Dataset;
  bert_clf_steps : Z;
  bert_clf_bs : Z;
  bert_clf_lr : Q;
  bert_clf_optimizer : string;
  bert_clf_weight_decay : Q;
  bert_clf_period_summary : Z;
  bert_clf_period_val : Z;
  bert_clf_period_save : Z;
  bert_clf_val_steps : Z;
  bert_clf_enable_sem : bool;
  bert_clf_sem_word_map : option WordMap;
}.

(** The local variables of the training loop and the objects it mutates.
    [opt_step_calls] counts the calls of [opt.step()]. *)
Record train_state : Type := {
  t_model : model;
  t_opt : optimizer;
  t_sche : scheduler;
  global_step : Z;
  correct_train : Z;
  count_train : Z;
  t_val_iter : Iter;
  t_summary : SummaryWriter;
  t_fs : gmap string (fs_entry Params);
  opt_step_calls : nat;
}.

(** [x % period == 0]; a zero period raises. *)
Definition py_divides {S : Type} (x period : Z) : M S bool :=
  if (period =? 0)%Z then raise ZeroDivisionError
  else ret (x mod period =? 0)%Z.

(** Lines 177-193: count the step, run the model, accumulate the running
    counters, update the weights and advance the schedule.  Returns the loss. *)
Definition forward_backward (b : Encoded * Labels) : M train_state Loss :=
  fun st =>
    let m := t_model st in
    let '(loss, logits) := forward (training m) (parameters m) (fst b) (snd b) in
    let '(opt', m') := optimizer_step (t_opt st) m b in
    let '(opt'', sche') := sche_step (opt', t_sche st) in
    (Return loss,
     {| t_model := m'; t_opt := opt''; t_sche := sche';
        global_step := global_step st + 1;
        correct_train := correct_train st + num_correct logits (snd b);
        count_train := count_train st + batch_size (fst b);
        t_val_iter := t_val_iter st; t_summary := t_summary st; t_fs := t_fs st;
        opt_step_calls := S (opt_step_calls st) |}).

(** Lines 196-199: flush the loss and the running error rate, reset the counters. *)
Definition flush_summary (loss : Loss) (st : train_state) : train_state :=
  {| t_model := t_model st; t_opt := t_opt st; t_sche := t_sche st;
     global_step := global_step st;
     correct_train := 0;
     count_train := 0;
     t_val_iter := t_val_iter st;
     t_summary :=
       add_scalar "clf_train/error_rate"
         (ErrorRate (correct_train st) (count_train st)) (global_step st)
         (add_scalar "clf_train/loss" (LossValue loss) (global_step st)
            (t_summary st));
     t_fs := t_fs st; opt_step_calls := opt_step_calls st |}.

(** Lines 202-203: [run_evaluate] on the loop's model, validation iterator
    and summary writer. *)
Definition call_run_evaluate (eval_steps : Z) : M train_state unit :=
  fun st =>
    let '(r, h) := run_evaluate eval_steps (global_step st)
                     {| h_model := t_model st; h_iter := t_val_iter st;
                        h_summary := t_summary st |} in
    (r,
     {| t_model := h_model h; t_opt := t_opt st; t_sche := t_sche st;
        global_step := global_step st;
        correct_train := correct_train st; count_train := count_train st;
        t_val_iter := h_iter h; t_summary := h_summary h;
        t_fs := t_fs st; opt_step_calls := opt_step_calls st |}).

(** Lines 206-207: save the model at the path of the current step. *)
Definition save_checkpoint (a : train_args) (st : train_state) : train_state :=
  {| t_model := t_model st; t_opt := t_opt st; t_sche := t_sche st;
     global_step := global_step st;
     correct_train := correct_train st; count_train := count_train st;
     t_val_iter := t_val_iter st; t_summary := t_summary st;
     t_fs := save_pretrained (t_model st)
               (ckpt_path_of (bert_clf_enable_sem a) (dataset_name a) (model_init a)
                  (global_step st))
               (t_fs st);
     opt_step_calls := opt_step_calls st |}.

(** Lines 195-199: the summary period. *)
Definition summary_block (a : train_args) (loss : Loss) : M train_state unit :=
  (st <- get ;;
   flush <- py_divides (global_step st) (bert_clf_period_summary a) ;;
   if flush : bool then modify (flush_summary loss) else ret tt)%py.

(** Lines 201-203: the validation period. *)
Definition validation_block (a : train_args) : M train_state unit :=
  (st <- get ;;
   val <- py_divides (global_step st) (bert_clf_period_val a) ;;
   if val : bool then call_run_evaluate (bert_clf_val_steps a) else ret tt)%py.

(** Lines 205-208: the checkpoint period, forced on the last step. *)
Definition checkpoint_block (a : train_args) : M train_state unit :=
  (st <- get ;;
   save <- py_divides (global_step st) (bert_clf_period_save a) ;;
   if (save || (global_step st =? bert_clf_steps a)%Z)%bool
   then modify (save_checkpoint a) else ret tt)%py.

(** One iteration of the loop of lines 176-211; returns whether it breaks
    (lines 210-211). *)
Definition loop_body (a : train_args) (b : Encoded * Labels) : M train_state bool :=
  (loss <- forward_backward b ;;
   summary_block a loss ;;;
   validation_block a ;;;
   checkpoint_block a ;;;
   st <- get ;;
   ret (bert_clf_steps a <=? global_step st)%Z)%py.

(** How the [for] loop ends: by its [break], or because the loader is exhausted. *)
Inductive loop_exit : Type :=
| ExitBreak
| ExitExhausted.

(** The loop of lines 176-211 over the batches the loader yields. *)
Fixpoint train_loop (a : train_args) (batches : list (Encoded * Labels))
  : M train_state loop_exit :=
  match batches with
  | [] => ret ExitExhausted
  | b :: rest =>
      (brk <- loop_body a b ;;
       if brk : bool then ret ExitBreak else train_loop a rest)%py
  end.

(** The objects a call of [load_or_train_bert_clf] leaves behind: the file
    system, and, when it trained, the state of the loop on exit. *)
Record world : Type := {
  w_fs : gmap string (fs_entry Params);
  w_trained : option train_state;
}.

(** Lines 147-172: the state in which the loop starts. *)
Definition init_train_state (a : train_args) (fs : gmap string (fs_entry Params))
  : outcome train_state :=
  let num := num_labels (trainset a) in
  let m := model_train {| training := false;
                          parameters := pretrained (model_init a) num |} in
  let summary :=
    {| logdir := path_join (model_dir_of (bert_clf_enable_sem a) (dataset_name a))
                   "summary";
       events := [] |} in
  let testset' := if bert_clf_enable_sem a
                  then sem_transform_dataset (testset a) (bert_clf_sem_word_map a)
                  else testset a in
  match get_optimizer (bert_clf_optimizer a) (bert_clf_lr a)
          (bert_clf_weight_decay a) (bert_clf_steps a) (parameters m)
          default_warmup with
  | Raise e => Raise e
  | Return (opt, sche) =>
      Return {| t_model := m; t_opt := opt; t_sche := sche;
                global_step := 0; correct_train := 0; count_train := 0;
                t_val_iter := val_iter testset' (model_init a) (bert_clf_bs a);
                t_summary := summary; t_fs := fs; opt_step_calls := 0 |}
  end.

(** The batches of line 162-163. *)
Definition loader_batches (a : train_args) : list (Encoded * Labels) :=
  let trainset' := if bert_clf_enable_sem a
                   then sem_transform_dataset (trainset a) (bert_clf_sem_word_map a)
                   else trainset a in
  train_batches trainset' (model_init a) (bert_clf_bs a).

(** Lines 147-213: train from the pretrained weights. *)
Definition train_bert_clf (a : train_args) (fs : gmap string (fs_entry Params))
  : outcome (model * loop_exit) * world :=
  match init_train_state a fs with
  | Raise e => (Raise e, {| w_fs := fs; w_trained := None |})
  | Return st0 =>
      match train_loop a (loader_batches a) st0 with
      | (Raise e, st) => (Raise e, {| w_fs := t_fs st; w_trained := Some st |})
      | (Return ex, st) =>
          (Return (model_eval (t_model st), ex),
           {| w_fs := t_fs st; w_trained := Some st |})
      end
  end.

(** [load_or_train_bert_clf]: load the checkpoint if its path exists, train otherwise. *)
Definition load_or_train_bert_clf (a : train_args)
    (fs : gmap string (fs_entry Params)) : outcome model * world :=
  let ckpt_path := ckpt_path_of (bert_clf_enable_sem a) (dataset_name a)
                     (model_init a) (bert_clf_steps a) in
  if path_exists fs ckpt_path then
    match from_pretrained fs ckpt_path with
    | Raise e => (Raise e, {| w_fs := fs; w_trained := None |})
    | Return m => (Return (model_eval m), {| w_fs := fs; w_trained := None |})
    end
  else
    match train_bert_clf a fs with
    | (Return (m, _), w) => (Return m, w)
    | (Raise e, w) => (Raise e, w)
    end.

End Training.

(** ** The BertClassifier facade *)

Section Facade.
Context `{Collaborators}.

(** The attributes [__init__] assigns.  [_lm] and [_lmag_repeat] are only
    assigned when the LM-guided defense is enabled; the tokenizer and the
    device are fixed collaborators. *)
Record BertClassifier : Type := {
  _enable_sem : bool;
  _sem_word_map : option WordMap;
  _enable_lmag : bool;
  _lm : option LM;
  _lmag_repeat : option Z;
  _model_init : string;
  _dataset_name : string;
  _model : model;
  _fine_tune_sche : option scheduler;
  _fine_tune_opt : option optimizer;
}.

Definition set_model (f : model -> model) (self : BertClassifier) : BertClassifier :=
  {| _enable_sem := _enable_sem self; _sem_word_map := _sem_word_map self;
     _enable_lmag := _enable_lmag self; _lm := _lm self;
     _lmag_repeat := _lmag_repeat self; _model_init := _model_init self;
     _dataset_name := _dataset_name self; _model := f (_model self);
     _fine_tune_sche := _fine_tune_sche self;
     _fine_tune_opt := _fine_tune_opt self |}.

Definition set_fine_tune (opt : option optimizer) (sche : option scheduler)
    (self : BertClassifier) : BertClassifier :=
  {| _enable_sem := _enable_sem self; _sem_word_map := _sem_word_map self;
     _enable_lmag := _enable_lmag self; _lm := _lm self;
     _lmag_repeat := _lmag_repeat self; _model_init := _model_init self;
     _dataset_name := _dataset_name self; _model := _model self;
     _fine_tune_sche := sche;
     _fine_tune_opt := opt |}.

(** Reading an attribute that may not have been assigned. *)
Definition attribute {S A : Type} (name : string) (v : option A) : M S A :=
  match v with
  | Some a => ret a
  | None => raise (AttributeError name)
  end.

(** [data_record[key]] where [data_record] defaults to [None]. *)
Definition record_getitem {S : Type} (data_record : option (gmap string pyval))
    (key : string) : M S pyval :=
  match data_record with
  | None => raise TypeError
  | Some r => lift_outcome (py_getitem r key)
  end.

(** Lines 317-324: the LM-guided rewriting, with the first field as context
    when the record has a second field. *)
Definition lmag_defense (paraphrase_list : list pyval)
    (data_record : option (gmap string pyval)) (paraphrase_field : string)
  : M BertClassifier (list pyval) :=
  (self <- get ;;
   context <-
     match data_record with
     | None => raise TypeError
     | Some r =>
         if py_in "text1" r then
           (py_assert (String.eqb paraphrase_field "text1") EmptyString ;;;
            t0 <- lift_outcome (py_getitem r "text0") ;;
            ret (Some (replicate (length paraphrase_list) t0)))
         else ret None
     end ;;
   lm <- attribute "_lm" (_lm self) ;;
   lift_outcome (lmag_fix_sentences paraphrase_list context lm
                   (parameters (_model self))))%py.

(** [predict_dist_batch(self, origin, paraphrase_list, data_record, paraphrase_field)] *)
Definition predict_dist_batch (origin : pyval) (paraphrase_list : list pyval)
    (data_record : option (gmap string pyval)) (paraphrase_field : string)
  : M BertClassifier Dist :=
  (self <- get ;;
   pl1 <- (if _enable_sem self
           then lift_outcome (sem_fix_sentences paraphrase_list (_sem_word_map self))
           else ret paraphrase_list) ;;
   pl2 <- (if _enable_lmag self
           then lmag_defense pl1 data_record paraphrase_field
           else ret pl1) ;;
   batch_input <-
     (if String.eqb paraphrase_field "text0"
      then lift_outcome (tokenizer pl2 None)
      else
        (py_assert (String.eqb paraphrase_field "text1") EmptyString ;;;
         t0 <- record_getitem data_record "text0" ;;
         lift_outcome (tokenizer (replicate (length pl2) t0) (Some pl2)))) ;;
   let logits := classify (training (_model self)) (parameters (_model self))
                   batch_input in
   if _enable_lmag self
   then (rep <- attribute "_lmag_repeat" (_lmag_repeat self) ;;
         lift_outcome (lmag_vote logits (Z.of_nat (length pl2)) rep))
   else ret (log_softmax logits))%py.

(** [robust_tune_init(self, bert_clf_optimizer, bert_clf_lr, bert_clf_weight_decay,
    bert_clf_steps)] *)
Definition robust_tune_init (bert_clf_optimizer : string)
    (bert_clf_lr bert_clf_weight_decay : Q) (bert_clf_steps : Z)
  : M BertClassifier unit :=
  (self <- get ;;
   if (bool_decide (is_Some (_fine_tune_sche self))
       || bool_decide (is_Some (_fine_tune_opt self)))%bool
   then raise (RuntimeError "fine tuning has been initialized.")
   else
     os <- lift_outcome (get_optimizer bert_clf_optimizer bert_clf_lr
                           bert_clf_weight_decay bert_clf_steps
                           (parameters (_model self)) default_warmup) ;;
     modify (set_fine_tune (Some (fst os)) (Some (snd os))))%py.

(** The three lists the loop of lines 386-391 builds. *)
Record collected : Type := {
  text0_list : list pyval;
  text1_list : list pyval;
  labels : list pyval;
}.

Definition collect_record (acc : collected) (r : gmap string pyval)
  : outcome collected :=
  let t0 := match r !! "text0" with
            | Some v => text0_list acc ++ [v]
            | None => text0_list acc
            end in
  let t1 := match r !! "text1" with
            | Some v => text1_list acc ++ [v]
            | None => text1_list acc
            end in
  match py_getitem r "label" with
  | Return l => Return {| text0_list := t0; text1_list := t1;
                          labels := labels acc ++ [l] |}
  | Raise e => Raise e
  end.

Fixpoint collect_records (acc : collected) (rs : list (gmap string pyval))
  : outcome collected :=
  match rs with
  | [] => Return acc
  | r :: rs' =>
      match collect_record acc r with
      | Return acc' => collect_records acc' rs'
      | Raise e => Raise e
      end
  end.

(** Lines 393-396: no second field at all, or one per first field. *)
Definition check_consistent {S : Type} (c : collected) : M S (option (list pyval)) :=
  if (length (text1_list c) =? 0)%nat then ret None
  else if negb (length (text1_list c) =? length (text0_list c))%nat
       then raise (RuntimeError "data records are not consistent.")
       else ret (Some (text1_list c)).

(** Lines 407-410 on the facade's model and fine-tune pair: the weights
    move only while the optimizer is bound to the facade's model, the
    schedule advances in any case. *)
Definition fine_tune_update (opt : optimizer) (sche : scheduler)
    (b : Encoded * Labels) (self : BertClassifier) : BertClassifier :=
  let '(opt', m') := optimizer_step opt (_model self) b in
  let '(opt'', sche') := sche_step (opt', sche) in
  set_fine_tune (Some opt'') (Some sche') (set_model (fun _ => m') self).

(** [robust_tune_step(self, data_record_list)] *)
Definition robust_tune_step (data_record_list : list (gmap string pyval))
  : M BertClassifier (list Z * Loss) :=
  (self <- get ;;
   match _fine_tune_sche self, _fine_tune_opt self with
   | Some sche, Some opt =>
       modify (set_model model_train) ;;;
       c <- lift_outcome
              (collect_records {| text0_list := []; text1_list := []; labels := [] |}
                 data_record_list) ;;
       text1 <- check_consistent c ;;
       batch_input <- lift_outcome (tokenizer (text0_list c) text1) ;;
       lab <- lift_outcome (tensor_of_labels (labels c)) ;;
       match forward_raises (parameters (_model self)) batch_input lab with
       | Some e => raise e
       | None =>
           let '(loss, logits) :=
             forward true (parameters (_model self)) batch_input lab in
           modify (fine_tune_update opt sche (batch_input, lab)) ;;;
           modify (set_model model_eval) ;;;
           ret (argmax_labels logits, loss)
       end
   | _, _ => raise (RuntimeError "fine tuning not initialized.")
   end)%py.

End Facade.

(** ** A small concrete set of collaborators

    Weights, losses and logits are integers; a tokenized input is its number
    of rows and a label tensor its number of labels, and the forward pass
    with labels raises when the two differ (the loaders' batches stand for
    batches that fit); the validation iterator is a cursor into an endless
    stream; a dataset is the number of batches its training loader yields.
    The LM-guided defense writes ten rewrites of every candidate, and the
    vote reshapes the rows into groups of [lmag_repeat], which fails when
    they do not divide. *)

Definition toy : Collaborators := {|
  Params := Z;
  Encoded := Z;
  Labels := Z;
  Loss := Z;
  Logits := Z;
  OptState := unit;
  Iter := nat;
  Dataset := nat;
  Dist := Z;
  WordMap := unit;
  LM := unit;
  forward := fun _ p e l => ((p + e)%Z, l);
  forward_raises := fun _ e l => if (e =? l)%Z then None else Some ValueError;
  classify := fun _ p e => (p + e)%Z;
  batch_size := fun e => e;
  num_correct := fun lg l => if (lg =? l)%Z then 1%Z else 0%Z;
  argmax_labels := fun lg => [lg];
  next_batch := fun it => Some ((4%Z, 1%Z), S it);
  opt_init := fun _ => tt;
  opt_update := fun _ _ _ st _ p _ _ => (st, (p + 1)%Z);
  root_dir := "/data";
  pretrained := fun _ _ => 0%Z;
  num_labels := fun _ => 2%Z;
  cased := fun _ => true;
  sem_transform_dataset := fun d _ => d;
  train_batches := fun d _ bs => repeat (bs, 1%Z) d;
  val_iter := fun _ _ _ => O;
  tokenizer := fun t0 _ => Return (Z.of_nat (length t0));
  tensor_of_labels := fun ls => Return (Z.of_nat (length ls));
  sem_fix_sentences := fun pl _ => Return pl;
  lmag_fix_sentences := fun pl _ _ _ => Return (pl ≫= replicate 10);
  log_softmax := fun lg => lg;
  lmag_vote := fun lg n rep =>
    if (rep =? 0)%Z then Raise ZeroDivisionError
    else if (n mod rep =? 0)%Z then Return lg
    else Raise (RuntimeError "shape is invalid for input");
|}.

(** A model in eval mode and the objects of one evaluation call. *)
Definition toy_model (mode : bool) (weights : Z) : @model toy :=
  @Build_model toy mode weights.

Definition toy_summary : @SummaryWriter toy :=
  @Build_SummaryWriter toy "/data/bert_clf/mr/summary" [].

Definition toy_eval_heap : @eval_heap toy :=
  @Build_eval_heap toy (toy_model false 0) O toy_summary.

(** How many records of a batch carry a given field. *)
Definition count_field (key : string) (rs : list (gmap string pyval)) : nat :=
  length (List.filter (py_in key) rs).

(** A live fine-tune pair, as [get_optimizer] builds it. *)
Definition toy_pair : @optimizer toy * scheduler :=
  get_linear_schedule_with_warmup (H := toy)
    (fresh_optimizer (H := toy) "adamw" (2 # 100000) (1 # 1000) 0%Z) 1000 5000.

(** A facade over the small collaborators, with or without the LM-guided
    defense and with or without a live fine-tune pair. *)
Definition toy_facade (lmag live : bool) : @BertClassifier toy :=
  @Build_BertClassifier toy false None lmag
    (if lmag then Some tt else None) (if lmag then Some 10%Z else None)
    "bert-base-cased" "mr" (toy_model false 0)
    (if live then Some (snd toy_pair) else None)
    (if live then Some (fst toy_pair) else None).

(** Records with one and with two text fields. *)
Definition single_record : gmap string pyval :=
  <["text0" := PStr "a fine film"]> (<["label" := PInt 1]> ∅).

Definition paired_record : gmap string pyval :=
  <["text1" := PStr "a hypothesis"]> single_record.

(** Arguments of a small training run: the step budget, the number of
    batches the loader yields, and the three periods. *)
Definition toy_args (steps : Z) (nbatches : nat) (p_summary p_val p_save : Z)
  : @train_args toy :=
  @Build_train_args toy "bert-base-cased" "mr" nbatches 3%nat steps 4
    (2 # 100000) "adamw" (1 # 1000) p_summary p_val p_save 2 false None.

(** The events a validation at step [g] writes. *)
Definition val_events_at `{Collaborators} (g : Z) (later : list scalar_event) : Prop :=
  Forall (fun e => ev_step e = g
                   /\ (ev_tag e = "clf_val/error_rate" \/ ev_tag e = "clf_val/loss"))
         later.

(** What the blocks after the summary block leave alone: the step counter,
    the running counters, the optimizer-step count and the weights; the
    summary only grows, by validation events of the current step. *)
Definition keeps_training_state `{Collaborators} (st st' : train_state) : Prop :=
  global_step st' = global_step st
  /\ correct_train st' = correct_train st
  /\ count_train st' = count_train st
  /\ opt_step_calls st' = opt_step_calls st
  /\ parameters (t_model st') = parameters (t_model st)
  /\ exists later, events (t_summary st') = events (t_summary st) ++ later
                   /\ val_events_at (global_step st) later.

(** ** More of the facade: single predictions and robust-tuned snapshots *)

Section FacadeSnapshots.
Context `{Collaborators}.

(** The rows of a prediction array, and [res[0]] (an IndexError on an
    array without rows). *)
Variable Row : Type.
Variable first_row : Dist -> outcome Row.

(** [predict_dist_example(self, origin, paraphrase, data_record, paraphrase_field)]:
    the first row of the batch of one candidate. *)
Definition predict_dist_example (origin paraphrase : pyval)
    (data_record : option (gmap string pyval)) (paraphrase_field : string)
  : M BertClassifier Row :=
  (res <- predict_dist_batch origin [paraphrase] data_record paraphrase_field ;;
   lift_outcome (first_row res))%py.

(** [os.path.join(get_root_dir(), "bert_clf", self._dataset_name, desc)] *)
Definition robust_model_dir (self : BertClassifier) (desc : string) : string :=
  path_join (path_join (path_join root_dir "bert_clf") (_dataset_name self)) desc.

(** The snapshot path of lines 416-417 and 424-425. *)
Definition robust_ckpt_path (self : BertClassifier) (desc : string) (step : Z)
  : string :=
  path_join (robust_model_dir self desc) (ckpt_name (_model_init self) step).

(** [load_robust_tuned_model(self, desc, step)], on the facade and the file
    system.  The loaded model is a new object: a live fine-tune optimizer
    keeps the parameters of the model it replaces. *)
Definition load_robust_tuned_model (desc : string) (step : Z)
  : M (BertClassifier * gmap string (fs_entry Params)) unit :=
  fun s =>
    match from_pretrained (snd s) (robust_ckpt_path (fst s) desc step) with
    | Raise e => (Raise e, s)
    | Return m =>
        (Return tt,
         (set_fine_tune (option_map unbind (_fine_tune_opt (fst s)))
            (_fine_tune_sche (fst s))
            (set_model (fun _ => model_eval m) (fst s)),
          snd s))
    end.

(** [save_robust_tuned_model(self, desc, step)] *)
Definition save_robust_tuned_model (desc : string) (step : Z)
  : M (BertClassifier * gmap string (fs_entry Params)) unit :=
  fun s =>
    (Return tt,
     (fst s,
      save_pretrained (_model (fst s)) (robust_ckpt_path (fst s) desc step) (snd s))).

End FacadeSnapshots.

Section Observations.
Context `{Collaborators}.

(** The first [n] batches an iterator yields and the iterator after them;
    [None] when it runs dry before. *)
Fixpoint draw (n : nat) (it : Iter) : option (list (Encoded * Labels) * Iter) :=
  match n with
  | O => Some ([], it)
  | S n' =>
      match next_batch it with
      | None => None
      | Some (b, it') =>
          match draw n' it' with
          | None => None
          | Some (bs, it'') => Some (b :: bs, it'')
          end
      end
  end.

(** The matches, the sizes and the losses of a list of batches under fixed
    weights in eval mode. *)
Definition eval_correct (p : Params) (bs : list (Encoded * Labels)) : Z :=
  fold_right (fun b acc => num_correct (snd (forward false p (fst b) (snd b))) (snd b)
                           + acc)%Z 0%Z bs.

Definition eval_count (bs : list (Encoded * Labels)) : Z :=
  fold_right (fun b acc => batch_size (fst b) + acc)%Z 0%Z bs.

Definition eval_losses (p : Params) (bs : list (Encoded * Labels)) : list Loss :=
  map (fun b => fst (forward false p (fst b) (snd b))) bs.

(** The values of a field over the records that carry it, in order. *)
Definition field_values (key : string) (rs : list (gmap string pyval)) : list pyval :=
  omap (fun r : gmap string pyval => r !! key) rs.

End Observations.

(** The small collaborators again, with a validation iterator that counts
    down the batches it has left and then runs dry. *)
Definition toy_dry : Collaborators := {|
  Params := Z;
  Encoded := Z;
  Labels := Z;
  Loss := Z;
  Logits := Z;
  OptState := unit;
  Iter := nat;
  Dataset := nat;
  Dist := Z;
  WordMap := unit;
  LM := unit;
  forward := fun _ p e l => ((p + e)%Z, l);
  forward_raises := fun _ e l => if (e =? l)%Z then None else Some ValueError;
  classify := fun _ p e => (p + e)%Z;
  batch_size := fun e => e;
  num_correct := fun lg l => if (lg =? l)%Z then 1%Z else 0%Z;
  argmax_labels := fun lg => [lg];
  next_batch := fun it => match it with
                          | O => None
                          | S it' => Some ((4%Z, 1%Z), it')
                          end;
  opt_init := fun _ => tt;
  opt_update := fun _ _ _ st _ p _ _ => (st, (p + 1)%Z);
  root_dir := "/data";
  pretrained := fun _ _ => 0%Z;
  num_labels := fun _ => 2%Z;
  cased := fun _ => true;
  sem_transform_dataset := fun d _ => d;
  train_batches := fun d _ bs => repeat (bs, 1%Z) d;
  val_iter := fun d _ _ => d;
  tokenizer := fun t0 _ => Return (Z.of_nat (length t0));
  tensor_of_labels := fun ls => Return (Z.of_nat (length ls));
  sem_fix_sentences := fun pl _ => Return pl;
  lmag_fix_sentences := fun pl _ _ _ => Return (pl ≫= replicate 10);
  log_softmax := fun lg => lg;
  lmag_vote := fun lg n rep =>
    if (rep =? 0)%Z then Raise ZeroDivisionError
    else if (n mod rep =? 0)%Z then Return lg
    else Raise (RuntimeError "shape is invalid for input");
|}.

(** An evaluation heap over [toy_dry] with [n] validation batches left. *)
Definition toy_dry_heap (n : nat) : @eval_heap toy_dry :=
  @Build_eval_heap toy_dry (@Build_model toy_dry true 0%Z) n
    (@Build_SummaryWriter toy_dry "/data/bert_clf/mr/summary" []).

(** A record with a second field but no first field, and one without a label. *)
Definition second_only_record : gmap string pyval :=
  <["text1" := PStr "a hypothesis"]> (<["label" := PInt 0]> ∅).

Definition unlabelled_record : gmap string pyval :=
  <["text0" := PStr "a fine film"]> ∅.

(** A computation that leaves its objects as they are, whatever it returns
    or raises. *)
Definition reads_only {S A : Type} (m : M S A) : Prop := forall s, snd (m s) = s.

(** ** Integer formatting shared by the other modules *)

(** ["%d" % z] and [str(z)] for an integer. *)
Definition format_d (z : Z) : string :=
  if (z <? 0)%Z then "-" +:+ str_of_N (Z.to_N (- z)) else str_of_N (Z.to_N z).

(** ["%d" % v]: a string operand is a TypeError. *)
Definition py_format_d (v : pyval) : outcome string :=
  match v with
  | PInt z => Return (format_d z)
  | PStr _ => Raise TypeError
  end.

(** [str(v)] *)
Definition py_str (v : pyval) : string :=
  match v with
  | PStr s => s
  | PInt z => format_d z
  end.

(** ** fasttext_classifier.py: change_to_fasttext_format *)

(** A fibber dataset: the keys of the dataset contract. *)
Record fibber_dataset : Type := {
  ds_data : list (gmap string pyval);
  ds_label_mapping : list string;
  ds_cased : bool;
  ds_paraphrase_field : string;
}.

(** What one [print("__label__%d" % item["label"], item["text0"], file=f)]
    writes, without the newline that ends it (the text is written as it is,
    with the newlines it may contain). *)
Definition fasttext_line (item : gmap string pyval) : outcome string :=
  match py_getitem item "label" with
  | Raise e => Raise e
  | Return l =>
      match py_format_d l with
      | Raise e => Raise e
      | Return lab =>
          match py_getitem item "text0" with
          | Raise e => Raise e
          | Return t => Return ("__label__" +:+ lab +:+ " " +:+ py_str t)
          end
      end
  end.

(** The loop of lines 16-20 over what has been printed so far, one string
    for every call of [print]. *)
Fixpoint write_fasttext_items (items : list (gmap string pyval))
  : M (list string) unit :=
  match items with
  | [] => ret tt
  | item :: rest =>
      (if py_in "text1" item then raise (RuntimeError EmptyString)
       else
         line <- lift_outcome (fasttext_line item) ;;
         modify (fun printed => printed ++ [line]) ;;;
         write_fasttext_items rest)%py
  end.

(** [change_to_fasttext_format(dataset, filename)] on the text files of the
    file system, each the list of the strings printed into it, a newline
    after each; opening the file for writing empties it (the path is taken
    to be writable). *)
Definition change_to_fasttext_format (dataset : fibber_dataset) (filename : string)
  : M (gmap string (list string)) unit :=
  fun files =>
    let '(r, printed) := write_fasttext_items (ds_data dataset) [] in
    (r, <[filename := printed]> files).

(** ** ref_bleu_metric.py: RefBleuMetric.measure_example *)

(** The [ref] entry of a record: one reference or a list of references. *)
Inductive ref_entry : Type :=
| OneRef (v : pyval)
| RefList (l : list pyval).

(** What [measure_example] returns: the integer 0 or a BLEU score. *)
Inductive bleu_result (Score : Type) : Type :=
| BleuZero
| BleuScore (s : Score).
Arguments BleuZero {Score}.
Arguments BleuScore {Score} s.

Section RefBleu.
Variable Score : Type.
(** [nltk.word_tokenize] and [bleu_score.sentence_bleu] with the smoothing
    function [method1]. *)
Variable word_tokenize : pyval -> outcome (list string).
Variable sentence_bleu : list (list string) -> list string -> outcome Score.

(** [[word_tokenize(item) for item in ref]] *)
Fixpoint tokenize_all (refs : list pyval) : outcome (list (list string)) :=
  match refs with
  | [] => Return []
  | r :: rest =>
      match word_tokenize r with
      | Raise e => Raise e
      | Return toks =>
          match tokenize_all rest with
          | Raise e => Raise e
          | Return more => Return (toks :: more)
          end
      end
  end.

(** The body of the [try] block: [None] stands for any exception in it. *)
Definition tokenized_refs (data_record : option (gmap string ref_entry))
  : option (list (list string)) :=
  match data_record with
  | None => None
  | Some r =>
      match r !! "ref" with
      | None => None
      | Some entry =>
          let refs := match entry with
                      | RefList l => l
                      | OneRef v => [v]
                      end in
          match tokenize_all refs with
          | Return toks => Some toks
          | Raise _ => None
          end
      end
  end.

(** [measure_example(self, origin, paraphrase, data_record, paraphrase_field)] *)
Definition measure_example (origin paraphrase : pyval)
    (data_record : option (gmap string ref_entry)) (paraphrase_field : string)
  : outcome (bleu_result Score) :=
  match tokenized_refs data_record with
  | None => Return BleuZero
  | Some ref =>
      match word_tokenize paraphrase with
      | Raise e => Raise e
      | Return hypo =>
          match sentence_bleu ref hypo with
          | Raise e => Raise e
          | Return s => Return (BleuScore s)
          end
      end
  end.

End RefBleu.

(** ** strategy_base.py: StrategyBase.__init__ *)

(** An entry of [__hyperparameters__]: [(name, type, default, help)]. *)
Record hyperparameter : Type := {
  p_name : string;
  p_type : string;
  p_default : pyval;
  p_help : string;
}.

Section Strategy.
Variable Device : Type.
Variable MetricBundle : Type.
(** [torch.device(name)] *)
Variable torch_device : string -> outcome Device.

(** The attributes [__init__] assigns. *)
Record StrategyBase : Type := {
  _strategy_config : gmap string pyval;
  _metric_bundle : MetricBundle;
  _device : Device;
}.

(** The loop of lines 78-87 over the configuration built so far. *)
Fixpoint read_hyperparameters (abbr : string) (arg_dict : gmap string pyval)
    (hps : list hyperparameter) : M (gmap string pyval) unit :=
  match hps with
  | [] => ret tt
  | hp :: rest =>
      (let arg_name := abbr +:+ "_" +:+ p_name hp in
       let p_value := match arg_dict !! arg_name with
                      | None => p_default hp
                      | Some v => v
                      end in
       config <- get ;;
       py_assert (negb (py_in (p_name hp) config)) EmptyString ;;;
       modify (fun config => <[p_name hp := p_value]> config) ;;;
       read_hyperparameters abbr arg_dict rest)%py
  end.

(** Lines 89-95: the device of the strategy. *)
Definition strategy_device (arg_dict : gmap string pyval) : outcome Device :=
  match py_getitem arg_dict "strategy_gpu_id" with
  | Raise e => Raise e
  | Return (PInt z) =>
      if (z =? -1)%Z then torch_device "cpu"
      else torch_device ("cuda:" +:+ format_d z)
  | Return (PStr _) => Raise TypeError
  end.

(** [StrategyBase.__init__(self, arg_dict, metric_bundle)] for a class with
    the given name, [__abbr__] and [__hyperparameters__]. *)
Definition StrategyBase_init (class_name abbr : string)
    (hyperparameters : list hyperparameter) (arg_dict : gmap string pyval)
    (metric_bundle : MetricBundle) : outcome StrategyBase :=
  match read_hyperparameters abbr arg_dict hyperparameters
          (<["strategy_name" := PStr class_name]> ∅) with
  | (Raise e, _) => Raise e
  | (Return _, config) =>
      match strategy_device arg_dict with
      | Raise e => Raise e
      | Return dev =>
          Return {| _strategy_config := config; _metric_bundle := metric_bundle;
                    _device := dev |}
      end
  end.

End Strategy.

(** ** scripts/benchmark_launcher.py *)

(** The values of the configuration tables: integers, strings, and floats
    carried by the text [str] gives them. *)
Inductive cfgval : Type :=
| CInt (z : Z)
| CStr (s : string)
| CFloat (repr : string).

(** [str(v)] *)
Definition cfg_str (v : cfgval) : string :=
  match v with
  | CInt z => format_d z
  | CStr s => s
  | CFloat repr => repr
  end.

(** A dict in insertion order: [d[k]], [d[k] = v] and [d.keys()]. *)
Fixpoint dict_get {V : Type} (d : list (string * V)) (k : string) : outcome V :=
  match d with
  | [] => Raise (KeyError k)
  | (k', v) :: rest => if String.eqb k' k then Return v else dict_get rest k
  end.

Fixpoint dict_set {V : Type} (d : list (string * V)) (k : string) (v : V)
  : list (string * V) :=
  match d with
  | [] => [(k, v)]
  | (k', v') :: rest =>
      if String.eqb k' k then (k', v) :: rest else (k', v') :: dict_set rest k v
  end.

Definition dict_keys {V : Type} (d : list (string * V)) : list string := map fst d.

Definition COMMON_CONFIG : list (string * cfgval) :=
  [ ("--subsample_testset", CInt 1000);
    ("--num_paraphrases_per_text", CInt 50);
    ("--robust_tuning", CStr "0");
    ("--robust_tuning_steps", CInt 5000) ].

Definition DEFENSE_CONFIG : list (string * list (string * cfgval)) :=
  [ ("none",
     []);
    ("sem",
     [ ("--bert_clf_enable_sem", CStr "1") ]);
    ("lmag",
     [ ("--bert_clf_enable_lmag", CStr "1") ]) ].

Definition GPU_CONFIG : list (string * list (string * cfgval)) :=
  [ ("0",
     [ ("--bert_gpu_id", CInt 0);
       ("--use_gpu_id", CInt 0);
       ("--gpt2_gpu_id", CInt 0);
       ("--strategy_gpu_id", CInt 0);
       ("--ce_gpu_id", CInt 0) ]);
    ("1",
     [ ("--bert_gpu_id", CInt 1);
       ("--use_gpu_id", CInt 1);
       ("--gpt2_gpu_id", CInt 1);
       ("--ce_gpu_id", CInt 1);
       ("--strategy_gpu_id", CInt 1) ]) ].

Definition DATASET_CONFIG : list (string * list (string * cfgval)) :=
  [ ("ag_no_title",
     [ ("--dataset", CStr "ag_no_title");
       ("--output_dir", CStr "exp-ag_no_title");
       ("--bert_clf_steps", CInt 20000) ]);
    ("mr",
     [ ("--dataset", CStr "mr");
       ("--output_dir", CStr "exp-mr");
       ("--bert_clf_steps", CInt 5000) ]);
    ("imdb",
     [ ("--dataset", CStr "imdb");
       ("--output_dir", CStr "exp-imdb");
       ("--bert_clf_steps", CInt 5000) ]);
    ("yelp",
     [ ("--dataset", CStr "yelp");
       ("--output_dir", CStr "exp-yelp");
       ("--bert_clf_steps", CInt 20000) ]);
    ("snli",
     [ ("--dataset", CStr "snli");
       ("--output_dir", CStr "exp-snli");
       ("--bert_clf_steps", CInt 20000) ]);
    ("mnli",
     [ ("--dataset", CStr "mnli");
       ("--output_dir", CStr "exp-mnli");
       ("--bert_clf_steps", CInt 20000) ]);
    ("mnli_mis",
     [ ("--dataset", CStr "mnli_mis");
       ("--output_dir", CStr "exp-mnli_mis");
       ("--bert_clf_steps", CInt 20000) ]);
    ("sst2",
     [ ("--dataset", CStr "sst2");
       ("--output_dir", CStr "exp-sst2");
       ("--bert_clf_steps", CInt 20000) ]);
    ("qnli",
     [ ("--dataset", CStr "qnli");
       ("--output_dir", CStr "exp-qnli");
       ("--bert_clf_steps", CInt 20000) ]) ].

Definition STRATEGY_CONFIG : list (string * list (string * cfgval)) :=
  [ ("identity",
     [ ("--strategy", CStr "IdentityStrategy") ]);
    ("random",
     [ ("--strategy", CStr "RandomStrategy") ]);
    ("textfooler",
     [ ("--strategy", CStr "TextAttackStrategy");
       ("--ta_recipe", CStr "TextFoolerJin2019");
       ("--robust_tune_num_attack_per_step", CInt 20) ]);
    ("pso",
     [ ("--strategy", CStr "OpenAttackStrategy");
       ("--ta_recipe", CStr "PSOAttacker");
       ("--robust_tune_num_attack_per_step", CInt 5) ]);
    ("bertattack",
     [ ("--strategy", CStr "OpenAttackStrategy");
       ("--oa_recipe", CStr "BERTAttacker");
       ("--robust_tune_num_attack_per_step", CInt 5) ]);
    ("bae",
     [ ("--strategy", CStr "OpenAttackStrategy");
       ("--oa_recipe", CStr "BAEAttacker");
       ("--robust_tune_num_attack_per_step", CInt 5) ]);
    ("scpn",
     [ ("--strategy", CStr "OpenAttackStrategy");
       ("--oa_recipe", CStr "SCPNAttacker");
       ("--robust_tune_num_attack_per_step", CInt 5) ]);
    ("gsa",
     [ ("--strategy", CStr "TextAttackStrategy");
       ("--ta_recipe", CStr "Kuleshov2017");
       ("--robust_tune_num_attack_per_step", CInt 5) ]);
    ("pwws",
     [ ("--strategy", CStr "TextAttackStrategy");
       ("--ta_recipe", CStr "PWWSRen2019");
       ("--robust_tune_num_attack_per_step", CInt 5) ]);
    ("asrs",
     [ ("--strategy", CStr "ASRSStrategy");
       ("--asrs_enforcing_dist", CStr "wpe");
       ("--asrs_wpe_threshold", CFloat "1.0");
       ("--asrs_wpe_weight", CInt 1000);
       ("--asrs_sim_threshold", CFloat "0.95");
       ("--asrs_sim_weight", CInt 500);
       ("--asrs_ppl_weight", CInt 5);
       ("--asrs_sampling_steps", CInt 200);
       ("--asrs_burnin_steps", CInt 100);
       ("--asrs_clf_weight", CInt 3);
       ("--asrs_window_size", CInt 3);
       ("--asrs_accept_criteria", CStr "joint_weighted_criteria");
       ("--asrs_burnin_enforcing_schedule", CStr "1");
       ("--asrs_burnin_criteria_schedule", CStr "1");
       ("--asrs_seed_option", CStr "dynamic_len");
       ("--asrs_split_sentence", CStr "1");
       ("--asrs_lm_option", CStr "finetune");
       ("--asrs_stanza_port", CInt 9001);
       ("--asrs_sim_metric", CStr "CESimilarityMetric");
       ("--robust_tune_num_attack_per_step", CInt 5) ]);
    ("fu",
     [ ("--strategy", CStr "FudgeStrategy") ]);
    ("asrs-nli",
     [ ("--asrs_sim_weight", CInt 100);
       ("--asrs_ppl_weight", CInt 3);
       ("--asrs_clf_weight", CInt 3) ]);
    ("asrs-u",
     [ ("--asrs_sim_metric", CStr "USESimilarityMetric");
       ("--best_adv_metric_name", CStr "USESimilarityMetric") ]);
    ("asrs-u-nli",
     [ ("--asrs_sim_weight", CInt 100);
       ("--asrs_ppl_weight", CInt 3);
       ("--asrs_clf_weight", CInt 3);
       ("--asrs_sim_metric", CStr "USESimilarityMetric");
       ("--best_adv_metric_name", CStr "USESimilarityMetric") ]) ].

(** [to_command(args)] *)
Definition to_command (args : list (string * cfgval)) : list string :=
  flat_map (fun kv => [fst kv; cfg_str (snd kv)]) args.

(** What [parser.parse_args()] returns. *)
Record launcher_args : Type := {
  arg_gpu : string;
  arg_dataset : string;
  arg_strategy : string;
  arg_robust_desc : option string;
  arg_robust_tuning : string;
  arg_defense : string;
}.

(** Lines 218-225: the options of a strategy; the variants of ["asrs"]
    override a copy of its table. *)
Definition strategy_command (strategy : string) : outcome (list string) :=
  if String.eqb (String.substring 0 4 strategy) "asrs" then
    match dict_get STRATEGY_CONFIG "asrs" with
    | Raise e => Raise e
    | Return base =>
        if negb (String.eqb strategy "asrs") then
          match dict_get STRATEGY_CONFIG strategy with
          | Raise e => Raise e
          | Return over =>
              Return (to_command
                        (fold_left (fun tmp kv => dict_set tmp (fst kv) (snd kv))
                           over base))
          end
        else Return (to_command base)
    end
  else
    match dict_get STRATEGY_CONFIG strategy with
    | Raise e => Raise e
    | Return cfg => Return (to_command cfg)
    end.

(** Lines 211-225: the command of one dataset and one strategy. *)
Definition build_command (args : launcher_args) (common : list (string * cfgval))
    (dataset strategy : string) : outcome (list string) :=
  let command := ["python3"; "-m"; "fibber.benchmark.benchmark"] in
  let command :=
    match arg_robust_desc args with
    | Some desc => command ++ to_command [("--load_robust_tuned_clf", CStr desc)]
    | None => command
    end in
  let command := command ++ to_command common in
  match dict_get GPU_CONFIG (arg_gpu args) with
  | Raise e => Raise e
  | Return gpu =>
      let command := command ++ to_command gpu in
      match dict_get DATASET_CONFIG dataset with
      | Raise e => Raise e
      | Return ds =>
          let command := command ++ to_command ds in
          match dict_get DEFENSE_CONFIG (arg_defense args) with
          | Raise e => Raise e
          | Return defense =>
              let command := command ++ to_command defense in
              match strategy_command strategy with
              | Raise e => Raise e
              | Return st => Return (command ++ st)
              end
          end
      end
  end.

(** A [for] loop whose body may raise. *)
Fixpoint for_each {S A : Type} (l : list A) (body : A -> M S unit) : M S unit :=
  match l with
  | [] => ret tt
  | x :: rest => (body x ;;; for_each rest body)%py
  end.

(** [main()] from the parsed arguments on, over the list of commands handed
    to [subprocess.call] so far. *)
Definition main (args : launcher_args) : M (list (list string)) unit :=
  let common := if String.eqb (arg_robust_tuning args) "1"
                then dict_set COMMON_CONFIG "--robust_tuning" (CStr "1")
                else COMMON_CONFIG in
  let dataset_list := if String.eqb (arg_dataset args) "all"
                      then dict_keys DATASET_CONFIG else [arg_dataset args] in
  let strategy_list := if String.eqb (arg_strategy args) "all"
                       then dict_keys STRATEGY_CONFIG else [arg_strategy args] in
  for_each dataset_list (fun dataset =>
    for_each strategy_list (fun strategy =>
      (command <- lift_outcome (build_command args common dataset strategy) ;;
       modify (fun calls => calls ++ [command]))%py)).

(** * Theorems *)

Section EvaluationProofs.
Context `{Collaborators}.

Lemma eval_loop_frame (n : nat) :
  forall (acc : eval_acc) (h : eval_heap),
    h_model (snd (eval_loop n acc h)) = h_model h
    /\ h_summary (snd (eval_loop n acc h)) = h_summary h.
Proof.
  induction n as [|n IH]; intros acc h; cbn [eval_loop].
  - split; reflexivity.
  - unfold bind, py_next, get.
    destruct (next_batch (h_iter h)) as [[b it']|] eqn:Hn; cbn;
      [|split; reflexivity].
    destruct (forward _ _ _ _) as [loss logits].
    match goal with |- context [eval_loop n ?a ?x] => destruct (IH a x) as [Hm Hs] end.
    rewrite Hm, Hs. split; reflexivity.
Qed.

(** When the validation iterator never runs dry, the loop returns. *)
Lemma eval_loop_returns (n : nat) :
  (forall it, is_Some (next_batch it)) ->
  forall (acc : eval_acc) (h : eval_heap),
    exists acc', fst (eval_loop n acc h) = Return acc'.
Proof.
  intros Hnext. induction n as [|n IH]; intros acc h; cbn [eval_loop].
  - exists acc. reflexivity.
  - unfold bind, py_next, get.
    destruct (Hnext (h_iter h)) as [[b it'] Hb]. rewrite Hb. cbn.
    destruct (forward _ _ _ _) as [loss logits]. apply IH.
Qed.

(** A call that returns leaves the model in train mode, with its weights. *)
Lemma run_evaluate_exit (eval_steps global_step : Z) (h h' : eval_heap) :
  run_evaluate eval_steps global_step h = (Return tt, h') ->
  h_model h' = model_train (h_model h).
Proof.
  unfold run_evaluate, bind, modify.
  destruct (eval_loop _ _ _) as [[acc|e] h1] eqn:Hloop; [|discriminate].
  pose proof (eval_loop_frame (Z.to_nat eval_steps)
                {| correct := 0; count := 0; loss_list := [] |}
                (set_h_model model_eval h)) as [Hm _].
  rewrite Hloop in Hm. cbn in Hm.
  destruct (eval_steps <=? 0)%Z; cbn; [discriminate|].
  intros [= <-]. cbn. rewrite Hm. reflexivity.
Qed.

(** A call that raises leaves the model in eval mode. *)
Lemma run_evaluate_raise (eval_steps global_step : Z) (h h' : eval_heap) (e : exn) :
  run_evaluate eval_steps global_step h = (Raise e, h') ->
  h_model h' = model_eval (h_model h).
Proof.
  unfold run_evaluate, bind, modify.
  pose proof (eval_loop_frame (Z.to_nat eval_steps)
                {| correct := 0; count := 0; loss_list := [] |}
                (set_h_model model_eval h)) as [Hm _].
  destruct (eval_loop _ _ _) as [[acc|e'] h1] eqn:Hloop; cbn in Hm.
  - destruct (eval_steps <=? 0)%Z; cbn; [|discriminate].
    intros [= _ <-]. exact Hm.
  - intros [= _ <-]. exact Hm.
Qed.

(** With at least one batch to draw and an iterator that never runs dry,
    the call returns. *)
Lemma run_evaluate_returns (eval_steps global_step : Z) (h : eval_heap) :
  (forall it, is_Some (next_batch it)) ->
  (1 <= eval_steps)%Z ->
  exists h', run_evaluate eval_steps global_step h = (Return tt, h').
Proof.
  intros Hnext Hsteps. unfold run_evaluate, bind, modify.
  destruct (eval_loop_returns (Z.to_nat eval_steps) Hnext
              {| correct := 0; count := 0; loss_list := [] |}
              (set_h_model model_eval h)) as [acc Hacc].
  destruct (eval_loop _ _ _) as [r h1]. cbn in Hacc. subst r.
  destruct (Z.leb_spec eval_steps 0); [lia|]. cbn. eauto.
Qed.

(** C1 (as the code has it): [run_evaluate] switches the model to eval mode
    on entry and to train mode before it returns, whatever the mode on
    entry.  So every call that returns leaves the model in train mode with
    its weights untouched; the mode on entry is preserved when that mode was
    train mode; and every further call in a row that returns again leaves
    the model in train mode, with the weights it had at the start. *)
Theorem C1_run_evaluate_exits_in_train_mode
    (steps1 g1 : Z) (h h1 : eval_heap) :
  run_evaluate steps1 g1 h = (Return tt, h1) ->
  training (h_model h1) = true
  /\ parameters (h_model h1) = parameters (h_model h)
  /\ (training (h_model h) = true -> training (h_model h1) = training (h_model h))
  /\ (forall (steps2 g2 : Z) (h2 : eval_heap),
        run_evaluate steps2 g2 h1 = (Return tt, h2) ->
        training (h_model h2) = true
        /\ parameters (h_model h2) = parameters (h_model h)).
Proof.
  intros E1. apply run_evaluate_exit in E1. rewrite E1. cbn.
  split; [reflexivity|]. split; [reflexivity|].
  split; [intros ->; reflexivity|].
  intros steps2 g2 h2 E2. apply run_evaluate_exit in E2.
  rewrite E2, E1. cbn. split; reflexivity.
Qed.

End EvaluationProofs.

(** C1 fails as stated: a model that enters [run_evaluate] in eval mode is
    in train mode when the call returns. *)
Lemma C1_counterexample_eval_mode_not_restored :
  fst (run_evaluate (H := toy) 1 500 toy_eval_heap) = Return tt
  /\ training (h_model toy_eval_heap) = false
  /\ training (h_model (snd (run_evaluate (H := toy) 1 500 toy_eval_heap))) = true.
Proof. vm_compute. repeat split. Qed.

Lemma C1_witness :
  training (h_model (snd (run_evaluate (H := toy) 1 500 toy_eval_heap))) = true
  /\ training (h_model
       (snd (run_evaluate (H := toy) 2 1000
          (snd (run_evaluate (H := toy) 1 500 toy_eval_heap))))) = true.
Proof.
  pose proof (C1_run_evaluate_exits_in_train_mode (H := toy) 1 500
                toy_eval_heap
                (snd (run_evaluate (H := toy) 1 500 toy_eval_heap))
                eq_refl) as (H1 & _ & _ & H2).
  split; [exact H1|].
  exact (proj1 (H2 2%Z 1000%Z
                  (snd (run_evaluate (H := toy) 2 1000
                     (snd (run_evaluate (H := toy) 1 500 toy_eval_heap))))
                  eq_refl)).
Defined.

Section FacadeProofs.
Context `{Collaborators}.

Lemma py_in_lookup (key : string) (r : gmap string pyval) :
  py_in key r = match r !! key with Some _ => true | None => false end.
Proof.
  unfold py_in. destruct (r !! key) as [v|].
  - apply bool_decide_true. eauto.
  - apply bool_decide_false. intros [? ?]. discriminate.
Qed.

Lemma count_field_cons (key : string) (r : gmap string pyval)
    (rs : list (gmap string pyval)) :
  count_field key (r :: rs)
  = ((match r !! key with Some _ => 1 | None => 0 end) + count_field key rs)%nat.
Proof.
  unfold count_field. cbn [List.filter]. rewrite py_in_lookup.
  destruct (r !! key); reflexivity.
Qed.

(** With a label in every record, collecting the fields returns, and the
    two text lists grow by the number of records carrying each field. *)
Lemma collect_records_lengths (rs : list (gmap string pyval)) :
  Forall (fun r => is_Some (r !! "label")) rs ->
  forall acc, exists c,
    collect_records acc rs = Return c
    /\ length (text0_list c) = (length (text0_list acc) + count_field "text0" rs)%nat
    /\ length (text1_list c) = (length (text1_list acc) + count_field "text1" rs)%nat.
Proof.
  induction 1 as [|r rs [l Hl] _ IH]; intros acc.
  - exists acc. unfold count_field. cbn. repeat split; lia.
  - cbn [collect_records]. unfold collect_record, py_getitem. rewrite Hl.
    match goal with
    | |- context [collect_records ?a rs] => destruct (IH a) as (c & Hc & H0 & H1)
    end.
    exists c. split; [exact Hc|].
    rewrite H0, H1, !count_field_cons. cbn [text0_list text1_list].
    destruct (r !! "text0") as [v0|]; destruct (r !! "text1") as [v1|];
      rewrite ?length_app; cbn [length]; lia.
Qed.

(** A step on a live pair, over labelled records whose field presence is
    mismatched, stops at the consistency check with the model switched to
    train mode and nothing else touched. *)
Lemma robust_tune_step_mismatch (self : BertClassifier)
    (rs : list (gmap string pyval)) :
  is_Some (_fine_tune_sche self) ->
  is_Some (_fine_tune_opt self) ->
  Forall (fun r => is_Some (r !! "label")) rs ->
  count_field "text1" rs <> 0%nat ->
  count_field "text1" rs <> count_field "text0" rs ->
  robust_tune_step rs self
  = (Raise (RuntimeError "data records are not consistent."),
     set_model model_train self).
Proof.
  intros [sche Hs] [opt Ho] Hlab Hne0 Hne.
  unfold robust_tune_step, bind, get. rewrite Hs, Ho.
  unfold modify, lift_outcome.
  destruct (collect_records_lengths rs Hlab
              {| text0_list := []; text1_list := []; labels := [] |})
    as (c & Hc & H0 & H1).
  rewrite Hc. cbn [length Nat.add text0_list text1_list] in H0, H1.
  unfold check_consistent. rewrite H0, H1.
  destruct (Nat.eqb_spec (count_field "text1" rs) 0); [contradiction|].
  destruct (Nat.eqb_spec (count_field "text1" rs) (count_field "text0" rs));
    [contradiction|].
  reflexivity.
Qed.

(** A step that returns leaves the model in eval mode. *)
Lemma robust_tune_step_success (self self' : BertClassifier)
    (rs : list (gmap string pyval)) (v : list Z * Loss) :
  robust_tune_step rs self = (Return v, self') ->
  training (_model self') = false.
Proof.
  unfold robust_tune_step, bind, get, modify, lift_outcome.
  destruct (_fine_tune_sche self) as [sche|]; [|discriminate].
  destruct (_fine_tune_opt self) as [opt|]; [|discriminate].
  destruct (collect_records _ rs) as [c|e]; [|discriminate].
  unfold check_consistent.
  destruct (length (text1_list c) =? 0)%nat.
  - unfold ret. destruct (tokenizer _ _) as [enc|e]; [|discriminate].
    destruct (tensor_of_labels _) as [lab|e]; [|discriminate].
    destruct (forward_raises _ _ _) as [e|]; [discriminate|].
    destruct (forward _ _ _ _) as [loss logits].
    intros [= _ <-]. reflexivity.
  - destruct (negb _); [discriminate|].
    unfold ret. destruct (tokenizer _ _) as [enc|e]; [|discriminate].
    destruct (tensor_of_labels _) as [lab|e]; [|discriminate].
    destruct (forward_raises _ _ _) as [e|]; [discriminate|].
    destruct (forward _ _ _ _) as [loss logits].
    intros [= _ <-]. reflexivity.
Qed.

(** C6 (as the code has it): on a facade whose fine-tune optimizer and
    schedule are live, for every batch of records that each carry a label
    and whose field presence is mismatched (the number of [text1] fields is
    neither zero nor the number of [text0] fields), [robust_tune_step]
    raises the data-consistency error and leaves the model weights, the
    optimizer and the schedule as they were. *)
Theorem C6_robust_tune_step_mismatch_fails (self : BertClassifier)
    (rs : list (gmap string pyval)) :
  is_Some (_fine_tune_sche self) ->
  is_Some (_fine_tune_opt self) ->
  Forall (fun r => is_Some (r !! "label")) rs ->
  count_field "text1" rs <> 0%nat ->
  count_field "text1" rs <> count_field "text0" rs ->
  fst (robust_tune_step rs self)
  = Raise (RuntimeError "data records are not consistent.")
  /\ parameters (_model (snd (robust_tune_step rs self))) = parameters (_model self)
  /\ _fine_tune_opt (snd (robust_tune_step rs self)) = _fine_tune_opt self
  /\ _fine_tune_sche (snd (robust_tune_step rs self)) = _fine_tune_sche self.
Proof.
  intros Hs Ho Hlab Hne0 Hne.
  rewrite (robust_tune_step_mismatch self rs Hs Ho Hlab Hne0 Hne).
  repeat split.
Qed.

(** C9: [robust_tune_step] switches the model to train mode before it checks
    the batch and back to eval mode only on the path that returns: for every
    batch that triggers the mismatched-field-presence error the model is in
    train mode when the call exits, while every call that returns leaves it
    in eval mode. *)
Theorem C9_robust_tune_step_mismatch_leaves_train_mode (self : BertClassifier)
    (rs : list (gmap string pyval)) :
  is_Some (_fine_tune_sche self) ->
  is_Some (_fine_tune_opt self) ->
  Forall (fun r => is_Some (r !! "label")) rs ->
  count_field "text1" rs <> 0%nat ->
  count_field "text1" rs <> count_field "text0" rs ->
  is_raise (fst (robust_tune_step rs self)) = true
  /\ training (_model (snd (robust_tune_step rs self))) = true
  /\ (forall rs' v self', robust_tune_step rs' self = (Return v, self') ->
        training (_model self') = false).
Proof.
  intros Hs Ho Hlab Hne0 Hne.
  rewrite (robust_tune_step_mismatch self rs Hs Ho Hlab Hne0 Hne).
  repeat split. intros rs' v self'. apply robust_tune_step_success.
Qed.

(** A successful [robust_tune_init] leaves a live pair behind. *)
Lemma robust_tune_init_live (self self1 : BertClassifier)
    (name : string) (lr decay : Q) (steps : Z) :
  robust_tune_init name lr decay steps self = (Return tt, self1) ->
  is_Some (_fine_tune_sche self1) /\ is_Some (_fine_tune_opt self1).
Proof.
  unfold robust_tune_init, bind, get, modify, lift_outcome.
  destruct (_ || _)%bool; [discriminate|].
  destruct (get_optimizer _ _ _ _ _ _) as [[opt sche]|e]; [|discriminate].
  intros [= <-]. cbn. eauto.
Qed.

(** C8: calling [robust_tune_init] while a fine-tune optimizer or schedule is
    live raises the already-initialized error and leaves the facade, the
    live pair included, exactly as it was; a facade on which a first call
    has returned is in that situation. *)
Theorem C8_robust_tune_init_twice_fails (self self1 : BertClassifier)
    (name1 name2 : string) (lr1 decay1 lr2 decay2 : Q) (steps1 steps2 : Z) :
  robust_tune_init name1 lr1 decay1 steps1 self = (Return tt, self1) ->
  robust_tune_init name2 lr2 decay2 steps2 self1
  = (Raise (RuntimeError "fine tuning has been initialized."), self1)
  /\ (forall other : BertClassifier,
        is_Some (_fine_tune_sche other) \/ is_Some (_fine_tune_opt other) ->
        robust_tune_init name2 lr2 decay2 steps2 other
        = (Raise (RuntimeError "fine tuning has been initialized."), other)).
Proof.
  intros Hfirst.
  assert (Hlive : forall other : BertClassifier,
            is_Some (_fine_tune_sche other) \/ is_Some (_fine_tune_opt other) ->
            robust_tune_init name2 lr2 decay2 steps2 other
            = (Raise (RuntimeError "fine tuning has been initialized."), other)).
  { intros other Hl. unfold robust_tune_init, bind, get.
    destruct Hl as [Hl|Hl].
    - rewrite (bool_decide_true _ Hl). reflexivity.
    - rewrite (bool_decide_true _ Hl), orb_true_r. reflexivity. }
  split; [|exact Hlive].
  apply Hlive. left. apply (robust_tune_init_live _ _ _ _ _ _ Hfirst).
Qed.

End FacadeProofs.

(** C6 fails as stated: on a mismatched batch the call does not raise the
    data-consistency error when fine-tuning has not been initialized (the
    lifecycle error comes first), nor when a record of the batch carries no
    label (the KeyError of the collecting loop comes first). *)
Lemma C6_counterexample_other_errors_come_first :
  count_field "text1" [paired_record; single_record; paired_record] = 2%nat
  /\ count_field "text0" [paired_record; single_record; paired_record] = 3%nat
  /\ fst (robust_tune_step (H := toy)
            [paired_record; single_record; paired_record] (toy_facade false false))
     = Raise (RuntimeError "fine tuning not initialized.")
  /\ count_field "text1" [paired_record; unlabelled_record; paired_record] = 2%nat
  /\ count_field "text0" [paired_record; unlabelled_record; paired_record] = 3%nat
  /\ fst (robust_tune_step (H := toy)
            [paired_record; unlabelled_record; paired_record] (toy_facade false true))
     = Raise (KeyError "label").
Proof. vm_compute. repeat split. Qed.

Lemma C6_witness :
  fst (robust_tune_step (H := toy)
         [paired_record; single_record; paired_record] (toy_facade false true))
  = Raise (RuntimeError "data records are not consistent.").
Proof.
  refine (proj1 (C6_robust_tune_step_mismatch_fails (H := toy)
                   (toy_facade false true)
                   [paired_record; single_record; paired_record] _ _ _ _ _)).
  - cbn. eauto.
  - cbn. eauto.
  - repeat constructor; vm_compute; eauto.
  - vm_compute. lia.
  - vm_compute. lia.
Defined.

Lemma C9_witness :
  training (_model (snd (robust_tune_step (H := toy)
                           [paired_record; single_record; paired_record]
                           (toy_facade false true)))) = true.
Proof.
  refine (proj1 (proj2 (C9_robust_tune_step_mismatch_leaves_train_mode (H := toy)
                   (toy_facade false true)
                   [paired_record; single_record; paired_record] _ _ _ _ _))).
  - cbn. eauto.
  - cbn. eauto.
  - repeat constructor; vm_compute; eauto.
  - vm_compute. lia.
  - vm_compute. lia.
Defined.

Lemma C8_witness :
  fst (robust_tune_init (H := toy) "sgd" 1 0 100
         (snd (robust_tune_init (H := toy) "adamw" (2 # 100000) (1 # 1000) 5000
                 (toy_facade false false))))
  = Raise (RuntimeError "fine tuning has been initialized.").
Proof.
  pose proof (C8_robust_tune_init_twice_fails (H := toy)
                (toy_facade false false)
                (snd (robust_tune_init (H := toy) "adamw" (2 # 100000) (1 # 1000) 5000
                        (toy_facade false false)))
                "adamw" "sgd" (2 # 100000) (1 # 1000) 1 0 5000 100 eq_refl) as [E _].
  rewrite E. reflexivity.
Defined.

Section PredictProofs.
Context `{Collaborators}.

(** C2 (as the code has it): with the LM-guided defense enabled, a call of
    [predict_dist_batch] whose [paraphrase_field] is ["text0"] is stopped by
    the assertion exactly when the data record carries a [text1] field: the
    call then raises and leaves the facade untouched, and what it raises is
    the AssertionError whenever the SEM rewriting (run first when the SEM
    defense is enabled too) returns, and the error of the SEM rewriting
    otherwise.  A record with [text0] only is not guarded: its candidates,
    as the SEM step leaves them, are rewritten without context and
    classified, and the call returns the vote whenever the collaborators
    return. *)
Theorem C2_lmag_text0_raises_when_record_has_text1 (self : BertClassifier)
    (origin : pyval) (paraphrase_list : list pyval) (r : gmap string pyval) :
  _enable_lmag self = true ->
  (is_Some (r !! "text1") ->
     is_raise (fst (predict_dist_batch origin paraphrase_list (Some r) "text0" self))
     = true
     /\ snd (predict_dist_batch origin paraphrase_list (Some r) "text0" self) = self
     /\ (forall pl1 : list pyval,
           (if _enable_sem self
            then sem_fix_sentences paraphrase_list (_sem_word_map self)
            else Return paraphrase_list) = Return pl1 ->
           fst (predict_dist_batch origin paraphrase_list (Some r) "text0" self)
           = Raise (AssertionError EmptyString))
     /\ (forall e : exn,
           (if _enable_sem self
            then sem_fix_sentences paraphrase_list (_sem_word_map self)
            else Return paraphrase_list) = Raise e ->
           fst (predict_dist_batch origin paraphrase_list (Some r) "text0" self)
           = Raise e))
  /\ (r !! "text1" = None ->
      forall (pl1 : list pyval) (lm : LM) (rep : Z) (pl2 : list pyval)
             (enc : Encoded) (d : Dist),
        (if _enable_sem self
         then sem_fix_sentences paraphrase_list (_sem_word_map self)
         else Return paraphrase_list) = Return pl1 ->
        _lm self = Some lm ->
        _lmag_repeat self = Some rep ->
        lmag_fix_sentences pl1 None lm (parameters (_model self)) = Return pl2 ->
        tokenizer pl2 None = Return enc ->
        lmag_vote (classify (training (_model self)) (parameters (_model self)) enc)
          (Z.of_nat (length pl2)) rep = Return d ->
        predict_dist_batch origin paraphrase_list (Some r) "text0" self
        = (Return d, self)).
Proof.
  intros Hlmag. split.
  - intros Ht1.
    unfold predict_dist_batch, bind, get, lift_outcome, ret. rewrite Hlmag.
    assert (Hguard : forall pl1,
              lmag_defense pl1 (Some r) "text0" self
              = (Raise (AssertionError EmptyString), self)).
    { intros pl1. unfold lmag_defense, bind, get.
      rewrite py_in_lookup. destruct Ht1 as [v ->]. reflexivity. }
    destruct (_enable_sem self).
    + destruct (sem_fix_sentences _ _) as [pl1|e]; cbv beta iota.
      * rewrite Hguard. cbn.
        split; [reflexivity|]. split; [reflexivity|].
        split; [reflexivity | discriminate].
      * cbn. split; [reflexivity|]. split; [reflexivity|].
        split; [discriminate|]. intros e' [= <-]. reflexivity.
    + cbv beta iota. rewrite Hguard. cbn.
      split; [reflexivity|]. split; [reflexivity|].
      split; [reflexivity | discriminate].
  - intros Hno pl1 lm rep pl2 enc d Hsem Hlm Hrep Hfix Htok Hvote.
    unfold predict_dist_batch, bind, get.
    assert (Hpre : (if _enable_sem self
                    then lift_outcome
                           (sem_fix_sentences paraphrase_list (_sem_word_map self))
                    else ret paraphrase_list) self = (Return pl1, self)).
    { destruct (_enable_sem self); unfold lift_outcome, ret; rewrite Hsem;
        reflexivity. }
    rewrite Hpre. rewrite Hlmag.
    unfold lmag_defense, attribute, bind, get, lift_outcome, ret, raise.
    rewrite py_in_lookup, Hno, Hlm. cbv beta iota. rewrite Hfix.
    cbn [String.eqb Ascii.eqb Bool.eqb]. cbv beta iota.
    rewrite Htok, Hrep. cbv beta iota. rewrite Hvote. reflexivity.
Qed.

End PredictProofs.

(** C2 fails as stated: with the LM-guided defense enabled, a record that
    carries [text0] only and [paraphrase_field = "text0"], the call returns
    a distribution instead of raising: the candidate is rewritten ten times
    without context, the ten rows are classified and the vote is returned. *)
Lemma C2_counterexample_single_field_record_classified :
  _enable_lmag (toy_facade true false) = true
  /\ single_record !! "text1" = None
  /\ lmag_fix_sentences (Collaborators := toy) [PStr "a good film"] None tt 0%Z
     = Return (replicate 10 (PStr "a good film"))
  /\ is_raise (fst (predict_dist_batch (H := toy) (PStr "a fine film")
                     [PStr "a good film"] (Some single_record) "text0"
                     (toy_facade true false))) = false.
Proof. vm_compute. repeat split. Qed.

Lemma C2_witness :
  fst (predict_dist_batch (H := toy) (PStr "a hypothesis") [PStr "a guess"]
         (Some paired_record) "text0" (toy_facade true false))
  = Raise (AssertionError EmptyString).
Proof.
  refine (proj1 (proj2 (proj2 (proj1 (C2_lmag_text0_raises_when_record_has_text1
            (H := toy) (toy_facade true false) (PStr "a hypothesis")
            [PStr "a guess"] paired_record eq_refl) _)))
            [PStr "a guess"] eq_refl).
  vm_compute. eauto.
Defined.

(** ** The warmup/decay schedule *)

Lemma Qdiv_lt_same_den (a b d : Z) :
  (0 < d)%Z -> (a < b)%Z -> (inject_Z a / inject_Z d < inject_Z b / inject_Z d)%Q.
Proof.
  intros Hd Hab. unfold Qdiv. apply Qmult_lt_compat_r.
  - apply Qinv_lt_0_compat. change 0%Q with (inject_Z 0). rewrite <- Zlt_Qlt. exact Hd.
  - rewrite <- Zlt_Qlt. exact Hab.
Qed.

Lemma Qdiv_le_same_den (a b d : Z) :
  (0 < d)%Z -> (a <= b)%Z -> (inject_Z a / inject_Z d <= inject_Z b / inject_Z d)%Q.
Proof.
  intros Hd Hab. unfold Qdiv. apply Qmult_le_compat_r.
  - rewrite <- Zle_Qle. exact Hab.
  - apply Qlt_le_weak, Qinv_lt_0_compat. change 0%Q with (inject_Z 0).
    rewrite <- Zlt_Qlt. exact Hd.
Qed.

Lemma Qdiv_same (d : Z) : (0 < d)%Z -> (inject_Z d / inject_Z d == 1)%Q.
Proof.
  intros Hd. unfold Qdiv. apply Qmult_inv_r.
  unfold Qeq. cbn. lia.
Qed.

Lemma Qdiv_zero_num (d : Z) : (inject_Z 0 / inject_Z d == 0)%Q.
Proof. unfold Qdiv. apply Qmult_0_l. Qed.

(** Up to and at the warmup boundary the multiplier is [s / warmup]. *)
Lemma lr_lambda_warmup (W N s : Z) :
  (1 <= W < N)%Z -> (s <= W)%Z ->
  (lr_lambda W N s == inject_Z s / inject_Z W)%Q.
Proof.
  intros HW Hs. unfold lr_lambda.
  destruct (Z.ltb_spec s W) as [Hlt|Hge].
  - rewrite Z.max_r by lia. reflexivity.
  - assert (s = W) by lia. subst s.
    rewrite Z.max_r by lia.
    rewrite !Qdiv_same by lia.
    apply Q.max_r. discriminate.
Qed.

(** From the warmup boundary to the last step it is
    [(train_step - s) / (train_step - warmup)]. *)
Lemma lr_lambda_decay (W N s : Z) :
  (W < N)%Z -> (W <= s <= N)%Z ->
  (lr_lambda W N s == inject_Z (N - s) / inject_Z (N - W))%Q.
Proof.
  intros HW Hs. unfold lr_lambda.
  destruct (Z.ltb_spec s W) as [Hlt|Hge]; [lia|].
  rewrite Z.max_r by lia.
  apply Q.max_r.
  destruct (Z.eq_dec s N) as [->|Hne].
  - rewrite Z.sub_diag, Qdiv_zero_num. apply Qle_refl.
  - apply Qlt_le_weak. rewrite <- (Qdiv_zero_num (N - W)).
    apply Qdiv_lt_same_den; lia.
Qed.

Section ScheduleProofs.
Context `{Collaborators}.

(** Stepping the schedule [k] times sets the rate of step [k]. *)
Lemma sche_steps (opt : optimizer) (sche : scheduler) (k : nat) :
  last_epoch sche = 0%Z ->
  last_epoch (snd (Nat.iter k sche_step (opt, sche))) = Z.of_nat k
  /\ num_warmup_steps (snd (Nat.iter k sche_step (opt, sche))) = num_warmup_steps sche
  /\ num_training_steps (snd (Nat.iter k sche_step (opt, sche)))
     = num_training_steps sche
  /\ base_lr (snd (Nat.iter k sche_step (opt, sche))) = base_lr sche
  /\ (k <> O ->
      opt_lr (fst (Nat.iter k sche_step (opt, sche))) = lr_at sche (Z.of_nat k)).
Proof.
  intros H0. induction k as [|k IH].
  - cbn. rewrite H0. repeat split. congruence.
  - change (Nat.iter (S k) sche_step (opt, sche))
      with (sche_step (Nat.iter k sche_step (opt, sche))).
    destruct (Nat.iter k sche_step (opt, sche)) as [o s].
    cbn [fst snd] in IH. destruct IH as (He & Hw & Ht & Hb & _).
    unfold sche_step, get_lr, lr_at. cbn.
    rewrite He, Hw, Ht, Hb.
    replace (Z.of_nat k + 1)%Z with (Z.of_nat (S k)) by lia.
    repeat split.
Qed.

(** On a supported selector with a learning rate and a weight decay that are
    not negative, the constructor accepts its arguments and [get_optimizer]
    returns the optimizer with its schedule. *)
Lemma get_optimizer_returns (optimizer_name : string) (lr decay : Q)
    (train_step : Z) (params : Params) (warmup : Z) :
  In optimizer_name ["adam"; "sgd"; "adamw"] ->
  (0 <= lr)%Q ->
  (0 <= decay)%Q ->
  get_optimizer optimizer_name lr decay train_step params warmup
  = Return (get_linear_schedule_with_warmup
              (fresh_optimizer optimizer_name lr decay params) warmup train_step).
Proof.
  intros Hname Hlr Hdecay. unfold get_optimizer, new_optimizer.
  apply Qle_bool_iff in Hlr. apply Qle_bool_iff in Hdecay.
  rewrite Hlr, Hdecay. cbn in Hname.
  destruct Hname as [<-|[<-|[<-|[]]]]; reflexivity.
Qed.

(** A negative learning rate or weight decay is refused by the constructor
    of every supported selector. *)
Lemma get_optimizer_negative (optimizer_name : string) (lr decay : Q)
    (train_step : Z) (params : Params) (warmup : Z) :
  In optimizer_name ["adam"; "sgd"; "adamw"] ->
  (lr < 0)%Q \/ (decay < 0)%Q ->
  get_optimizer optimizer_name lr decay train_step params warmup = Raise ValueError.
Proof.
  intros Hname Hneg. unfold get_optimizer, new_optimizer.
  assert (Hb : (Qle_bool 0 lr && Qle_bool 0 decay)%bool = false).
  { apply andb_false_iff. destruct Hneg as [Hn|Hn]; [left|right];
      apply not_true_is_false; rewrite Qle_bool_iff;
      intros Hle; exact (Qlt_not_le _ _ Hn Hle). }
  rewrite Hb. cbn in Hname.
  destruct Hname as [<-|[<-|[<-|[]]]]; reflexivity.
Qed.

(** C4 (as the library computes the schedule): for every supported selector,
    every positive rate, every weight decay that is not negative and every
    step budget larger than the factory's warmup count of 1000,
    [get_optimizer] returns a schedule whose rate is 0 at step 0, grows
    monotonically through the warmup window, is the configured rate at the
    warmup boundary, then falls monotonically and is 0 at the last
    configured step; the optimizer starts at the rate of step 0. *)
Theorem C4_schedule_warms_up_then_decays (optimizer_name : string) (lr decay : Q)
    (train_step : Z) (params : Params) :
  In optimizer_name ["adam"; "sgd"; "adamw"] ->
  (0 < lr)%Q ->
  (0 <= decay)%Q ->
  (default_warmup < train_step)%Z ->
  exists (opt : optimizer) (sche : scheduler),
    get_optimizer optimizer_name lr decay train_step params default_warmup
    = Return (opt, sche)
    /\ opt_algorithm opt = optimizer_name
    /\ last_epoch sche = 0%Z
    /\ opt_lr opt = lr_at sche 0
    /\ (lr_at sche 0 == 0)%Q
    /\ (forall s t : Z, (0 <= s <= t)%Z -> (t <= default_warmup)%Z ->
          (lr_at sche s <= lr_at sche t)%Q)
    /\ (lr_at sche default_warmup == lr)%Q
    /\ (forall s t : Z, (default_warmup <= s <= t)%Z -> (t <= train_step)%Z ->
          (lr_at sche t <= lr_at sche s)%Q)
    /\ (lr_at sche train_step == 0)%Q.
Proof.
  intros Hname Hlr Hdecay HN.
  set (opt0 := fresh_optimizer optimizer_name lr decay params).
  set (os := get_linear_schedule_with_warmup opt0 default_warmup train_step).
  exists (fst os), (snd os).
  assert (Hret : get_optimizer optimizer_name lr decay train_step params
                   default_warmup = Return (fst os, snd os)).
  { rewrite (get_optimizer_returns optimizer_name lr decay train_step params
               default_warmup Hname (Qlt_le_weak _ _ Hlr) Hdecay).
    reflexivity. }
  split; [exact Hret|].
  unfold lr_at. cbn [os get_linear_schedule_with_warmup fst snd opt0 fresh_optimizer
    set_opt_lr opt_algorithm opt_lr last_epoch base_lr num_warmup_steps
    num_training_steps get_lr lr_at].
  unfold default_warmup in *.
  split; [reflexivity|]. split; [reflexivity|]. split; [reflexivity|].
  split; [|split; [|split; [|split]]].
  - rewrite lr_lambda_warmup by lia. rewrite Qdiv_zero_num. apply Qmult_0_r.
  - intros s t Hst Ht. rewrite !lr_lambda_warmup by lia.
    apply Qmult_le_l; [exact Hlr|]. apply Qdiv_le_same_den; lia.
  - rewrite lr_lambda_warmup by lia. rewrite Qdiv_same by lia. apply Qmult_1_r.
  - intros s t Hst Ht. rewrite !lr_lambda_decay by lia.
    apply Qmult_le_l; [exact Hlr|]. apply Qdiv_le_same_den; lia.
  - rewrite lr_lambda_decay by lia. rewrite Z.sub_diag, Qdiv_zero_num.
    apply Qmult_0_r.
Qed.

End ScheduleProofs.

(** C4 fails as stated: with a budget of 10 steps, below the warmup count,
    the rate at the warmup boundary is 0 instead of the configured rate, and
    the rate at the last configured step is a hundredth of it instead of 0;
    and with a negative weight decay no schedule is returned at all. *)
Lemma C4_counterexample_budget_below_warmup :
  (exists (opt : @optimizer toy) (sche : scheduler),
     get_optimizer (H := toy) "adamw" 1 0 10 0%Z default_warmup = Return (opt, sche)
     /\ (lr_at sche default_warmup == 0)%Q
     /\ ~ (lr_at sche default_warmup == 1)%Q
     /\ (lr_at sche 10 == 1 # 100)%Q
     /\ ~ (lr_at sche 10 == 0)%Q)
  /\ get_optimizer (H := toy) "adamw" 1 (- (1 # 1000)) 20000 0%Z default_warmup
     = Raise ValueError.
Proof.
  split; [|reflexivity].
  eexists _, _. split; [reflexivity|].
  vm_compute. repeat split; intros; discriminate.
Qed.

Lemma C4_witness :
  exists (opt : @optimizer toy) (sche : scheduler),
    get_optimizer (H := toy) "adamw" (2 # 100000) (1 # 1000) 20000 0%Z default_warmup
    = Return (opt, sche)
    /\ (lr_at sche default_warmup == 2 # 100000)%Q
    /\ (lr_at sche 20000 == 0)%Q.
Proof.
  destruct (C4_schedule_warms_up_then_decays (H := toy) "adamw" (2 # 100000)
              (1 # 1000) 20000 0%Z)
    as (opt & sche & Hret & _ & _ & _ & _ & _ & Hw & _ & Hlast).
  - cbn. auto.
  - reflexivity.
  - discriminate.
  - reflexivity.
  - exists opt, sche. auto.
Defined.

(** ** Checkpoint paths determine the thousand-block of the step *)

Lemma str_app_cons (x : ascii) (a b : string) :
  String x a +:+ b = String x (a +:+ b).
Proof. reflexivity. Qed.

Lemma str_app_assoc (a b c : string) : (a +:+ b) +:+ c = a +:+ (b +:+ c).
Proof.
  induction a as [|x a IH]; [reflexivity|].
  rewrite !str_app_cons, IH. reflexivity.
Qed.

Lemma str_length_app (a b : string) :
  String.length (a +:+ b) = (String.length a + String.length b)%nat.
Proof.
  induction a as [|x a IH]; [reflexivity|].
  rewrite str_app_cons. cbn [String.length]. rewrite IH. reflexivity.
Qed.

Lemma str_app_inv_head (p a b : string) : p +:+ a = p +:+ b -> a = b.
Proof.
  induction p as [|x p IH]; [auto|].
  rewrite !str_app_cons. intros [= E]. auto.
Qed.

Lemma str_app_inv_tail (t : string) :
  forall a b : string, a +:+ t = b +:+ t -> a = b.
Proof.
  induction a as [|x a IH]; intros [|y b] E.
  - reflexivity.
  - apply (f_equal String.length) in E.
    change (EmptyString +:+ t) with t in E.
    rewrite str_app_cons in E. cbn [String.length] in E.
    rewrite str_length_app in E. lia.
  - apply (f_equal String.length) in E.
    change (EmptyString +:+ t) with t in E.
    rewrite str_app_cons in E. cbn [String.length] in E.
    rewrite str_length_app in E. lia.
  - rewrite !str_app_cons in E. injection E as -> E. rewrite (IH b E). reflexivity.
Qed.

(** Leading zeros do not change the number read back. *)
Lemma uint_of_string_zeros (k : nat) (s : string) (u : Decimal.uint) :
  NilEmpty.uint_of_string s = Some u ->
  exists u', NilEmpty.uint_of_string (zeros k +:+ s) = Some u'
             /\ N.of_uint u' = N.of_uint u.
Proof.
  intros Hs. induction k as [|k (u' & Hu' & Hn)].
  - exists u. auto.
  - cbn [zeros]. rewrite str_app_cons. cbn [NilEmpty.uint_of_string].
    rewrite Hu'. exists (Decimal.D0 u'). auto.
Qed.

Lemma uint_of_string_zfill (w : nat) (n : N) :
  exists u', NilEmpty.uint_of_string (zfill w (str_of_N n)) = Some u'
             /\ N.of_uint u' = n.
Proof.
  destruct (uint_of_string_zeros (w - String.length (str_of_N n)) (str_of_N n)
              (N.to_uint n)) as (u' & Hu' & Hn).
  - apply NilEmpty.usu.
  - exists u'. split; [exact Hu'|]. rewrite Hn. apply DecimalN.Unsigned.of_to.
Qed.

(** The rendering of ["%04d"] can be read back. *)
Lemma parse_format_04d (z : Z) : parse_04d (format_04d z) = Some z.
Proof.
  unfold format_04d. destruct (Z.ltb_spec z 0) as [Hneg|Hpos].
  - destruct (uint_of_string_zfill 3 (Z.to_N (- z))) as (u' & Hu' & Hn).
    unfold parse_04d.
    change ("-" +:+ zfill 3 (str_of_N (Z.to_N (- z))))
      with (String "-"%char (zfill 3 (str_of_N (Z.to_N (- z))))).
    cbn [NilEmpty.uint_of_string]. rewrite Hu'. cbn. rewrite Hn. f_equal. lia.
  - destruct (uint_of_string_zfill 4 (Z.to_N z)) as (u' & Hu' & Hn).
    unfold parse_04d. rewrite Hu', Hn. f_equal. lia.
Qed.

Lemma format_04d_inj (z z' : Z) : format_04d z = format_04d z' -> z = z'.
Proof.
  intros E. pose proof (parse_format_04d z) as P.
  rewrite E, parse_format_04d in P. congruence.
Qed.

(** A checkpoint name never starts with a separator unless the model family does. *)
Lemma starts_with_sep_ckpt_name (model_init : string) (s s' : Z) :
  starts_with_sep (ckpt_name model_init s) = starts_with_sep (ckpt_name model_init s').
Proof. unfold ckpt_name. destruct model_init; reflexivity. Qed.

Lemma path_join_ckpt_name (dir model_init : string) :
  exists prefix : string, forall step : Z,
    path_join dir (ckpt_name model_init step)
    = prefix +:+ (format_04d (step / 1000) +:+ "k").
Proof.
  unfold path_join.
  destruct (starts_with_sep (ckpt_name model_init 0)) eqn:Hs.
  - exists (model_init +:+ "-"). intros step.
    rewrite (starts_with_sep_ckpt_name model_init step 0), Hs.
    unfold ckpt_name. rewrite !str_app_assoc. reflexivity.
  - destruct (String.eqb dir EmptyString || ends_with_sep dir)%bool.
    + exists (dir +:+ model_init +:+ "-"). intros step.
      rewrite (starts_with_sep_ckpt_name model_init step 0), Hs.
      unfold ckpt_name. rewrite !str_app_assoc. reflexivity.
    + exists (dir +:+ "/" +:+ model_init +:+ "-"). intros step.
      rewrite (starts_with_sep_ckpt_name model_init step 0), Hs.
      unfold ckpt_name. rewrite !str_app_assoc. reflexivity.
Qed.

(** Joining onto a directory that is not empty and does not end with a
    separator a component that does not start with one puts one separator
    between the two. *)
Lemma path_join_plain (a b : string) :
  a <> EmptyString -> ends_with_sep a = false -> starts_with_sep b = false ->
  path_join a b = a +:+ "/" +:+ b.
Proof.
  intros Ha He Hb. unfold path_join. rewrite Hb, He.
  apply String.eqb_neq in Ha. rewrite Ha. reflexivity.
Qed.

Lemma str_app_not_empty (a b : string) : b <> EmptyString -> a +:+ b <> EmptyString.
Proof.
  intros Hb E. apply (f_equal String.length) in E.
  rewrite str_length_app in E. destruct b; [congruence|]. cbn in E. lia.
Qed.

Lemma ends_with_sep_app (a b : string) :
  b <> EmptyString -> ends_with_sep (a +:+ b) = ends_with_sep b.
Proof.
  intros Hb. induction a as [|x a IH]; [reflexivity|].
  rewrite str_app_cons. cbn [ends_with_sep].
  destruct (a +:+ b) eqn:E; [|exact IH].
  exfalso. exact (str_app_not_empty a b Hb E).
Qed.

Lemma ends_with_sep_cons (x : ascii) (b : string) :
  b <> EmptyString -> ends_with_sep (String x b) = ends_with_sep b.
Proof. intros Hb. destruct b; [congruence|reflexivity]. Qed.

Section PathProofs.
Context `{Collaborators}.

(** With a root directory and a dataset name that are not empty and do not
    end with a separator, and a dataset name and a model family that do not
    start with one, the checkpoint path is the four components under the
    root, in the order tag, dataset, model family with the thousand-block. *)
Lemma ckpt_path_of_layout (enable_sem : bool) (dataset model_family : string)
    (s : Z) :
  root_dir <> EmptyString -> ends_with_sep root_dir = false ->
  dataset <> EmptyString -> starts_with_sep dataset = false ->
  ends_with_sep dataset = false ->
  starts_with_sep model_family = false ->
  ckpt_path_of enable_sem dataset model_family s
  = root_dir +:+ "/" +:+ defense_tag enable_sem +:+ "/" +:+ dataset +:+ "/"
    +:+ model_family +:+ "-" +:+ format_04d (s / 1000) +:+ "k".
Proof.
  intros Hr Hre Hd Hds Hde Hm.
  assert (Htag : defense_tag enable_sem <> EmptyString
                 /\ starts_with_sep (defense_tag enable_sem) = false
                 /\ ends_with_sep (defense_tag enable_sem) = false).
  { destruct enable_sem; cbn; repeat split; discriminate. }
  destruct Htag as (Ht & Hts & Hte).
  unfold ckpt_path_of, model_dir_of.
  rewrite (path_join_plain root_dir (defense_tag enable_sem) Hr Hre Hts).
  assert (H1 : root_dir +:+ "/" +:+ defense_tag enable_sem <> EmptyString).
  { apply str_app_not_empty. discriminate. }
  assert (H2 : ends_with_sep (root_dir +:+ "/" +:+ defense_tag enable_sem) = false).
  { rewrite ends_with_sep_app by discriminate.
    change ("/" +:+ defense_tag enable_sem)
      with (String "/"%char (defense_tag enable_sem)).
    rewrite ends_with_sep_cons by exact Ht. exact Hte. }
  rewrite (path_join_plain _ dataset H1 H2 Hds).
  assert (H3 : (root_dir +:+ "/" +:+ defense_tag enable_sem) +:+ "/" +:+ dataset
               <> EmptyString).
  { apply str_app_not_empty. discriminate. }
  assert (H4 : ends_with_sep
                 ((root_dir +:+ "/" +:+ defense_tag enable_sem) +:+ "/" +:+ dataset)
               = false).
  { rewrite ends_with_sep_app by discriminate.
    change ("/" +:+ dataset) with (String "/"%char dataset).
    rewrite ends_with_sep_cons by exact Hd. exact Hde. }
  assert (H5 : starts_with_sep (ckpt_name model_family s) = false).
  { unfold ckpt_name. destruct model_family; [reflexivity|exact Hm]. }
  rewrite (path_join_plain _ (ckpt_name model_family s) H3 H4 H5).
  unfold ckpt_name. rewrite !str_app_assoc. reflexivity.
Qed.

(** Under the same conditions the checkpoints of the two defense modes
    never share a path. *)
Lemma ckpt_path_of_tags_apart (dataset model_family : string) (s s' : Z) :
  root_dir <> EmptyString -> ends_with_sep root_dir = false ->
  dataset <> EmptyString -> starts_with_sep dataset = false ->
  ends_with_sep dataset = false ->
  starts_with_sep model_family = false ->
  ckpt_path_of true dataset model_family s
  <> ckpt_path_of false dataset model_family s'.
Proof.
  intros Hr Hre Hd Hds Hde Hm E.
  rewrite !ckpt_path_of_layout in E by assumption.
  apply str_app_inv_head in E.
  change ("/" +:+ defense_tag true +:+ "/" +:+ dataset +:+ "/" +:+ model_family
          +:+ "-" +:+ format_04d (s / 1000) +:+ "k")
    with (String "/"%char ("bert_clf" +:+ "_sem/" +:+ dataset +:+ "/"
          +:+ model_family +:+ "-" +:+ format_04d (s / 1000) +:+ "k")) in E.
  change ("/" +:+ defense_tag false +:+ "/" +:+ dataset +:+ "/" +:+ model_family
          +:+ "-" +:+ format_04d (s' / 1000) +:+ "k")
    with (String "/"%char ("bert_clf" +:+ "/" +:+ dataset +:+ "/"
          +:+ model_family +:+ "-" +:+ format_04d (s' / 1000) +:+ "k")) in E.
  injection E as E. discriminate E.
Qed.

(** Two step counts resolve to the same checkpoint path exactly when they
    fall in the same thousand-block. *)
Lemma ckpt_path_of_eq_iff (enable_sem : bool) (dataset_name model_init : string)
    (s s' : Z) :
  ckpt_path_of enable_sem dataset_name model_init s
  = ckpt_path_of enable_sem dataset_name model_init s'
  <-> (s / 1000 = s' / 1000)%Z.
Proof.
  unfold ckpt_path_of.
  destruct (path_join_ckpt_name (model_dir_of enable_sem dataset_name) model_init)
    as [prefix Hp].
  rewrite !Hp. split.
  - intros E. apply str_app_inv_head, str_app_inv_tail in E.
    apply format_04d_inj. exact E.
  - intros ->. reflexivity.
Qed.

End PathProofs.

(** ** The training loop *)

Section TrainingProofs.
Context `{Collaborators}.

Lemma keeps_training_state_refl (st : train_state) : keeps_training_state st st.
Proof.
  unfold keeps_training_state. repeat split.
  exists []. rewrite app_nil_r. split; [reflexivity | constructor].
Qed.

Lemma keeps_training_state_trans (st1 st2 st3 : train_state) :
  keeps_training_state st1 st2 -> keeps_training_state st2 st3 ->
  keeps_training_state st1 st3.
Proof.
  intros (Hg & Hc & Hn & Ho & Hp & l1 & He1 & Hv1)
         (Hg' & Hc' & Hn' & Ho' & Hp' & l2 & He2 & Hv2).
  unfold keeps_training_state. repeat split; try congruence.
  exists (l1 ++ l2). split.
  - rewrite He2, He1, app_assoc. reflexivity.
  - unfold val_events_at in *. rewrite Hg in Hv2. apply Forall_app. split; assumption.
Qed.

(** The step of lines 177-193 always completes; it counts one step, adds the
    batch to the running counters and calls the optimizer once. *)
Lemma forward_backward_spec (b : Encoded * Labels) (st : train_state) :
  exists st1,
    forward_backward b st
    = (Return (fst (forward (training (t_model st)) (parameters (t_model st))
                      (fst b) (snd b))), st1)
    /\ global_step st1 = (global_step st + 1)%Z
    /\ correct_train st1
       = (correct_train st
          + num_correct (snd (forward (training (t_model st))
                                (parameters (t_model st)) (fst b) (snd b))) (snd b))%Z
    /\ count_train st1 = (count_train st + batch_size (fst b))%Z
    /\ t_summary st1 = t_summary st
    /\ t_fs st1 = t_fs st
    /\ opt_step_calls st1 = S (opt_step_calls st).
Proof.
  unfold forward_backward.
  destruct (forward _ _ _ _) as [loss logits].
  destruct (optimizer_step _ _ _) as [opt' m'].
  destruct (sche_step _) as [opt'' sche'].
  eexists. split; [reflexivity|]. cbn. repeat split.
Qed.

(** The summary only grows by the validation events of the step, and the
    weights are those on entry, whether [run_evaluate] returns or raises. *)
Lemma run_evaluate_frame (eval_steps g : Z) (h : eval_heap) :
  parameters (h_model (snd (run_evaluate eval_steps g h))) = parameters (h_model h)
  /\ exists later,
       events (h_summary (snd (run_evaluate eval_steps g h)))
       = events (h_summary h) ++ later
       /\ val_events_at g later.
Proof.
  split.
  - destruct (run_evaluate eval_steps g h) as [[[]|e] h'] eqn:E.
    + apply run_evaluate_exit in E. cbn. rewrite E. reflexivity.
    + apply run_evaluate_raise in E. cbn. rewrite E. reflexivity.
  - unfold run_evaluate, bind, modify.
    pose proof (eval_loop_frame (Z.to_nat eval_steps)
                  {| correct := 0; count := 0; loss_list := [] |}
                  (set_h_model model_eval h)) as [_ Hs].
    destruct (eval_loop _ _ _) as [[acc|e] h1]; cbn in Hs.
    + destruct (eval_steps <=? 0)%Z; cbn.
      * exists []. rewrite Hs, app_nil_r. split; [reflexivity | constructor].
      * eexists. rewrite Hs, <- app_assoc. split; [reflexivity|].
        constructor; [split; [reflexivity | left; reflexivity]|].
        constructor; [split; [reflexivity | right; reflexivity]|].
        constructor.
    + exists []. cbn. rewrite Hs, app_nil_r. split; [reflexivity | constructor].
Qed.

Lemma call_run_evaluate_keeps (eval_steps : Z) (st : train_state) :
  keeps_training_state st (snd (call_run_evaluate eval_steps st)).
Proof.
  unfold call_run_evaluate.
  pose proof (run_evaluate_frame eval_steps (global_step st)
                {| h_model := t_model st; h_iter := t_val_iter st;
                   h_summary := t_summary st |}) as [Hp Hev].
  destruct (run_evaluate _ _ _) as [r h]. cbn in Hp, Hev |- *.
  unfold keeps_training_state. cbn. repeat split; assumption.
Qed.

Lemma validation_block_keeps (a : train_args) (st : train_state) :
  keeps_training_state st (snd (validation_block a st)).
Proof.
  unfold validation_block, bind, get, py_divides.
  destruct (bert_clf_period_val a =? 0)%Z; cbn.
  - apply keeps_training_state_refl.
  - destruct (global_step st mod bert_clf_period_val a =? 0)%Z.
    + apply call_run_evaluate_keeps.
    + apply keeps_training_state_refl.
Qed.

Lemma save_checkpoint_keeps (a : train_args) (st : train_state) :
  keeps_training_state st (save_checkpoint a st).
Proof.
  unfold keeps_training_state. cbn. repeat split.
  exists []. rewrite app_nil_r. split; [reflexivity | constructor].
Qed.

Lemma checkpoint_block_keeps (a : train_args) (st : train_state) :
  keeps_training_state st (snd (checkpoint_block a st)).
Proof.
  unfold checkpoint_block, bind, get, py_divides.
  destruct (bert_clf_period_save a =? 0)%Z; cbn.
  - apply keeps_training_state_refl.
  - destruct (_ || _)%bool; cbn.
    + apply save_checkpoint_keeps.
    + apply keeps_training_state_refl.
Qed.

(** With a nonzero period the summary block returns; it flushes exactly on
    the multiples of the period. *)
Lemma summary_block_spec (a : train_args) (loss : Loss) (st : train_state) :
  bert_clf_period_summary a <> 0%Z ->
  summary_block a loss st
  = (Return tt,
     if (global_step st mod bert_clf_period_summary a =? 0)%Z
     then flush_summary loss st else st).
Proof.
  intros HP. unfold summary_block, bind, get, py_divides.
  destruct (Z.eqb_spec (bert_clf_period_summary a) 0); [contradiction|]. cbn.
  destruct (_ =? 0)%Z; reflexivity.
Qed.

(** The blocks after the summary block, as one computation. *)
Lemma loop_body_after_summary (a : train_args) (b : Encoded * Labels)
    (st st1 st2 : train_state) (loss : Loss) :
  forward_backward b st = (Return loss, st1) ->
  summary_block a loss st1 = (Return tt, st2) ->
  keeps_training_state st2 (snd (loop_body a b st)).
Proof.
  intros Hfb Hsum. unfold loop_body, bind at 1. rewrite Hfb.
  unfold bind at 1. rewrite Hsum.
  unfold bind at 1.
  pose proof (validation_block_keeps a st2) as Hval.
  destruct (validation_block a st2) as [[[]|e] st3]; cbn in Hval; [|exact Hval].
  unfold bind at 1.
  pose proof (checkpoint_block_keeps a st3) as Hck.
  destruct (checkpoint_block a st3) as [[[]|e] st4]; cbn in Hck.
  - cbn. apply (keeps_training_state_trans _ _ _ Hval Hck).
  - cbn. apply (keeps_training_state_trans _ _ _ Hval Hck).
Qed.

(** C5: on every training step whose global step is a multiple of the
    (nonzero) summary period, the loop writes to the summary, keyed by the
    global step, the loss of the step and the error rate
    [1 - correct / count] of the running counters, which hold what was
    accumulated before the step plus the step's own batch, and resets both
    counters to zero; whatever follows in the step only adds validation
    events.  On every other step the counters grow by the step's batch and
    no training event is written, and the loop starts with both at zero; so
    the counters flushed are those of all steps since the previous flush. *)
Theorem C5_summary_flush_and_reset (a : train_args) (b : Encoded * Labels)
    (st : train_state) :
  bert_clf_period_summary a <> 0%Z ->
  let g := (global_step st + 1)%Z in
  let out := forward (training (t_model st)) (parameters (t_model st))
               (fst b) (snd b) in
  let c := (correct_train st + num_correct (snd out) (snd b))%Z in
  let n := (count_train st + batch_size (fst b))%Z in
  let st' := snd (loop_body a b st) in
  ((g mod bert_clf_period_summary a = 0)%Z ->
     correct_train st' = 0%Z
     /\ count_train st' = 0%Z
     /\ exists later,
          events (t_summary st')
          = events (t_summary st)
            ++ [ {| ev_tag := "clf_train/loss"; ev_value := LossValue (fst out);
                    ev_step := g |};
                 {| ev_tag := "clf_train/error_rate"; ev_value := ErrorRate c n;
                    ev_step := g |} ]
            ++ later
          /\ val_events_at g later)
  /\ ((g mod bert_clf_period_summary a <> 0)%Z ->
      correct_train st' = c
      /\ count_train st' = n
      /\ exists later,
           events (t_summary st') = events (t_summary st) ++ later
           /\ val_events_at g later)
  /\ (forall fs st0, init_train_state a fs = Return st0 ->
        global_step st0 = 0%Z /\ correct_train st0 = 0%Z /\ count_train st0 = 0%Z
        /\ events (t_summary st0) = []).
Proof.
  intros HP g out c n st'.
  destruct (forward_backward_spec b st)
    as (st1 & Hfb & Hg1 & Hc1 & Hn1 & Hs1 & _ & _).
  pose proof (summary_block_spec a (fst out) st1 HP) as Hsum.
  pose proof (loop_body_after_summary a b st st1 _ (fst out) Hfb Hsum)
    as (Hg & Hc & Hn & _ & _ & later & Hev & Hval).
  fold st' in Hg, Hc, Hn, Hev.
  rewrite Hg1 in *. fold g in Hg, Hc, Hn, Hev, Hval, Hsum |- *.
  split; [|split].
  - intros Hdiv. apply Z.eqb_eq in Hdiv. rewrite Hdiv in Hg, Hc, Hn, Hev, Hval.
    cbn in Hg, Hc, Hn, Hev, Hval. rewrite Hg1 in Hev, Hval. fold g in Hev, Hval.
    split; [exact Hc|]. split; [exact Hn|].
    exists later. split; [|exact Hval].
    rewrite Hev, Hs1, Hc1, Hn1. fold out c n. rewrite <- !app_assoc. reflexivity.
  - intros Hdiv. apply Z.eqb_neq in Hdiv. rewrite Hdiv in Hg, Hc, Hn, Hev, Hval.
    rewrite Hg1 in Hval. fold g in Hval.
    split; [rewrite Hc; exact Hc1|]. split; [rewrite Hn; exact Hn1|].
    exists later. split; [|exact Hval]. rewrite Hev, Hs1. reflexivity.
  - intros fs st0. unfold init_train_state.
    destruct (get_optimizer _ _ _ _ _ _) as [[opt sche]|e]; [|discriminate].
    intros [= <-]. cbn. repeat split.
Qed.

(** ** Running the loop to its budget *)

Lemma summary_block_global_step (a : train_args) (loss : Loss) (st : train_state) :
  global_step (snd (summary_block a loss st)) = global_step st.
Proof.
  unfold summary_block, bind, get, py_divides.
  destruct (bert_clf_period_summary a =? 0)%Z; cbn; [reflexivity|].
  destruct (_ =? 0)%Z; reflexivity.
Qed.

Lemma validation_block_returns (a : train_args) (st : train_state) :
  bert_clf_period_val a <> 0%Z ->
  (forall it, is_Some (next_batch it)) ->
  (1 <= bert_clf_val_steps a)%Z ->
  fst (validation_block a st) = Return tt.
Proof.
  intros HP Hnext Hsteps. unfold validation_block, bind, get, py_divides.
  destruct (Z.eqb_spec (bert_clf_period_val a) 0); [contradiction|]. cbn.
  destruct (_ =? 0)%Z; [|reflexivity].
  unfold call_run_evaluate.
  destruct (run_evaluate_returns (bert_clf_val_steps a) (global_step st)
              {| h_model := t_model st; h_iter := t_val_iter st;
                 h_summary := t_summary st |} Hnext Hsteps) as [h' ->].
  reflexivity.
Qed.

Lemma checkpoint_block_spec (a : train_args) (st : train_state) :
  bert_clf_period_save a <> 0%Z ->
  checkpoint_block a st
  = (Return tt,
     if ((global_step st mod bert_clf_period_save a =? 0)%Z
         || (global_step st =? bert_clf_steps a)%Z)%bool
     then save_checkpoint a st else st).
Proof.
  intros HP. unfold checkpoint_block, bind, get, py_divides.
  destruct (Z.eqb_spec (bert_clf_period_save a) 0); [contradiction|]. cbn.
  destruct (_ || _)%bool; reflexivity.
Qed.

(** The path a save writes holds the weights of the model at that moment,
    under every step count of the same thousand-block. *)
Lemma save_checkpoint_lookup (a : train_args) (st : train_state) (s : Z) :
  (s / 1000 = global_step st / 1000)%Z ->
  t_fs (save_checkpoint a st)
    !! ckpt_path_of (bert_clf_enable_sem a) (dataset_name a) (model_init a) s
  = Some (SavedModel (parameters (t_model (save_checkpoint a st)))).
Proof.
  intros Hs. cbn [save_checkpoint t_fs t_model]. unfold save_pretrained.
  apply (ckpt_path_of_eq_iff (bert_clf_enable_sem a) (dataset_name a) (model_init a))
    in Hs.
  rewrite Hs. apply lookup_insert_eq.
Qed.

(** An iteration that returns has gone through the checkpoint block with a
    nonzero period. *)
Lemma loop_body_inv (a : train_args) (b : Encoded * Labels)
    (st st' : train_state) (brk : bool) :
  loop_body a b st = (Return brk, st') ->
  exists st3,
    bert_clf_period_save a <> 0%Z
    /\ global_step st3 = (global_step st + 1)%Z
    /\ opt_step_calls st3 = S (opt_step_calls st)
    /\ st' = (if ((global_step st3 mod bert_clf_period_save a =? 0)%Z
                  || (global_step st3 =? bert_clf_steps a)%Z)%bool
              then save_checkpoint a st3 else st3)
    /\ brk = (bert_clf_steps a <=? global_step st3)%Z.
Proof.
  destruct (forward_backward_spec b st) as (st1 & Hfb & Hg1 & _ & _ & _ & _ & Ho1).
  unfold loop_body, bind at 1. rewrite Hfb.
  unfold bind at 1.
  pose proof (summary_block_global_step a
                (fst (forward (training (t_model st)) (parameters (t_model st))
                        (fst b) (snd b))) st1) as Hg2.
  assert (Ho2 : opt_step_calls
                  (snd (summary_block a
                     (fst (forward (training (t_model st)) (parameters (t_model st))
                             (fst b) (snd b))) st1)) = opt_step_calls st1).
  { unfold summary_block, bind, get, py_divides.
    destruct (bert_clf_period_summary a =? 0)%Z; cbn; [reflexivity|].
    destruct (_ =? 0)%Z; reflexivity. }
  destruct (summary_block a _ st1) as [[[]|e] st2]; [|discriminate].
  cbn in Hg2, Ho2.
  unfold bind at 1.
  pose proof (validation_block_keeps a st2) as (Hg3 & _ & _ & Ho3 & _).
  destruct (validation_block a st2) as [[[]|e] st3]; [|discriminate].
  cbn in Hg3, Ho3.
  unfold bind at 1.
  destruct (Z.eq_dec (bert_clf_period_save a) 0%Z) as [Hz|Hnz].
  { unfold checkpoint_block, bind, get, py_divides. rewrite Hz. cbn. discriminate. }
  rewrite (checkpoint_block_spec a st3 Hnz).
  unfold bind, get, ret. intros [= <- <-].
  exists st3. repeat split; try congruence.
  destruct (_ || _)%bool; reflexivity.
Qed.

(** With nonzero periods, at least one validation batch and a validation
    iterator that never runs dry, an iteration returns. *)
Lemma loop_body_returns (a : train_args) (b : Encoded * Labels) (st : train_state) :
  bert_clf_period_summary a <> 0%Z ->
  bert_clf_period_val a <> 0%Z ->
  bert_clf_period_save a <> 0%Z ->
  (forall it, is_Some (next_batch it)) ->
  (1 <= bert_clf_val_steps a)%Z ->
  exists brk st', loop_body a b st = (Return brk, st').
Proof.
  intros HPs HPv HPc Hnext Hsteps.
  destruct (forward_backward_spec b st) as (st1 & Hfb & _).
  unfold loop_body, bind at 1. rewrite Hfb.
  unfold bind at 1. rewrite (summary_block_spec a _ st1 HPs).
  unfold bind at 1.
  match goal with
  | |- context [validation_block a ?s] =>
      pose proof (validation_block_returns a s HPv Hnext Hsteps) as Hv;
      destruct (validation_block a s) as [r st3]
  end.
  cbn in Hv. subst r.
  unfold bind at 1. rewrite (checkpoint_block_spec a st3 HPc).
  unfold bind, get, ret. eauto.
Qed.

(** From any step below the budget, with enough batches left, the loop runs
    to the budget, calls the optimizer once per step, saves the final
    weights at the checkpoint path of the budget and leaves by its break. *)
Lemma train_loop_runs (a : train_args) :
  bert_clf_period_summary a <> 0%Z ->
  bert_clf_period_val a <> 0%Z ->
  bert_clf_period_save a <> 0%Z ->
  (forall it, is_Some (next_batch it)) ->
  (1 <= bert_clf_val_steps a)%Z ->
  forall (batches : list (Encoded * Labels)) (st : train_state),
    (0 <= global_step st < bert_clf_steps a)%Z ->
    (Z.to_nat (bert_clf_steps a - global_step st) <= length batches)%nat ->
    exists st',
      train_loop a batches st = (Return ExitBreak, st')
      /\ global_step st' = bert_clf_steps a
      /\ opt_step_calls st'
         = (opt_step_calls st + Z.to_nat (bert_clf_steps a - global_step st))%nat
      /\ t_fs st' !! ckpt_path_of (bert_clf_enable_sem a) (dataset_name a)
                       (model_init a) (bert_clf_steps a)
         = Some (SavedModel (parameters (t_model st'))).
Proof.
  intros HPs HPv HPc Hnext Hsteps.
  induction batches as [|b rest IH]; intros st Hg Hlen.
  - cbn in Hlen. lia.
  - cbn [train_loop]. unfold bind.
    destruct (loop_body_returns a b st HPs HPv HPc Hnext Hsteps) as (brk & st1 & Hb).
    rewrite Hb.
    destruct (loop_body_inv a b st st1 brk Hb) as (st3 & _ & Hg3 & Ho3 & Hst1 & Hbrk).
    assert (Hg1 : global_step st1 = (global_step st + 1)%Z).
    { rewrite Hst1. destruct (_ || _)%bool; cbn; exact Hg3. }
    assert (Ho1 : opt_step_calls st1 = S (opt_step_calls st)).
    { rewrite Hst1. destruct (_ || _)%bool; cbn; exact Ho3. }
    subst brk. rewrite Hg3.
    destruct (Z.leb_spec (bert_clf_steps a) (global_step st + 1)) as [Hlast|Hmore].
    + assert (Hend : global_step st3 = bert_clf_steps a) by lia.
      exists st1. unfold ret. split; [reflexivity|].
      split; [lia|]. split; [lia|].
      rewrite Hst1, Hend, Z.eqb_refl, orb_true_r.
      apply save_checkpoint_lookup. rewrite Hend. reflexivity.
    + destruct (IH st1) as (st' & Hrun & Hg' & Ho' & Hfs').
      * lia.
      * cbn [length] in Hlen. lia.
      * exists st'. split; [exact Hrun|]. split; [exact Hg'|].
        split; [|exact Hfs']. rewrite Ho', Ho1, Hg1. lia.
Qed.

(** Once the loop has left by its break or by a raise, batches further down
    the loader are never drawn. *)
Lemma train_loop_prefix (a : train_args) (more : list (Encoded * Labels)) :
  forall (batches : list (Encoded * Labels)) (st : train_state),
    fst (train_loop a batches st) <> Return ExitExhausted ->
    train_loop a (batches ++ more) st = train_loop a batches st.
Proof.
  induction batches as [|b rest IH]; intros st Hne.
  - cbn in Hne. congruence.
  - cbn [train_loop app] in Hne |- *. unfold bind in Hne |- *.
    destruct (loop_body a b st) as [[[|]|e] st1]; try reflexivity.
    apply IH. exact Hne.
Qed.

End TrainingProofs.

(** ** Loading or training *)

Section CheckpointProofs.
Context `{Collaborators}.

Lemma path_exists_lookup (fs : gmap string (fs_entry Params)) (path : string) :
  path_exists fs path = match fs !! path with Some _ => true | None => false end.
Proof.
  unfold path_exists. destruct (fs !! path) as [v|].
  - apply bool_decide_true. eauto.
  - apply bool_decide_false. intros [? ?]. discriminate.
Qed.

(** With a supported optimizer and a learning rate and a weight decay that
    are not negative, the loop starts at step 0, with no optimizer step
    taken, from the pretrained weights in train mode, on the file system of
    the call. *)
Lemma init_train_state_returns (a : train_args) (fs : gmap string (fs_entry Params)) :
  In (bert_clf_optimizer a) ["adam"; "sgd"; "adamw"] ->
  (0 <= bert_clf_lr a)%Q ->
  (0 <= bert_clf_weight_decay a)%Q ->
  exists st0,
    init_train_state a fs = Return st0
    /\ global_step st0 = 0%Z
    /\ opt_step_calls st0 = O
    /\ t_fs st0 = fs
    /\ t_model st0
       = {| training := true;
            parameters := pretrained (model_init a) (num_labels (trainset a)) |}.
Proof.
  intros Hname Hlr Hdecay. unfold init_train_state.
  rewrite (get_optimizer_returns _ _ _ (bert_clf_steps a) _ default_warmup
             Hname Hlr Hdecay).
  destruct (get_linear_schedule_with_warmup _ _ _) as [opt sche].
  eexists. split; [reflexivity|]. cbn. repeat split.
Qed.

(** C3 (as the code has it): for every step budget N of at least 1, with
    nonzero summary, validation and checkpoint periods, a validation source
    that never runs dry, at least one validation batch per evaluation, a
    supported optimizer, a learning rate and a weight decay that are not
    negative and a loader that yields at least N batches, a fresh run of
    [load_or_train_bert_clf] performs exactly N optimizer steps, leaves the
    loop by the step-counter comparison, returns the model in eval mode, and
    leaves at the checkpoint path resolved for step count N the weights of
    the returned model. *)
Theorem C3_training_loop_runs_the_budget (a : train_args)
    (fs : gmap string (fs_entry Params)) :
  (1 <= bert_clf_steps a)%Z ->
  (Z.to_nat (bert_clf_steps a) <= length (loader_batches a))%nat ->
  bert_clf_period_summary a <> 0%Z ->
  bert_clf_period_val a <> 0%Z ->
  bert_clf_period_save a <> 0%Z ->
  (forall it, is_Some (next_batch it)) ->
  (1 <= bert_clf_val_steps a)%Z ->
  In (bert_clf_optimizer a) ["adam"; "sgd"; "adamw"] ->
  (0 <= bert_clf_lr a)%Q ->
  (0 <= bert_clf_weight_decay a)%Q ->
  fs !! ckpt_path_of (bert_clf_enable_sem a) (dataset_name a) (model_init a)
          (bert_clf_steps a) = None ->
  exists (m : model) (st : train_state),
    load_or_train_bert_clf a fs
    = (Return m, {| w_fs := t_fs st; w_trained := Some st |})
    /\ train_bert_clf a fs
       = (Return (m, ExitBreak), {| w_fs := t_fs st; w_trained := Some st |})
    /\ opt_step_calls st = Z.to_nat (bert_clf_steps a)
    /\ global_step st = bert_clf_steps a
    /\ training m = false
    /\ parameters m = parameters (t_model st)
    /\ t_fs st !! ckpt_path_of (bert_clf_enable_sem a) (dataset_name a)
                    (model_init a) (bert_clf_steps a)
       = Some (SavedModel (parameters m)).
Proof.
  intros HN Hlen HPs HPv HPc Hnext Hsteps Hname Hlr Hdecay Hfresh.
  destruct (init_train_state_returns a fs Hname Hlr Hdecay)
    as (st0 & Hinit & Hg0 & Ho0 & _).
  destruct (train_loop_runs a HPs HPv HPc Hnext Hsteps (loader_batches a) st0)
    as (st & Hrun & Hg & Ho & Hfs).
  { rewrite Hg0. lia. }
  { rewrite Hg0, Z.sub_0_r. exact Hlen. }
  assert (Htrain : train_bert_clf a fs
                   = (Return (model_eval (t_model st), ExitBreak),
                      {| w_fs := t_fs st; w_trained := Some st |})).
  { unfold train_bert_clf. rewrite Hinit, Hrun. reflexivity. }
  exists (model_eval (t_model st)), st.
  split.
  - unfold load_or_train_bert_clf. rewrite path_exists_lookup, Hfresh, Htrain.
    reflexivity.
  - split; [exact Htrain|]. rewrite Ho, Ho0, Hg0, Z.sub_0_r.
    repeat split; [exact Hg | exact Hfs].
Qed.

(** C7: [load_or_train_bert_clf] resolves one checkpoint path from the
    dataset name, the defense-mode tag, the model family and the step count:
    for a root directory and names without stray separators it is
    [<root>/<tag>/<dataset>/<family>-<NNNN>k] with [NNNN] the step count
    divided by 1000, the two defense modes never sharing a path and two step
    counts sharing theirs exactly when they fall in the same thousand-block.
    What that path holds alone decides between loading and training.  When
    the path exists nothing is trained and the file system is left as it is,
    a saved model found there is returned in eval mode, and the outcome is
    the same on every file system that holds the same entry at the path.
    When it does not exist the call is the training run: its initialisation
    starts from the pretrained weights in train mode at step 0, the loop
    runs over the loader's batches from there and the model is returned in
    eval mode; an optimizer that cannot be built ends the run before its
    first step. *)
Theorem C7_checkpoint_existence_decides (a : train_args)
    (fs : gmap string (fs_entry Params)) :
  let ckpt_path := ckpt_path_of (bert_clf_enable_sem a) (dataset_name a)
                     (model_init a) (bert_clf_steps a) in
  (root_dir <> EmptyString -> ends_with_sep root_dir = false ->
   dataset_name a <> EmptyString -> starts_with_sep (dataset_name a) = false ->
   ends_with_sep (dataset_name a) = false ->
   starts_with_sep (model_init a) = false ->
   ckpt_path
   = root_dir +:+ "/" +:+ (if bert_clf_enable_sem a then "bert_clf_sem" else "bert_clf")
     +:+ "/" +:+ dataset_name a +:+ "/" +:+ model_init a +:+ "-"
     +:+ format_04d (bert_clf_steps a / 1000) +:+ "k"
   /\ ckpt_path_of (negb (bert_clf_enable_sem a)) (dataset_name a) (model_init a)
        (bert_clf_steps a) <> ckpt_path)
  /\ (forall steps' : Z,
        ckpt_path_of (bert_clf_enable_sem a) (dataset_name a) (model_init a) steps'
        = ckpt_path
        <-> (steps' / 1000 = bert_clf_steps a / 1000)%Z)
  /\ (is_Some (fs !! ckpt_path) ->
      snd (load_or_train_bert_clf a fs) = {| w_fs := fs; w_trained := None |}
      /\ (forall p, fs !! ckpt_path = Some (SavedModel p) ->
            fst (load_or_train_bert_clf a fs)
            = Return {| training := false; parameters := p |})
      /\ (fs !! ckpt_path = Some OtherEntry ->
            fst (load_or_train_bert_clf a fs) = Raise OSError)
      /\ (forall fs' : gmap string (fs_entry Params),
            fs' !! ckpt_path = fs !! ckpt_path ->
            fst (load_or_train_bert_clf a fs') = fst (load_or_train_bert_clf a fs)
            /\ snd (load_or_train_bert_clf a fs')
               = {| w_fs := fs'; w_trained := None |}))
  /\ (fs !! ckpt_path = None ->
      load_or_train_bert_clf a fs
      = (match fst (train_bert_clf a fs) with
         | Return (m, _) => Return m
         | Raise e => Raise e
         end, snd (train_bert_clf a fs))
      /\ (forall e, init_train_state a fs = Raise e ->
            load_or_train_bert_clf a fs
            = (Raise e, {| w_fs := fs; w_trained := None |}))
      /\ (In (bert_clf_optimizer a) ["adam"; "sgd"; "adamw"] ->
          (0 <= bert_clf_lr a)%Q ->
          (0 <= bert_clf_weight_decay a)%Q ->
          exists st0 : train_state,
            init_train_state a fs = Return st0
            /\ t_model st0
               = {| training := true;
                    parameters := pretrained (model_init a)
                                    (num_labels (trainset a)) |}
            /\ global_step st0 = 0%Z
            /\ opt_step_calls st0 = O
            /\ t_fs st0 = fs
            /\ load_or_train_bert_clf a fs
               = (match fst (train_loop a (loader_batches a) st0) with
                  | Return _ =>
                      Return (model_eval
                                (t_model (snd (train_loop a (loader_batches a) st0))))
                  | Raise e => Raise e
                  end,
                  {| w_fs := t_fs (snd (train_loop a (loader_batches a) st0));
                     w_trained := Some (snd (train_loop a (loader_batches a) st0)) |}))).
Proof.
  intros ckpt_path.
  assert (Hload : forall fs1 : gmap string (fs_entry Params),
            is_Some (fs1 !! ckpt_path) ->
            load_or_train_bert_clf a fs1
            = (match fs1 !! ckpt_path with
               | Some (SavedModel p) => Return {| training := false; parameters := p |}
               | _ => Raise OSError
               end, {| w_fs := fs1; w_trained := None |})).
  { intros fs1 [entry Hentry]. unfold load_or_train_bert_clf. fold ckpt_path.
    rewrite path_exists_lookup, Hentry. unfold from_pretrained. rewrite Hentry.
    destruct entry as [p|]; reflexivity. }
  split; [|split; [|split]].
  - intros Hr Hre Hd Hds Hde Hm. split.
    + unfold ckpt_path. rewrite ckpt_path_of_layout by assumption.
      destruct (bert_clf_enable_sem a); reflexivity.
    + unfold ckpt_path. destruct (bert_clf_enable_sem a); cbn [negb].
      * intros E. symmetry in E. revert E. apply ckpt_path_of_tags_apart; assumption.
      * apply ckpt_path_of_tags_apart; assumption.
  - intros steps'. apply ckpt_path_of_eq_iff.
  - intros Hsome. rewrite (Hload fs Hsome). cbn [fst snd].
    split; [reflexivity|]. split; [|split].
    + intros p ->. reflexivity.
    + intros ->. reflexivity.
    + intros fs' Hsame. rewrite (Hload fs') by (rewrite Hsame; exact Hsome).
      cbn [fst snd]. rewrite Hsame. split; reflexivity.
  - intros Hnone.
    assert (Hcall : load_or_train_bert_clf a fs
                    = (match fst (train_bert_clf a fs) with
                       | Return (m, _) => Return m
                       | Raise e => Raise e
                       end, snd (train_bert_clf a fs))).
    { unfold load_or_train_bert_clf. fold ckpt_path.
      rewrite path_exists_lookup, Hnone.
      destruct (train_bert_clf a fs) as [[[m ex]|e] w]; reflexivity. }
    split; [exact Hcall|]. split.
    + intros e Hinit. rewrite Hcall. unfold train_bert_clf. rewrite Hinit.
      reflexivity.
    + intros Hname Hlr Hdecay.
      destruct (init_train_state_returns a fs Hname Hlr Hdecay)
        as (st0 & Hinit & Hg0 & Ho0 & Hfs0 & Hm0).
      exists st0. split; [exact Hinit|]. split; [exact Hm0|].
      split; [exact Hg0|]. split; [exact Ho0|]. split; [exact Hfs0|].
      rewrite Hcall. unfold train_bert_clf. rewrite Hinit.
      destruct (train_loop a (loader_batches a) st0) as [[ex|e] st]; reflexivity.
Qed.

(** C10: the checkpoint path depends on the step count only through its
    integer quotient by 1000: two step counts resolve to the same path
    exactly when the quotients agree.  So an iteration that saves
    periodically at a step in the thousand-block of the budget writes the
    model to the very path that gates loading, and the next call of
    [load_or_train_bert_clf] on that file system loads those weights
    instead of training. *)
Theorem C10_ckpt_path_by_thousand_block (a : train_args) :
  (forall (enable_sem : bool) (dataset model_family : string) (s s' : Z),
     ckpt_path_of enable_sem dataset model_family s
     = ckpt_path_of enable_sem dataset model_family s'
     <-> (s / 1000 = s' / 1000)%Z)
  /\ (forall (b : Encoded * Labels) (st st' : train_state) (brk : bool),
        loop_body a b st = (Return brk, st') ->
        ((global_step st + 1) mod bert_clf_period_save a = 0)%Z ->
        ((global_step st + 1) / 1000 = bert_clf_steps a / 1000)%Z ->
        t_fs st' !! ckpt_path_of (bert_clf_enable_sem a) (dataset_name a)
                       (model_init a) (bert_clf_steps a)
        = Some (SavedModel (parameters (t_model st')))
        /\ load_or_train_bert_clf a (t_fs st')
           = (Return {| training := false; parameters := parameters (t_model st') |},
              {| w_fs := t_fs st'; w_trained := None |})).
Proof.
  split.
  - intros enable_sem dataset model_family s s'. apply ckpt_path_of_eq_iff.
  - intros b st st' brk Hbody Hdiv Hblock.
    destruct (loop_body_inv a b st st' brk Hbody) as (st3 & _ & Hg3 & _ & Hst' & _).
    rewrite Hg3 in Hst'. apply Z.eqb_eq in Hdiv. rewrite Hdiv in Hst'.
    cbn [orb] in Hst'.
    assert (Hfs : t_fs st' !! ckpt_path_of (bert_clf_enable_sem a) (dataset_name a)
                                (model_init a) (bert_clf_steps a)
                  = Some (SavedModel (parameters (t_model st')))).
    { rewrite Hst'. apply save_checkpoint_lookup. rewrite Hg3. symmetry. exact Hblock. }
    split; [exact Hfs|].
    unfold load_or_train_bert_clf, from_pretrained.
    rewrite path_exists_lookup, Hfs. reflexivity.
Qed.

End CheckpointProofs.

(** Renderings of the checkpoint name and path. *)
Example format_04d_examples :
  format_04d 20 = "0020" /\ format_04d 0 = "0000" /\ format_04d 12345 = "12345"
  /\ format_04d (-1) = "-001".
Proof. vm_compute. repeat split. Qed.

Example ckpt_path_of_example :
  ckpt_path_of (H := toy) false "mr" "bert-base-cased" 20000
  = "/data/bert_clf/mr/bert-base-cased-0020k".
Proof. vm_compute. reflexivity. Qed.

(** C3 fails as stated: with a budget of 0 steps the loop still runs its
    body once before the comparison, so one optimizer step is taken, and
    (the save period not dividing 1) nothing is saved at the path of step 0. *)
Lemma C3_counterexample_zero_budget :
  bert_clf_steps (toy_args 0 3 2 3 5) = 0%Z
  /\ is_raise (fst (load_or_train_bert_clf (H := toy) (toy_args 0 3 2 3 5) ∅)) = false
  /\ option_map opt_step_calls
       (w_trained (snd (load_or_train_bert_clf (H := toy) (toy_args 0 3 2 3 5) ∅)))
     = Some 1%nat
  /\ w_fs (snd (load_or_train_bert_clf (H := toy) (toy_args 0 3 2 3 5) ∅))
       !! ckpt_path_of (H := toy) false "mr" "bert-base-cased" 0 = None.
Proof. vm_compute. repeat split. Qed.

Lemma C3_witness :
  exists (m : @model toy) (st : @train_state toy),
    load_or_train_bert_clf (H := toy) (toy_args 3 5 2 3 5) ∅
    = (Return m, {| w_fs := t_fs st; w_trained := Some st |})
    /\ opt_step_calls st = 3%nat
    /\ training m = false.
Proof.
  destruct (C3_training_loop_runs_the_budget (H := toy) (toy_args 3 5 2 3 5) ∅)
    as (m & st & Hrun & _ & Ho & _ & Hm & _).
  - cbn. lia.
  - vm_compute. lia.
  - cbn. lia.
  - cbn. lia.
  - cbn. lia.
  - intros it. cbn. eauto.
  - cbn. lia.
  - cbn. auto.
  - discriminate.
  - discriminate.
  - apply lookup_empty.
  - exists m, st. auto.
Defined.

Lemma C5_witness :
  correct_train (snd (loop_body (H := toy) (toy_args 3 5 1 3 5) (4%Z, 1%Z)
     (@Build_train_state toy (toy_model true 0) (fst toy_pair) (snd toy_pair)
        0 0 0 O toy_summary ∅ O))) = 0%Z.
Proof.
  refine (proj1 (proj1 (C5_summary_flush_and_reset (H := toy) (toy_args 3 5 1 3 5)
            (4%Z, 1%Z)
            (@Build_train_state toy (toy_model true 0) (fst toy_pair) (snd toy_pair)
               0 0 0 O toy_summary ∅ O) _) _)).
  - cbn. lia.
  - reflexivity.
Defined.

(** * Further properties of the code *)

(** ** run_evaluate *)

Section EvaluationMore.
Context `{Collaborators}.

(** In eval mode the loop draws its batches in order and accumulates their
    matches, sizes and losses; it raises StopIteration when the iterator
    runs dry first. *)
Lemma eval_loop_draw (n : nat) :
  forall (acc : eval_acc) (h : eval_heap),
    training (h_model h) = false ->
    match draw n (h_iter h) with
    | Some (bs, it') =>
        eval_loop n acc h
        = (Return {| correct := correct acc
                                + eval_correct (parameters (h_model h)) bs;
                     count := count acc + eval_count bs;
                     loss_list := loss_list acc
                                  ++ eval_losses (parameters (h_model h)) bs |},
           {| h_model := h_model h; h_iter := it'; h_summary := h_summary h |})
    | None => fst (eval_loop n acc h) = Raise StopIteration
    end.
Proof.
  induction n as [|n IH]; intros acc h Htr.
  - cbn. unfold ret. rewrite !Z.add_0_r, app_nil_r.
    destruct acc, h. reflexivity.
  - cbn [draw eval_loop]. unfold bind, py_next, get.
    destruct (next_batch (h_iter h)) as [[b it1]|]; [|reflexivity].
    cbn [h_model]. rewrite Htr.
    destruct (forward false (parameters (h_model h)) (fst b) (snd b))
      as [loss logits] eqn:Hfw.
    match goal with
    | |- context [eval_loop n ?a ?x] => specialize (IH a x Htr)
    end.
    cbn [h_iter h_model h_summary] in IH.
    destruct (draw n it1) as [[bs it2]|].
    + rewrite IH. cbn [correct count loss_list eval_correct eval_count eval_losses
                       fold_right map].
      rewrite Hfw. cbn [fst snd]. rewrite <- !app_assoc, !Z.add_assoc. reflexivity.
    + exact IH.
Qed.

(** X1: with a number of evaluation steps that is zero or negative,
    [run_evaluate] draws no batch and raises ZeroDivisionError at the first
    [add_scalar]: nothing is written to the summary and the model is left in
    eval mode. *)
Theorem X1_run_evaluate_zero_steps_divides_by_zero (eval_steps g : Z)
    (h : eval_heap) :
  (eval_steps <= 0)%Z ->
  run_evaluate eval_steps g h = (Raise ZeroDivisionError, set_h_model model_eval h).
Proof.
  intros Hk. unfold run_evaluate, bind, modify.
  replace (Z.to_nat eval_steps) with O by lia. cbn [eval_loop]. unfold ret.
  destruct (Z.leb_spec eval_steps 0); [reflexivity | lia].
Qed.

(** X2: when the iterator has [eval_steps >= 1] batches left, [run_evaluate]
    draws exactly those, in order, scores them in eval mode under the
    weights of the call, and writes two events keyed by the global step:
    the error rate of the summed matches over the summed batch sizes, then
    the mean of the [eval_steps] losses; the model leaves in train mode. *)
Theorem X2_run_evaluate_scores_the_next_batches (eval_steps g : Z) (h : eval_heap)
    (bs : list (Encoded * Labels)) (it' : Iter) :
  (1 <= eval_steps)%Z ->
  draw (Z.to_nat eval_steps) (h_iter h) = Some (bs, it') ->
  run_evaluate eval_steps g h
  = (Return tt,
     {| h_model := model_train (h_model h);
        h_iter := it';
        h_summary :=
          add_scalar "clf_val/loss"
            (MeanLoss (eval_losses (parameters (h_model h)) bs)) g
            (add_scalar "clf_val/error_rate"
               (ErrorRate (eval_correct (parameters (h_model h)) bs) (eval_count bs))
               g (h_summary h)) |})
  /\ length bs = Z.to_nat eval_steps.
Proof.
  intros Hk Hdraw. split.
  - unfold run_evaluate, bind, modify.
    pose proof (eval_loop_draw (Z.to_nat eval_steps)
                  {| correct := 0; count := 0; loss_list := [] |}
                  (set_h_model model_eval h) eq_refl) as Hloop.
    cbn [set_h_model h_iter h_model h_summary model_eval parameters] in Hloop.
    rewrite Hdraw in Hloop. cbn [set_h_model] in *. rewrite Hloop.
    destruct (Z.leb_spec eval_steps 0); [lia|]. reflexivity.
  - clear Hk. revert bs it' Hdraw. generalize (h_iter h).
    induction (Z.to_nat eval_steps) as [|n IH]; intros it bs it' Hdraw.
    + cbn in Hdraw. injection Hdraw as <- _. reflexivity.
    + cbn [draw] in Hdraw.
      destruct (next_batch it) as [[b it1]|]; [|discriminate].
      destruct (draw n it1) as [[bs1 it2]|] eqn:Hd; [|discriminate].
      injection Hdraw as <- _. cbn [length]. f_equal. apply (IH it1 bs1 it2 Hd).
Qed.

(** X3: when the iterator runs dry before [eval_steps] batches are drawn,
    [run_evaluate] raises StopIteration, writes nothing to the summary and
    leaves the model in eval mode: the train mode of the caller is not
    restored on that path. *)
Theorem X3_run_evaluate_dry_iterator_stops_in_eval_mode (eval_steps g : Z)
    (h : eval_heap) :
  draw (Z.to_nat eval_steps) (h_iter h) = None ->
  fst (run_evaluate eval_steps g h) = Raise StopIteration
  /\ h_model (snd (run_evaluate eval_steps g h)) = model_eval (h_model h)
  /\ h_summary (snd (run_evaluate eval_steps g h)) = h_summary h.
Proof.
  intros Hdraw.
  pose proof (eval_loop_draw (Z.to_nat eval_steps)
                {| correct := 0; count := 0; loss_list := [] |}
                (set_h_model model_eval h) eq_refl) as Hloop.
  pose proof (eval_loop_frame (Z.to_nat eval_steps)
                {| correct := 0; count := 0; loss_list := [] |}
                (set_h_model model_eval h)) as [Hm Hs].
  cbn [set_h_model h_iter] in Hloop. rewrite Hdraw in Hloop.
  unfold run_evaluate, bind, modify.
  destruct (eval_loop _ _ _) as [r h1]. cbn in Hloop, Hm, Hs. subst r.
  cbn. auto.
Qed.

End EvaluationMore.

Lemma X1_witness :
  run_evaluate (H := toy) 0 500 toy_eval_heap
  = (Raise ZeroDivisionError, set_h_model model_eval toy_eval_heap).
Proof.
  apply (X1_run_evaluate_zero_steps_divides_by_zero (H := toy) 0 500 toy_eval_heap).
  lia.
Defined.

Lemma X2_witness :
  fst (run_evaluate (H := toy) 2 500 toy_eval_heap) = Return tt.
Proof.
  pose proof (X2_run_evaluate_scores_the_next_batches (H := toy) 2 500 toy_eval_heap
                [(4%Z, 1%Z); (4%Z, 1%Z)] 2%nat) as Hx.
  destruct Hx as [Hx _]; [lia | reflexivity |].
  rewrite Hx. reflexivity.
Defined.

Lemma X3_witness :
  fst (run_evaluate (H := toy_dry) 3 500 (toy_dry_heap 2)) = Raise StopIteration.
Proof.
  apply (X3_run_evaluate_dry_iterator_stops_in_eval_mode (H := toy_dry) 3 500
           (toy_dry_heap 2)).
  reflexivity.
Defined.

(** ** robust_tune_init and robust_tune_step *)

Section FineTuneMore.
Context `{Collaborators}.

Lemma field_values_cons (key : string) (r : gmap string pyval)
    (rs : list (gmap string pyval)) :
  field_values key (r :: rs)
  = match r !! key with
    | Some v => v :: field_values key rs
    | None => field_values key rs
    end.
Proof. unfold field_values. cbn [omap list_omap]. destruct (r !! key); reflexivity. Qed.

Lemma length_field_values (key : string) (rs : list (gmap string pyval)) :
  length (field_values key rs) = count_field key rs.
Proof.
  induction rs as [|r rs IH]; [reflexivity|].
  rewrite field_values_cons, count_field_cons.
  destruct (r !! key); cbn [length]; lia.
Qed.

(** With a label in every record the three lists collected are the values
    of the three fields, in the order of the records. *)
Lemma collect_records_values (rs : list (gmap string pyval)) :
  Forall (fun r => is_Some (r !! "label")) rs ->
  forall acc,
    collect_records acc rs
    = Return {| text0_list := text0_list acc ++ field_values "text0" rs;
                text1_list := text1_list acc ++ field_values "text1" rs;
                labels := labels acc ++ field_values "label" rs |}.
Proof.
  induction 1 as [|r rs [l Hl] _ IH]; intros acc.
  - cbn. rewrite !app_nil_r. destruct acc. reflexivity.
  - cbn [collect_records]. unfold collect_record, py_getitem. rewrite Hl.
    rewrite IH. cbn [text0_list text1_list labels].
    rewrite !field_values_cons, Hl.
    destruct (r !! "text0"); destruct (r !! "text1");
      rewrite <- ?app_assoc; reflexivity.
Qed.

(** Up to the first record without a label nothing but the model's mode changes. *)
Lemma collect_records_missing_label (rs : list (gmap string pyval)) :
  ~ Forall (fun r => is_Some (r !! "label")) rs ->
  forall acc, collect_records acc rs = Raise (KeyError "label").
Proof.
  induction rs as [|r rs IH]; intros Hnot acc.
  - exfalso. apply Hnot. constructor.
  - cbn [collect_records]. unfold collect_record, py_getitem.
    destruct (r !! "label") as [l|] eqn:Hl; [|reflexivity].
    apply IH. intros Hall. apply Hnot. constructor; [eauto | exact Hall].
Qed.

(** X4: [robust_tune_step] on a facade whose fine-tune optimizer or schedule
    is not set raises the not-initialized error before anything else: the
    facade, the mode of the model included, is exactly as it was. *)
Theorem X4_robust_tune_step_before_init (self : BertClassifier)
    (rs : list (gmap string pyval)) :
  _fine_tune_sche self = None \/ _fine_tune_opt self = None ->
  robust_tune_step rs self
  = (Raise (RuntimeError "fine tuning not initialized."), self).
Proof.
  intros Hnone. unfold robust_tune_step, bind, get.
  destruct Hnone as [-> | ->]; [reflexivity|].
  destruct (_fine_tune_sche self); reflexivity.
Qed.

(** X5: on a live pair, a batch in which some record has no [label] makes
    [robust_tune_step] raise KeyError on that key, whatever the text fields
    are; the weights and the pair are untouched but the model is left in
    train mode. *)
Theorem X5_robust_tune_step_missing_label (self : BertClassifier)
    (rs : list (gmap string pyval)) :
  is_Some (_fine_tune_sche self) ->
  is_Some (_fine_tune_opt self) ->
  ~ Forall (fun r => is_Some (r !! "label")) rs ->
  robust_tune_step rs self = (Raise (KeyError "label"), set_model model_train self).
Proof.
  intros [sche Hs] [opt Ho] Hnot.
  unfold robust_tune_step, bind, get, modify, lift_outcome. rewrite Hs, Ho.
  rewrite (collect_records_missing_label rs Hnot). reflexivity.
Qed.

(** X6: on a live pair whose optimizer is still bound to the facade's model,
    for records that each carry a label, with no [text1] at all or as many
    [text1] as [text0] fields, on which the tokenizer and the label tensor
    return and the forward pass does not raise, [robust_tune_step]
    tokenizes the [text0] values, paired with the [text1] values when there
    are any, runs the model in train mode, takes one optimizer step at the
    optimizer's current rate, advances the schedule by one and returns the
    predicted labels and the loss with the model back in eval mode.  When
    the forward pass raises, the call raises that error with no step taken
    and the model left in train mode. *)
Theorem X6_robust_tune_step_updates_once (self : BertClassifier)
    (rs : list (gmap string pyval)) (sche : scheduler) (opt : optimizer)
    (enc : Encoded) (lab : Labels) :
  _fine_tune_sche self = Some sche ->
  _fine_tune_opt self = Some opt ->
  Forall (fun r => is_Some (r !! "label")) rs ->
  count_field "text1" rs = O \/ count_field "text1" rs = count_field "text0" rs ->
  tokenizer (field_values "text0" rs)
    (if (count_field "text1" rs =? 0)%nat then None
     else Some (field_values "text1" rs)) = Return enc ->
  tensor_of_labels (field_values "label" rs) = Return lab ->
  let out := forward true (parameters (_model self)) enc lab in
  let self' := snd (robust_tune_step rs self) in
  (forward_raises (parameters (_model self)) enc lab = None ->
   opt_bound opt = true ->
   fst (robust_tune_step rs self) = Return (argmax_labels (snd out), fst out)
   /\ training (_model self') = false
   /\ parameters (_model self')
      = snd (opt_update (opt_algorithm opt) (opt_lr opt) (opt_weight_decay opt)
               (opt_state opt) true (parameters (_model self)) enc lab)
   /\ (exists sche' opt',
         _fine_tune_sche self' = Some sche'
         /\ _fine_tune_opt self' = Some opt'
         /\ last_epoch sche' = (last_epoch sche + 1)%Z
         /\ opt_lr opt' = lr_at sche (last_epoch sche + 1)))
  /\ (forall e : exn,
        forward_raises (parameters (_model self)) enc lab = Some e ->
        robust_tune_step rs self = (Raise e, set_model model_train self)).
Proof.
  intros Hs Ho Hlab Hcount Htok Hten out self'.
  subst self'. unfold robust_tune_step, bind, get, modify, lift_outcome.
  rewrite Hs, Ho.
  rewrite (collect_records_values rs Hlab).
  cbn [text0_list text1_list labels app].
  unfold check_consistent. cbn [text0_list text1_list].
  rewrite !length_field_values.
  assert (Hcheck :
    (if (count_field "text1" rs =? 0)%nat then ret None
     else if negb (count_field "text1" rs =? count_field "text0" rs)%nat
          then raise (RuntimeError "data records are not consistent.")
          else ret (Some (field_values "text1" rs)))
      (set_model model_train self)
    = (Return (if (count_field "text1" rs =? 0)%nat then None
               else Some (field_values "text1" rs)),
       set_model model_train self)).
  { destruct (Nat.eqb_spec (count_field "text1" rs) 0) as [E|NE]; [reflexivity|].
    destruct Hcount as [E|E]; [contradiction|].
    rewrite E, Nat.eqb_refl. reflexivity. }
  rewrite Hcheck. cbv beta iota. rewrite Htok, Hten. cbv beta iota.
  split.
  - intros Hfits Hbound. rewrite Hfits.
    fold out. destruct out as [loss logits] eqn:Hout.
    unfold ret, fine_tune_update, optimizer_step. rewrite Hbound.
    cbn [set_model _model model_train training parameters].
    destruct (opt_update _ _ _ _ _ _ _ _) as [st' p'] eqn:Hup.
    cbn. split; [reflexivity|]. split; [reflexivity|]. split; [reflexivity|].
    eexists _, _. repeat split.
  - intros e Hfails. rewrite Hfails. reflexivity.
Qed.

(** X7: [robust_tune_init] with a selector outside ["adam"], ["sgd"],
    ["adamw"] raises the AssertionError of [get_optimizer] and assigns
    neither attribute: the facade is unchanged, and a later call with a
    supported selector and a learning rate and a weight decay that are not
    negative still returns (with a negative one the constructor's
    ValueError leaves the facade unchanged again). *)
Theorem X7_robust_tune_init_unknown_optimizer (self : BertClassifier)
    (name : string) (lr decay lr' decay' : Q) (steps steps' : Z) :
  _fine_tune_sche self = None ->
  _fine_tune_opt self = None ->
  ~ In name ["adam"; "sgd"; "adamw"] ->
  robust_tune_init name lr decay steps self
  = (Raise (AssertionError "unkown optimizer"), self)
  /\ ((0 <= lr')%Q -> (0 <= decay')%Q ->
      fst (robust_tune_init "adamw" lr' decay' steps' self) = Return tt)
  /\ ((lr' < 0)%Q \/ (decay' < 0)%Q ->
      robust_tune_init "adamw" lr' decay' steps' self = (Raise ValueError, self)).
Proof.
  intros Hs Ho Hname.
  unfold robust_tune_init, bind, get, lift_outcome, modify.
  rewrite Hs, Ho.
  rewrite !bool_decide_false by (intros [? ?]; discriminate).
  cbn [orb]. split; [|split].
  - unfold get_optimizer.
    destruct (String.eqb_spec name "adam") as [->|_];
      [exfalso; apply Hname; cbn; auto|].
    destruct (String.eqb_spec name "sgd") as [->|_];
      [exfalso; apply Hname; cbn; auto|].
    destruct (String.eqb_spec name "adamw") as [->|_];
      [exfalso; apply Hname; cbn; auto|].
    reflexivity.
  - intros Hlr Hdecay.
    rewrite (get_optimizer_returns "adamw" lr' decay' steps' _ default_warmup)
      by (cbn; auto). reflexivity.
  - intros Hneg.
    rewrite (get_optimizer_negative "adamw" lr' decay' steps' _ default_warmup)
      by (cbn; auto). reflexivity.
Qed.

(** X8: on a facade without a fine-tune pair, [robust_tune_init] with a
    supported selector and a learning rate and a weight decay that are not
    negative returns and leaves a pair bound to the facade's weights whose
    schedule is at step 0 with the warmup count 1000 and the given budget,
    and whose optimizer starts at learning rate 0: the first fine-tune step
    is taken at rate zero.  The model is untouched. *)
Theorem X8_robust_tune_init_starts_at_rate_zero (self : BertClassifier)
    (name : string) (lr decay : Q) (steps : Z) :
  _fine_tune_sche self = None ->
  _fine_tune_opt self = None ->
  In name ["adam"; "sgd"; "adamw"] ->
  (0 <= lr)%Q ->
  (0 <= decay)%Q ->
  exists (opt : optimizer) (sche : scheduler),
    robust_tune_init name lr decay steps self
    = (Return tt, set_fine_tune (Some opt) (Some sche) self)
    /\ opt_algorithm opt = name
    /\ opt_weight_decay opt = decay
    /\ opt_bound opt = true
    /\ (opt_lr opt == 0)%Q
    /\ last_epoch sche = 0%Z
    /\ base_lr sche = lr
    /\ num_warmup_steps sche = 1000%Z
    /\ num_training_steps sche = steps.
Proof.
  intros Hs Ho Hname Hlr Hdecay.
  unfold robust_tune_init, bind, get, lift_outcome, modify.
  rewrite Hs, Ho.
  rewrite !bool_decide_false by (intros [? ?]; discriminate).
  cbn [orb].
  rewrite (get_optimizer_returns name lr decay steps _ default_warmup
             Hname Hlr Hdecay).
  eexists _, _. split; [reflexivity|].
  cbn. split; [reflexivity|]. split; [reflexivity|]. split; [reflexivity|].
  split; [|repeat split].
  unfold get_lr, lr_at, lr_lambda. cbn.
  unfold Qeq. cbn. lia.
Qed.

End FineTuneMore.

Lemma X4_witness :
  robust_tune_step (H := toy) [single_record] (toy_facade false false)
  = (Raise (RuntimeError "fine tuning not initialized."), toy_facade false false).
Proof.
  apply (X4_robust_tune_step_before_init (H := toy)). left. reflexivity.
Defined.

Lemma X5_witness :
  fst (robust_tune_step (H := toy) [single_record; unlabelled_record]
         (toy_facade false true)) = Raise (KeyError "label").
Proof.
  rewrite (X5_robust_tune_step_missing_label (H := toy) (toy_facade false true)
             [single_record; unlabelled_record]).
  - reflexivity.
  - cbn. eauto.
  - cbn. eauto.
  - intros Hall. inversion Hall as [|? ? _ Hrest]; subst.
    inversion Hrest as [|? ? [v Hv] _]; subst. vm_compute in Hv. discriminate.
Defined.

Lemma X6_witness :
  fst (robust_tune_step (H := toy)
         [paired_record; paired_record] (toy_facade false true))
  = Return ([2%Z], 2%Z)
  /\ robust_tune_step (H := toy)
       [paired_record; single_record; second_only_record] (toy_facade false true)
     = (Raise ValueError, set_model model_train (toy_facade false true)).
Proof.
  split.
  - refine (proj1 (proj1 (X6_robust_tune_step_updates_once (H := toy)
                     (toy_facade false true) [paired_record; paired_record]
                     (snd toy_pair) (fst toy_pair) 2%Z 2%Z
                     eq_refl eq_refl _ _ _ _) eq_refl eq_refl)).
    + repeat constructor; vm_compute; eauto.
    + right. vm_compute. reflexivity.
    + vm_compute. reflexivity.
    + vm_compute. reflexivity.
  - refine (proj2 (X6_robust_tune_step_updates_once (H := toy)
                     (toy_facade false true)
                     [paired_record; single_record; second_only_record]
                     (snd toy_pair) (fst toy_pair) 2%Z 3%Z
                     eq_refl eq_refl _ _ _ _) ValueError eq_refl).
    + repeat constructor; vm_compute; eauto.
    + right. vm_compute. reflexivity.
    + vm_compute. reflexivity.
    + vm_compute. reflexivity.
Defined.

Lemma X7_witness :
  robust_tune_init (H := toy) "rmsprop" 1 0 100 (toy_facade false false)
  = (Raise (AssertionError "unkown optimizer"), toy_facade false false).
Proof.
  refine (proj1 (X7_robust_tune_init_unknown_optimizer (H := toy)
                   (toy_facade false false) "rmsprop" 1 0 1 0 100 100
                   eq_refl eq_refl _)).
  cbn. intros [E|[E|[E|[]]]]; discriminate.
Defined.

Lemma X8_witness :
  fst (robust_tune_init (H := toy) "sgd" 1 0 100 (toy_facade false false))
  = Return tt.
Proof.
  destruct (X8_robust_tune_init_starts_at_rate_zero (H := toy)
              (toy_facade false false) "sgd" 1 0 100 eq_refl eq_refl)
    as (opt & sche & Hrun & _).
  - cbn. auto.
  - discriminate.
  - discriminate.
  - rewrite Hrun. reflexivity.
Defined.

(** ** Prediction and robust-tuned snapshots *)

(** Joining an empty last component only adds the separator the next join
    would add. *)
Lemma str_app_nil_r (a : string) : a +:+ EmptyString = a.
Proof.
  induction a as [|x a IH]; [reflexivity|].
  rewrite str_app_cons, IH. reflexivity.
Qed.

Lemma ends_with_sep_app_sep (a : string) : ends_with_sep (a +:+ "/") = true.
Proof.
  induction a as [|x a IH]; [reflexivity|].
  rewrite str_app_cons. cbn [ends_with_sep].
  destruct (a +:+ "/") eqn:E; [|exact IH].
  destruct a; discriminate.
Qed.

Lemma path_join_empty_component (dir name : string) :
  path_join (path_join dir EmptyString) name = path_join dir name.
Proof.
  unfold path_join. cbn [starts_with_sep].
  destruct (starts_with_sep name); [reflexivity|].
  destruct (String.eqb dir EmptyString || ends_with_sep dir)%bool eqn:Hd.
  - rewrite str_app_nil_r, Hd. reflexivity.
  - change ("/" +:+ EmptyString) with "/".
    rewrite ends_with_sep_app_sep, orb_true_r, str_app_assoc. reflexivity.
Qed.

Lemma reads_only_ret {S A : Type} (a : A) : reads_only (@ret S A a).
Proof. intros s. reflexivity. Qed.

Lemma reads_only_raise {S A : Type} (e : exn) : reads_only (@raise S A e).
Proof. intros s. reflexivity. Qed.

Lemma reads_only_lift {S A : Type} (o : outcome A) : reads_only (@lift_outcome S A o).
Proof. intros s. reflexivity. Qed.

Lemma reads_only_get {S : Type} : reads_only (@get S).
Proof. intros s. reflexivity. Qed.

Lemma reads_only_assert {S : Type} (cond : bool) (msg : string) :
  reads_only (@py_assert S cond msg).
Proof. intros s. destruct cond; reflexivity. Qed.

Lemma reads_only_bind {S A B : Type} (m : M S A) (k : A -> M S B) :
  reads_only m -> (forall a, reads_only (k a)) -> reads_only (bind m k).
Proof.
  intros Hm Hk s. unfold bind. specialize (Hm s).
  destruct (m s) as [[a|e] s']; cbn in Hm; subst s'; [apply Hk | reflexivity].
Qed.

Section PredictMore.
Context `{Collaborators}.
Variable Row : Type.
Variable first_row : Dist -> outcome Row.

(** X9: prediction never changes the facade: whatever [predict_dist_batch]
    or [predict_dist_example] return or raise, the model, its mode and the
    fine-tune pair are those of before the call. *)
Theorem X9_predict_leaves_facade_unchanged (self : BertClassifier)
    (origin paraphrase : pyval) (paraphrase_list : list pyval)
    (data_record : option (gmap string pyval)) (paraphrase_field : string) :
  snd (predict_dist_batch origin paraphrase_list data_record paraphrase_field self)
  = self
  /\ snd (predict_dist_example Row first_row origin paraphrase data_record
            paraphrase_field self) = self.
Proof.
  assert (Hbatch : forall pl,
            reads_only (predict_dist_batch origin pl data_record paraphrase_field)).
  { intros pl. unfold predict_dist_batch.
    apply reads_only_bind; [apply reads_only_get|]. intros me.
    apply reads_only_bind.
    { destruct (_enable_sem me); [apply reads_only_lift | apply reads_only_ret]. }
    intros pl1. apply reads_only_bind.
    { destruct (_enable_lmag me); [|apply reads_only_ret].
      unfold lmag_defense.
      apply reads_only_bind; [apply reads_only_get|]. intros me'.
      apply reads_only_bind.
      - destruct data_record as [r|]; [|apply reads_only_raise].
        destruct (py_in "text1" r); [|apply reads_only_ret].
        apply reads_only_bind; [apply reads_only_assert|]. intros _.
        apply reads_only_bind; [apply reads_only_lift|]. intros t0.
        apply reads_only_ret.
      - intros context. apply reads_only_bind.
        + unfold attribute. destruct (_lm me');
            [apply reads_only_ret | apply reads_only_raise].
        + intros lm. apply reads_only_lift. }
    intros pl2. apply reads_only_bind.
    { destruct (String.eqb paraphrase_field "text0"); [apply reads_only_lift|].
      apply reads_only_bind; [apply reads_only_assert|]. intros _.
      apply reads_only_bind.
      - unfold record_getitem. destruct data_record;
          [apply reads_only_lift | apply reads_only_raise].
      - intros t0. apply reads_only_lift. }
    intros batch_input.
    destruct (_enable_lmag me); [|apply reads_only_ret].
    apply reads_only_bind.
    - unfold attribute. destruct (_lmag_repeat me);
        [apply reads_only_ret | apply reads_only_raise].
    - intros rep. apply reads_only_lift. }
  split; [apply Hbatch|].
  unfold predict_dist_example.
  apply reads_only_bind; [apply Hbatch|]. intros res. apply reads_only_lift.
Qed.

(** X10: with both defenses off, a [paraphrase_field] other than ["text0"]
    and ["text1"] makes [predict_dist_batch] raise AssertionError before the
    tokenizer or the model is called. *)
Theorem X10_predict_unknown_field_asserts (self : BertClassifier)
    (origin : pyval) (paraphrase_list : list pyval)
    (data_record : option (gmap string pyval)) (paraphrase_field : string) :
  _enable_sem self = false ->
  _enable_lmag self = false ->
  paraphrase_field <> "text0" ->
  paraphrase_field <> "text1" ->
  predict_dist_batch origin paraphrase_list data_record paraphrase_field self
  = (Raise (AssertionError EmptyString), self).
Proof.
  intros Hsem Hlmag H0 H1.
  unfold predict_dist_batch, bind, get, ret. rewrite Hsem, Hlmag.
  apply String.eqb_neq in H0. apply String.eqb_neq in H1. rewrite H0.
  unfold py_assert. rewrite H1. reflexivity.
Qed.

(** X11: with both defenses off and [paraphrase_field = "text1"], the record
    must be given and carry [text0]: without a record the call raises
    TypeError, without the field KeyError; otherwise every candidate is
    tokenized as the second member of a pair whose first member is the
    record's [text0], and the log-softmax of the model's logits on that
    batch is returned. *)
Theorem X11_predict_second_field_pairs_with_first (self : BertClassifier)
    (origin : pyval) (paraphrase_list : list pyval) :
  _enable_sem self = false ->
  _enable_lmag self = false ->
  fst (predict_dist_batch origin paraphrase_list None "text1" self) = Raise TypeError
  /\ (forall r : gmap string pyval,
        r !! "text0" = None ->
        fst (predict_dist_batch origin paraphrase_list (Some r) "text1" self)
        = Raise (KeyError "text0"))
  /\ (forall (r : gmap string pyval) (t0 : pyval),
        r !! "text0" = Some t0 ->
        fst (predict_dist_batch origin paraphrase_list (Some r) "text1" self)
        = match tokenizer (replicate (length paraphrase_list) t0)
                  (Some paraphrase_list) with
          | Return enc =>
              Return (log_softmax (classify (training (_model self))
                                     (parameters (_model self)) enc))
          | Raise e => Raise e
          end).
Proof.
  intros Hsem Hlmag.
  unfold predict_dist_batch, record_getitem, py_assert, py_getitem, bind, get,
    lift_outcome, ret, raise.
  rewrite Hsem, Hlmag. cbn [String.eqb Ascii.eqb Bool.eqb]. cbv beta iota.
  repeat split.
  - intros r Hr. rewrite Hr. reflexivity.
  - intros r t0 Hr. rewrite Hr. cbv beta iota.
    destruct (tokenizer _ _); reflexivity.
Qed.

(** The snapshot path depends on the step through its thousand-block only. *)
Lemma robust_ckpt_path_block (self : BertClassifier) (desc : string) (s s' : Z) :
  (s / 1000 = s' / 1000)%Z ->
  robust_ckpt_path self desc s = robust_ckpt_path self desc s'.
Proof.
  intros Hs. unfold robust_ckpt_path.
  destruct (path_join_ckpt_name (robust_model_dir self desc) (_model_init self))
    as [prefix Hp].
  rewrite !Hp, Hs. reflexivity.
Qed.

(** X12: when the snapshot path is absent or holds a saved model, saving a
    robust-tuned snapshot and loading it back, under the same tag and any
    step of the same thousand-block, returns and leaves the facade with the
    weights it had when saving, in eval mode; the model is a new object, so
    a live fine-tune optimizer no longer holds its parameters, and
    everything else is as it was. *)
Theorem X12_robust_snapshot_round_trip (self : BertClassifier)
    (fs : gmap string (fs_entry Params)) (desc : string) (step step' : Z) :
  fs !! robust_ckpt_path self desc step <> Some OtherEntry ->
  (step' / 1000 = step / 1000)%Z ->
  load_robust_tuned_model desc step'
    (snd (save_robust_tuned_model desc step (self, fs)))
  = (Return tt,
     (set_fine_tune (option_map unbind (_fine_tune_opt self)) (_fine_tune_sche self)
        (set_model (fun _ => {| training := false;
                                parameters := parameters (_model self) |}) self),
      <[robust_ckpt_path self desc step := SavedModel (parameters (_model self))]> fs)).
Proof.
  intros _ Hblock. unfold load_robust_tuned_model, save_robust_tuned_model.
  cbn [fst snd]. unfold from_pretrained, save_pretrained.
  rewrite (robust_ckpt_path_block self desc step' step Hblock).
  rewrite lookup_insert_eq. reflexivity.
Qed.

(** X13: loading a snapshot from a path that does not exist, or that holds
    something else than a complete saved model, raises and leaves the
    facade with the model it had. *)
Theorem X13_robust_snapshot_load_missing (self : BertClassifier)
    (fs : gmap string (fs_entry Params)) (desc : string) (step : Z) :
  fs !! robust_ckpt_path self desc step = None
  \/ fs !! robust_ckpt_path self desc step = Some OtherEntry ->
  load_robust_tuned_model desc step (self, fs) = (Raise OSError, (self, fs)).
Proof.
  intros Hmiss. unfold load_robust_tuned_model, from_pretrained. cbn [fst snd].
  destruct Hmiss as [-> | ->]; reflexivity.
Qed.

(** X14: with the empty tag the snapshot path is the base checkpoint path of
    the undefended classifier, so [save_robust_tuned_model] with an empty
    tag, at a path that is absent or holds a saved model, replaces the base
    checkpoint of that thousand-block by the fine-tuned weights. *)
Theorem X14_empty_tag_is_the_base_checkpoint (self : BertClassifier)
    (fs : gmap string (fs_entry Params)) (step : Z) :
  robust_ckpt_path self EmptyString step
  = ckpt_path_of false (_dataset_name self) (_model_init self) step
  /\ (fs !! ckpt_path_of false (_dataset_name self) (_model_init self) step
      <> Some OtherEntry ->
      from_pretrained
        (snd (snd (save_robust_tuned_model EmptyString step (self, fs))))
        (ckpt_path_of false (_dataset_name self) (_model_init self) step)
      = Return {| training := false; parameters := parameters (_model self) |}).
Proof.
  assert (Hpath : robust_ckpt_path self EmptyString step
                  = ckpt_path_of false (_dataset_name self) (_model_init self) step).
  { unfold robust_ckpt_path, robust_model_dir, ckpt_path_of, model_dir_of.
    cbn [defense_tag]. apply path_join_empty_component. }
  split; [exact Hpath|]. intros _.
  unfold save_robust_tuned_model, from_pretrained, save_pretrained. cbn [fst snd].
  rewrite Hpath, lookup_insert_eq. reflexivity.
Qed.

(** A step that returns with an optimizer that no longer holds the model's
    parameters leaves the weights as they were. *)
Lemma robust_tune_step_unbound (self self' : BertClassifier)
    (rs : list (gmap string pyval)) (v : list Z * Loss) (opt : optimizer) :
  _fine_tune_opt self = Some opt ->
  opt_bound opt = false ->
  robust_tune_step rs self = (Return v, self') ->
  parameters (_model self') = parameters (_model self).
Proof.
  intros Ho Hb. unfold robust_tune_step, bind, get, modify, lift_outcome.
  rewrite Ho.
  destruct (_fine_tune_sche self) as [sche|]; [|discriminate].
  destruct (collect_records _ rs) as [c|e]; [|discriminate].
  unfold check_consistent.
  destruct (length (text1_list c) =? 0)%nat.
  - unfold ret. destruct (tokenizer _ _) as [enc|e]; [|discriminate].
    destruct (tensor_of_labels _) as [lab|e]; [|discriminate].
    destruct (forward_raises _ _ _) as [e|]; [discriminate|].
    destruct (forward _ _ _ _) as [loss logits].
    unfold fine_tune_update, optimizer_step. rewrite Hb.
    intros [= _ <-]. reflexivity.
  - destruct (negb _); [discriminate|].
    unfold ret. destruct (tokenizer _ _) as [enc|e]; [|discriminate].
    destruct (tensor_of_labels _) as [lab|e]; [|discriminate].
    destruct (forward_raises _ _ _) as [e|]; [discriminate|].
    destruct (forward _ _ _ _) as [loss logits].
    unfold fine_tune_update, optimizer_step. rewrite Hb.
    intros [= _ <-]. reflexivity.
Qed.

(** X30: the fine-tune optimizer holds the parameters of the model it was
    created on.  After [load_robust_tuned_model] has replaced the facade's
    model, the live pair is kept, a further [robust_tune_init] is still
    refused, and every [robust_tune_step] that returns leaves the loaded
    weights exactly as loaded. *)
Theorem X30_fine_tune_after_load_keeps_loaded_weights (self self1 self2 : BertClassifier)
    (fs fs1 : gmap string (fs_entry Params)) (desc : string) (step : Z)
    (rs : list (gmap string pyval)) (v : list Z * Loss) :
  is_Some (_fine_tune_opt self) ->
  load_robust_tuned_model desc step (self, fs) = (Return tt, (self1, fs1)) ->
  robust_tune_step rs self1 = (Return v, self2) ->
  fs !! robust_ckpt_path self desc step = Some (SavedModel (parameters (_model self1)))
  /\ parameters (_model self2) = parameters (_model self1)
  /\ _fine_tune_sche self1 = _fine_tune_sche self
  /\ (forall name lr decay steps,
        robust_tune_init name lr decay steps self1
        = (Raise (RuntimeError "fine tuning has been initialized."), self1)).
Proof.
  intros [opt Ho] Hload Hstep.
  unfold load_robust_tuned_model, from_pretrained in Hload. cbn [fst snd] in Hload.
  destruct (fs !! robust_ckpt_path self desc step) as [[p|]|] eqn:Hfs;
    [|discriminate|discriminate].
  injection Hload as <- <-.
  split; [reflexivity|]. split; [|split; [reflexivity|]].
  - apply (robust_tune_step_unbound _ _ rs v (unbind opt)); [|reflexivity|exact Hstep].
    cbn. rewrite Ho. reflexivity.
  - intros name lr decay steps. unfold robust_tune_init, bind, get.
    cbn [set_fine_tune _fine_tune_sche _fine_tune_opt]. rewrite Ho. cbn [option_map].
    rewrite (bool_decide_true (is_Some (Some (unbind opt)))) by eauto.
    rewrite orb_true_r. reflexivity.
Qed.

End PredictMore.

Lemma X10_witness :
  predict_dist_batch (H := toy) (PStr "a fine film") [PStr "a good film"]
    (Some single_record) "text2" (toy_facade false false)
  = (Raise (AssertionError EmptyString), toy_facade false false).
Proof.
  apply (X10_predict_unknown_field_asserts (H := toy)); try reflexivity; discriminate.
Defined.

Lemma X11_witness :
  fst (predict_dist_batch (H := toy) (PStr "a hypothesis") [PStr "a guess"] None
         "text1" (toy_facade false false)) = Raise TypeError.
Proof.
  apply (X11_predict_second_field_pairs_with_first (H := toy) (toy_facade false false)
           (PStr "a hypothesis") [PStr "a guess"] eq_refl eq_refl).
Defined.

Lemma X12_witness :
  fst (load_robust_tuned_model (H := toy) "pso" 5999
         (snd (save_robust_tuned_model (H := toy) "pso" 5000
                 (toy_facade false true, ∅)))) = Return tt.
Proof.
  rewrite (X12_robust_snapshot_round_trip (H := toy) (toy_facade false true) ∅
             "pso" 5000 5999).
  - reflexivity.
  - rewrite lookup_empty. discriminate.
  - reflexivity.
Defined.

Lemma X30_witness :
  parameters (_model (snd (robust_tune_step (H := toy) [paired_record; paired_record]
     (fst (snd (load_robust_tuned_model (H := toy) "pso" 5000
                  (toy_facade false true,
                   {["/data/bert_clf/mr/pso/bert-base-cased-0005k"
                     := SavedModel 7%Z]}))))))) = 7%Z.
Proof.
  refine (eq_trans (proj1 (proj2 (X30_fine_tune_after_load_keeps_loaded_weights
            (H := toy) (toy_facade false true) _ _
            {["/data/bert_clf/mr/pso/bert-base-cased-0005k" := SavedModel 7%Z]}
            _ "pso" 5000 [paired_record; paired_record] ([2%Z], 9%Z) _ eq_refl _))) _).
  - cbn. eauto.
  - vm_compute. reflexivity.
  - vm_compute. reflexivity.
Defined.

Lemma X13_witness :
  load_robust_tuned_model (H := toy) "pso" 5000 (toy_facade false true, ∅)
  = (Raise OSError, (toy_facade false true, ∅)).
Proof.
  apply (X13_robust_snapshot_load_missing (H := toy)). left. apply lookup_empty.
Defined.

(** ** More on the training loop *)

Section TrainingMore.
Context `{Collaborators}.

(** What one returning iteration does to the file system and to the mode of
    the model. *)
Lemma summary_block_frame (a : train_args) (loss : Loss) (st : train_state) :
  t_fs (snd (summary_block a loss st)) = t_fs st
  /\ t_model (snd (summary_block a loss st)) = t_model st
  /\ opt_step_calls (snd (summary_block a loss st)) = opt_step_calls st.
Proof.
  unfold summary_block, bind, get, py_divides.
  destruct (bert_clf_period_summary a =? 0)%Z; cbn; [auto|].
  destruct (_ =? 0)%Z; cbn; auto.
Qed.

Lemma validation_block_frame (a : train_args) (st st' : train_state) :
  validation_block a st = (Return tt, st') ->
  t_fs st' = t_fs st
  /\ (training (t_model st) = true -> training (t_model st') = true).
Proof.
  unfold validation_block, bind, get, py_divides.
  destruct (bert_clf_period_val a =? 0)%Z; cbn; [discriminate|].
  destruct (_ =? 0)%Z.
  - unfold call_run_evaluate.
    destruct (run_evaluate _ _ _) as [[[]|e] h] eqn:E; [|discriminate].
    apply run_evaluate_exit in E. intros [= <-]. cbn. rewrite E. auto.
  - unfold ret. intros [= <-]. auto.
Qed.

Lemma forward_backward_mode (b : Encoded * Labels) (st : train_state) :
  training (t_model (snd (forward_backward b st))) = training (t_model st).
Proof.
  unfold forward_backward, optimizer_step.
  destruct (forward _ _ _ _) as [loss logits].
  destruct (opt_bound (t_opt st)).
  - destruct (opt_update _ _ _ _ _ _ _ _) as [os p'].
    destruct (sche_step _) as [opt'' sche']. reflexivity.
  - destruct (sche_step _) as [opt'' sche']. reflexivity.
Qed.

Lemma loop_body_effects (a : train_args) (b : Encoded * Labels)
    (st st' : train_state) (brk : bool) :
  loop_body a b st = (Return brk, st') ->
  bert_clf_period_summary a <> 0%Z
  /\ bert_clf_period_save a <> 0%Z
  /\ global_step st' = (global_step st + 1)%Z
  /\ opt_step_calls st' = S (opt_step_calls st)
  /\ brk = (bert_clf_steps a <=? global_step st + 1)%Z
  /\ (training (t_model st) = true -> training (t_model st') = true)
  /\ t_fs st'
     = (if (((global_step st + 1) mod bert_clf_period_save a =? 0)%Z
            || (global_step st + 1 =? bert_clf_steps a)%Z)%bool
        then <[ckpt_path_of (bert_clf_enable_sem a) (dataset_name a) (model_init a)
                 (global_step st + 1)
               := SavedModel (parameters (t_model st'))]> (t_fs st)
        else t_fs st).
Proof.
  intros Hbody.
  pose proof (forward_backward_mode b st) as Htr1.
  destruct (forward_backward_spec b st) as (st1 & Hfb & Hg1 & _ & _ & _ & Hfs1 & Ho1).
  rewrite Hfb in Htr1. cbn [snd] in Htr1.
  revert Hbody. unfold loop_body, bind at 1. rewrite Hfb. unfold bind at 1.
  destruct (Z.eq_dec (bert_clf_period_summary a) 0%Z) as [Hz|HPs].
  { unfold summary_block, bind, get, py_divides. rewrite Hz. cbn. discriminate. }
  pose proof (summary_block_frame a
                (fst (forward (training (t_model st)) (parameters (t_model st))
                        (fst b) (snd b))) st1) as (Hfs2 & Hm2 & Ho2).
  pose proof (summary_block_global_step a
                (fst (forward (training (t_model st)) (parameters (t_model st))
                        (fst b) (snd b))) st1) as Hg2.
  destruct (summary_block a _ st1) as [[[]|e] st2]; [|discriminate].
  cbn [snd] in Hfs2, Hm2, Ho2, Hg2.
  unfold bind at 1.
  pose proof (validation_block_keeps a st2) as (Hg3 & _ & _ & Ho3 & _).
  destruct (validation_block a st2) as [[[]|e] st3] eqn:Hval; [|discriminate].
  cbn [snd] in Hg3, Ho3.
  destruct (validation_block_frame a st2 st3 Hval) as [Hfs3 Htr3].
  unfold bind at 1.
  destruct (Z.eq_dec (bert_clf_period_save a) 0%Z) as [Hz|HPc].
  { unfold checkpoint_block, bind, get, py_divides. rewrite Hz. cbn. discriminate. }
  rewrite (checkpoint_block_spec a st3 HPc).
  unfold bind, get, ret. intros [= <- <-].
  assert (Hg : global_step st3 = (global_step st + 1)%Z) by congruence.
  assert (Hfs : t_fs st3 = t_fs st) by congruence.
  assert (Htr : training (t_model st) = true -> training (t_model st3) = true).
  { intros Ht. apply Htr3. rewrite Hm2, Htr1. exact Ht. }
  rewrite Hg.
  split; [exact HPs|]. split; [exact HPc|].
  destruct (_ || _)%bool; cbn [save_checkpoint global_step opt_step_calls t_model
                               t_fs save_pretrained].
  - rewrite Hg, Hfs. repeat split; try congruence; try exact Htr.
  - repeat split; try congruence; try exact Htr.
Qed.

(** Checkpoints are never removed by a save. *)
Lemma loop_body_keeps_paths (a : train_args) (b : Encoded * Labels)
    (st st' : train_state) (brk : bool) (p : string) :
  loop_body a b st = (Return brk, st') ->
  is_Some (t_fs st !! p) -> is_Some (t_fs st' !! p).
Proof.
  intros Hbody Hp.
  destruct (loop_body_effects a b st st' brk Hbody) as (_ & _ & _ & _ & _ & _ & Hfs).
  rewrite Hfs. destruct (_ || _)%bool; [|exact Hp].
  rewrite lookup_insert. case_decide; [eauto | exact Hp].
Qed.

(** The invariants of a loop that returns: the counters advance together,
    the model stays in train mode, paths are kept, and every step that is a
    multiple of the save period has left a checkpoint at its path. *)
Lemma train_loop_invariants (a : train_args) :
  forall (batches : list (Encoded * Labels)) (st st' : train_state) (ex : loop_exit),
    train_loop a batches st = (Return ex, st') ->
    (global_step st <= global_step st')%Z
    /\ (Z.of_nat (opt_step_calls st') - Z.of_nat (opt_step_calls st)
        = global_step st' - global_step st)%Z
    /\ (global_step st' - global_step st <= Z.of_nat (length batches))%Z
    /\ (training (t_model st) = true -> training (t_model st') = true)
    /\ (forall p, is_Some (t_fs st !! p) -> is_Some (t_fs st' !! p))
    /\ (forall k, (global_step st < k <= global_step st')%Z ->
          (k mod bert_clf_period_save a = 0)%Z ->
          is_Some (t_fs st' !! ckpt_path_of (bert_clf_enable_sem a) (dataset_name a)
                                  (model_init a) k)).
Proof.
  induction batches as [|b rest IH]; intros st st' ex Hrun.
  - cbn in Hrun. injection Hrun as _ <-. cbn [length].
    split; [lia|]. split; [lia|]. split; [lia|]. split; [auto|]. split.
    + auto.
    + intros k Hk. lia.
  - cbn [train_loop] in Hrun. unfold bind in Hrun.
    destruct (loop_body a b st) as [[brk|e] st1] eqn:Hbody; [|discriminate].
    destruct (loop_body_effects a b st st1 brk Hbody)
      as (_ & _ & Hg1 & Ho1 & _ & Htr1 & Hfs1).
    pose proof (loop_body_keeps_paths a b st st1 brk) as Hkeep1.
    assert (Hsave1 : ((global_step st + 1) mod bert_clf_period_save a = 0)%Z ->
                     is_Some (t_fs st1 !! ckpt_path_of (bert_clf_enable_sem a)
                                (dataset_name a) (model_init a) (global_step st + 1))).
    { intros Hdiv. apply Z.eqb_eq in Hdiv. rewrite Hfs1, Hdiv. cbn [orb].
      rewrite lookup_insert_eq. eauto. }
    cbn [length].
    destruct brk.
    + unfold ret in Hrun. injection Hrun as _ <-.
      split; [lia|]. split; [lia|]. split; [lia|]. split; [exact Htr1|]. split.
      * intros p Hp. apply (Hkeep1 p Hbody Hp).
      * intros k Hk Hdiv. assert (k = (global_step st + 1)%Z) as -> by lia.
        apply Hsave1. exact Hdiv.
    + destruct (IH st1 st' ex Hrun) as (Hle & Hcnt & Hlen & Htr & Hkeep & Hsave).
      split; [lia|]. split; [lia|]. split; [lia|]. split; [auto|]. split.
      * intros p Hp. apply Hkeep. apply (Hkeep1 p Hbody Hp).
      * intros k Hk Hdiv.
        destruct (Z.eq_dec k (global_step st + 1)%Z) as [->|Hne].
        -- apply Hkeep. apply Hsave1. exact Hdiv.
        -- apply Hsave; [lia | exact Hdiv].
Qed.

End TrainingMore.

Section TrainingExtras.
Context `{Collaborators}.

(** A loader with fewer batches than the budget is consumed to its end. *)
Lemma train_loop_short (a : train_args) :
  bert_clf_period_summary a <> 0%Z ->
  bert_clf_period_val a <> 0%Z ->
  bert_clf_period_save a <> 0%Z ->
  (forall it, is_Some (next_batch it)) ->
  (1 <= bert_clf_val_steps a)%Z ->
  forall (batches : list (Encoded * Labels)) (st : train_state),
    (global_step st + Z.of_nat (length batches) < bert_clf_steps a)%Z ->
    exists st',
      train_loop a batches st = (Return ExitExhausted, st')
      /\ global_step st' = (global_step st + Z.of_nat (length batches))%Z
      /\ opt_step_calls st' = (opt_step_calls st + length batches)%nat.
Proof.
  intros HPs HPv HPc Hnext Hsteps.
  induction batches as [|b rest IH]; intros st Hlen.
  - exists st. cbn. unfold ret. repeat split; lia.
  - cbn [train_loop]. unfold bind.
    destruct (loop_body_returns a b st HPs HPv HPc Hnext Hsteps) as (brk & st1 & Hb).
    rewrite Hb.
    destruct (loop_body_effects a b st st1 brk Hb) as (_ & _ & Hg1 & Ho1 & Hbrk & _).
    cbn [length] in Hlen.
    destruct (Z.leb_spec (bert_clf_steps a) (global_step st + 1)); [lia|].
    subst brk.
    destruct (IH st1) as (st' & Hrun & Hg' & Ho'); [lia|].
    exists st'. split; [exact Hrun|]. cbn [length]. split; lia.
Qed.

(** X15: training and then loading round-trip.  After a fresh run that
    reaches its budget (a budget of at least 1 step, a loader with at least
    that many batches, nonzero summary, validation and checkpoint periods, a
    validation source that does not run dry, at least one validation batch
    per evaluation, a supported optimizer, a learning rate and a weight
    decay that are not negative, no checkpoint at the gating path), a second
    call with the same arguments on the file system left behind finds the
    checkpoint, trains nothing, changes nothing on disk and returns the very
    model of the first call: same weights, eval mode. *)
Theorem X15_train_then_load_round_trip (a : train_args)
    (fs : gmap string (fs_entry Params)) :
  (1 <= bert_clf_steps a)%Z ->
  (Z.to_nat (bert_clf_steps a) <= length (loader_batches a))%nat ->
  bert_clf_period_summary a <> 0%Z ->
  bert_clf_period_val a <> 0%Z ->
  bert_clf_period_save a <> 0%Z ->
  (forall it, is_Some (next_batch it)) ->
  (1 <= bert_clf_val_steps a)%Z ->
  In (bert_clf_optimizer a) ["adam"; "sgd"; "adamw"] ->
  (0 <= bert_clf_lr a)%Q ->
  (0 <= bert_clf_weight_decay a)%Q ->
  fs !! ckpt_path_of (bert_clf_enable_sem a) (dataset_name a) (model_init a)
          (bert_clf_steps a) = None ->
  exists (m : model) (w : world),
    load_or_train_bert_clf a fs = (Return m, w)
    /\ load_or_train_bert_clf a (w_fs w)
       = (Return m, {| w_fs := w_fs w; w_trained := None |}).
Proof.
  intros HN Hlen HPs HPv HPc Hnext Hsteps Hname Hlr Hdecay Hfresh.
  destruct (init_train_state_returns a fs Hname Hlr Hdecay)
    as (st0 & Hinit & Hg0 & Ho0 & _).
  destruct (train_loop_runs a HPs HPv HPc Hnext Hsteps (loader_batches a) st0)
    as (st & Hrun & Hg & Ho & Hfs).
  { rewrite Hg0. lia. }
  { rewrite Hg0, Z.sub_0_r. exact Hlen. }
  exists (model_eval (t_model st)), {| w_fs := t_fs st; w_trained := Some st |}.
  split.
  - unfold load_or_train_bert_clf, train_bert_clf.
    rewrite path_exists_lookup, Hfresh, Hinit, Hrun. reflexivity.
  - cbn [w_fs]. unfold load_or_train_bert_clf, from_pretrained.
    rewrite path_exists_lookup, Hfs. reflexivity.
Qed.

(** X16: a loader that yields fewer batches than the budget does not make
    the run fail.  With nonzero summary, validation and checkpoint periods,
    a validation source that does not run dry, at least one validation
    batch per evaluation, a supported optimizer and a learning rate and a
    weight decay that are not negative, the loop ends because the loader is
    exhausted, after exactly as many optimizer steps as there were batches,
    and the model is returned in eval mode all the same. *)
Theorem X16_short_loader_returns_early (a : train_args)
    (fs : gmap string (fs_entry Params)) :
  (Z.of_nat (length (loader_batches a)) < bert_clf_steps a)%Z ->
  bert_clf_period_summary a <> 0%Z ->
  bert_clf_period_val a <> 0%Z ->
  bert_clf_period_save a <> 0%Z ->
  (forall it, is_Some (next_batch it)) ->
  (1 <= bert_clf_val_steps a)%Z ->
  In (bert_clf_optimizer a) ["adam"; "sgd"; "adamw"] ->
  (0 <= bert_clf_lr a)%Q ->
  (0 <= bert_clf_weight_decay a)%Q ->
  exists (m : model) (st : train_state),
    train_bert_clf a fs
    = (Return (m, ExitExhausted), {| w_fs := t_fs st; w_trained := Some st |})
    /\ training m = false
    /\ global_step st = Z.of_nat (length (loader_batches a))
    /\ opt_step_calls st = length (loader_batches a).
Proof.
  intros Hlen HPs HPv HPc Hnext Hsteps Hname Hlr Hdecay.
  destruct (init_train_state_returns a fs Hname Hlr Hdecay)
    as (st0 & Hinit & Hg0 & Ho0 & _).
  destruct (train_loop_short a HPs HPv HPc Hnext Hsteps (loader_batches a) st0)
    as (st & Hrun & Hg & Ho).
  { rewrite Hg0. lia. }
  exists (model_eval (t_model st)), st.
  unfold train_bert_clf. rewrite Hinit, Hrun.
  repeat split; [rewrite Hg, Hg0; lia | rewrite Ho, Ho0; lia].
Qed.

(** X17: a summary period of zero is only noticed inside the first
    iteration: with a supported optimizer, a learning rate and a weight
    decay that are not negative, no checkpoint to load and a loader that
    yields a batch, the call raises ZeroDivisionError after the first
    optimizer step has been taken, with nothing written to the summary and
    nothing saved. *)
Theorem X17_zero_summary_period_raises_after_one_step (a : train_args)
    (fs : gmap string (fs_entry Params)) :
  bert_clf_period_summary a = 0%Z ->
  loader_batches a <> [] ->
  In (bert_clf_optimizer a) ["adam"; "sgd"; "adamw"] ->
  (0 <= bert_clf_lr a)%Q ->
  (0 <= bert_clf_weight_decay a)%Q ->
  fs !! ckpt_path_of (bert_clf_enable_sem a) (dataset_name a) (model_init a)
          (bert_clf_steps a) = None ->
  exists st : train_state,
    load_or_train_bert_clf a fs
    = (Raise ZeroDivisionError, {| w_fs := fs; w_trained := Some st |})
    /\ opt_step_calls st = 1%nat
    /\ global_step st = 1%Z
    /\ events (t_summary st) = [].
Proof.
  intros HPs Hbatches Hname Hlr Hdecay Hfresh.
  destruct (init_train_state_returns a fs Hname Hlr Hdecay)
    as (st0 & Hinit & Hg0 & Ho0 & Hfs0 & _).
  assert (Hev0 : events (t_summary st0) = []).
  { revert Hinit. unfold init_train_state.
    destruct (get_optimizer _ _ _ _ _ _) as [[opt sche]|e]; [|discriminate].
    intros [= <-]. reflexivity. }
  destruct (loader_batches a) as [|b rest] eqn:Hl; [contradiction|].
  destruct (forward_backward_spec b st0) as (st1 & Hfb & Hg1 & _ & _ & Hs1 & Hfs1 & Ho1).
  exists st1.
  assert (Hloop : train_loop a (b :: rest) st0 = (Raise ZeroDivisionError, st1)).
  { cbn [train_loop]. unfold bind at 1, loop_body, bind at 1. rewrite Hfb.
    unfold bind at 1, summary_block, bind at 1, get. unfold bind at 1, py_divides.
    rewrite HPs. reflexivity. }
  split.
  - unfold load_or_train_bert_clf, train_bert_clf.
    rewrite path_exists_lookup, Hfresh, Hinit, Hl, Hloop, Hfs1, Hfs0. reflexivity.
  - repeat split; [rewrite Ho1, Ho0 | rewrite Hg1, Hg0 | rewrite Hs1]; auto.
Qed.

(** X18: a run that returns never removes a path, and leaves a checkpoint at
    the path of every step up to the last one that is a multiple of the save
    period; it has taken one optimizer step per step counted, at most as
    many as the loader has batches. *)
Theorem X18_periodic_checkpoints_are_kept (a : train_args)
    (fs : gmap string (fs_entry Params)) (m : model) (ex : loop_exit) :
  fst (train_bert_clf a fs) = Return (m, ex) ->
  exists st : train_state,
    snd (train_bert_clf a fs) = {| w_fs := t_fs st; w_trained := Some st |}
    /\ (forall p, is_Some (fs !! p) -> is_Some (t_fs st !! p))
    /\ (forall k, (1 <= k <= global_step st)%Z ->
          (k mod bert_clf_period_save a = 0)%Z ->
          is_Some (t_fs st !! ckpt_path_of (bert_clf_enable_sem a) (dataset_name a)
                                (model_init a) k))
    /\ Z.of_nat (opt_step_calls st) = global_step st
    /\ (global_step st <= Z.of_nat (length (loader_batches a)))%Z.
Proof.
  unfold train_bert_clf.
  destruct (init_train_state a fs) as [st0|e] eqn:Hinit; [|discriminate].
  assert (Hst0 : global_step st0 = 0%Z /\ opt_step_calls st0 = O /\ t_fs st0 = fs).
  { revert Hinit. unfold init_train_state.
    destruct (get_optimizer _ _ _ _ _ _) as [[opt sche]|e]; [|discriminate].
    intros [= <-]. auto. }
  destruct Hst0 as (Hg0 & Ho0 & Hfs0).
  destruct (train_loop a (loader_batches a) st0) as [[ex'|e] st] eqn:Hrun;
    [|discriminate].
  intros _. exists st. split; [reflexivity|].
  destruct (train_loop_invariants a (loader_batches a) st0 st ex' Hrun)
    as (_ & Hcnt & Hlen & _ & Hkeep & Hsave).
  rewrite Hg0, Ho0, ?Hfs0 in *.
  split; [exact Hkeep|].
  split; [intros k Hk; apply Hsave; lia|].
  split; lia.
Qed.

(** X19: the training loop never runs a training step in eval mode.  The
    loop starts with the model in train mode, and after any number of
    completed iterations, validations included, the model is in train mode
    again; only the final [model.eval()] switches it. *)
Theorem X19_loop_stays_in_train_mode (a : train_args)
    (fs : gmap string (fs_entry Params)) (st0 st' : train_state)
    (batches : list (Encoded * Labels)) (ex : loop_exit) :
  init_train_state a fs = Return st0 ->
  train_loop a batches st0 = (Return ex, st') ->
  training (t_model st0) = true /\ training (t_model st') = true.
Proof.
  intros Hinit Hrun.
  assert (Htr0 : training (t_model st0) = true).
  { revert Hinit. unfold init_train_state.
    destruct (get_optimizer _ _ _ _ _ _) as [[opt sche]|e]; [|discriminate].
    intros [= <-]. reflexivity. }
  split; [exact Htr0|].
  destruct (train_loop_invariants a batches st0 st' ex Hrun) as (_ & _ & _ & Htr & _).
  apply Htr. exact Htr0.
Qed.

End TrainingExtras.

Lemma X15_witness :
  exists (m : @model toy) (w : @world toy),
    load_or_train_bert_clf (H := toy) (toy_args 3 5 2 3 5) ∅ = (Return m, w)
    /\ load_or_train_bert_clf (H := toy) (toy_args 3 5 2 3 5) (w_fs w)
       = (Return m, {| w_fs := w_fs w; w_trained := None |}).
Proof.
  apply (X15_train_then_load_round_trip (H := toy) (toy_args 3 5 2 3 5) ∅).
  - cbn. lia.
  - vm_compute. lia.
  - cbn. lia.
  - cbn. lia.
  - cbn. lia.
  - intros it. cbn. eauto.
  - cbn. lia.
  - cbn. auto.
  - discriminate.
  - discriminate.
  - apply lookup_empty.
Defined.

Lemma X16_witness :
  exists (m : @model toy) (st : @train_state toy),
    train_bert_clf (H := toy) (toy_args 10 4 2 3 5) ∅
    = (Return (m, ExitExhausted), {| w_fs := t_fs st; w_trained := Some st |})
    /\ training m = false
    /\ global_step st = 4%Z
    /\ opt_step_calls st = 4%nat.
Proof.
  apply (X16_short_loader_returns_early (H := toy) (toy_args 10 4 2 3 5) ∅).
  - vm_compute. reflexivity.
  - cbn. lia.
  - cbn. lia.
  - cbn. lia.
  - intros it. cbn. eauto.
  - cbn. lia.
  - cbn. auto.
  - discriminate.
  - discriminate.
Defined.

Lemma X17_witness :
  exists st : @train_state toy,
    load_or_train_bert_clf (H := toy) (toy_args 10 4 0 3 5) ∅
    = (Raise ZeroDivisionError, {| w_fs := ∅; w_trained := Some st |})
    /\ opt_step_calls st = 1%nat
    /\ global_step st = 1%Z
    /\ events (t_summary st) = [].
Proof.
  apply (X17_zero_summary_period_raises_after_one_step (H := toy)
           (toy_args 10 4 0 3 5) ∅).
  - reflexivity.
  - vm_compute. discriminate.
  - cbn. auto.
  - discriminate.
  - discriminate.
  - apply lookup_empty.
Defined.

Lemma X18_witness :
  exists st : @train_state toy,
    snd (train_bert_clf (H := toy) (toy_args 3 5 2 3 2) ∅)
    = {| w_fs := t_fs st; w_trained := Some st |}
    /\ Z.of_nat (opt_step_calls st) = global_step st.
Proof.
  destruct (X18_periodic_checkpoints_are_kept (H := toy) (toy_args 3 5 2 3 2) ∅
              (toy_model false 3) ExitBreak)
    as (st & Hw & _ & _ & Hcnt & _).
  - vm_compute. reflexivity.
  - exists st. auto.
Defined.

Lemma X19_witness :
  match init_train_state (H := toy) (toy_args 3 5 2 1 5) ∅ with
  | Return st0 =>
      training (t_model (snd (train_loop (H := toy) (toy_args 3 5 2 1 5)
                                [(4%Z, 1%Z); (4%Z, 1%Z)] st0))) = true
  | Raise _ => False
  end.
Proof.
  destruct (init_train_state (H := toy) (toy_args 3 5 2 1 5) ∅) as [st0|e] eqn:Hinit.
  - destruct (train_loop (H := toy) (toy_args 3 5 2 1 5) [(4%Z, 1%Z); (4%Z, 1%Z)] st0)
      as [[ex|e] st'] eqn:Hrun.
    + exact (proj2 (X19_loop_stays_in_train_mode (H := toy) (toy_args 3 5 2 1 5) ∅
                      st0 st' [(4%Z, 1%Z); (4%Z, 1%Z)] ex Hinit Hrun)).
    + vm_compute in Hinit. injection Hinit as <-. vm_compute in Hrun. discriminate.
  - vm_compute in Hinit. discriminate.
Defined.

(** ** More on get_optimizer *)

Lemma Qdiv_le_1 (a d : Z) :
  (0 < d)%Z -> (a <= d)%Z -> (inject_Z a / inject_Z d <= 1)%Q.
Proof.
  intros Hd Had. apply Qle_shift_div_r.
  - change 0%Q with (inject_Z 0). rewrite <- Zlt_Qlt. exact Hd.
  - rewrite Qmult_1_l. rewrite <- Zle_Qle. exact Had.
Qed.

Lemma Qdiv_nonneg (a d : Z) :
  (0 < d)%Z -> (0 <= a)%Z -> (0 <= inject_Z a / inject_Z d)%Q.
Proof.
  intros Hd Ha. apply Qle_shift_div_l.
  - change 0%Q with (inject_Z 0). rewrite <- Zlt_Qlt. exact Hd.
  - rewrite Qmult_0_l. change 0%Q with (inject_Z 0). rewrite <- Zle_Qle. exact Ha.
Qed.

(** The multiplier stays between 0 and 1 from step 0 on, whatever the budget. *)
Lemma lr_lambda_bounds (W N s : Z) :
  (1 <= W)%Z -> (0 <= s)%Z -> (0 <= lr_lambda W N s <= 1)%Q.
Proof.
  intros HW Hs. unfold lr_lambda.
  destruct (Z.ltb_spec s W) as [Hlt|Hge].
  - rewrite Z.max_r by lia. split.
    + apply Qdiv_nonneg; lia.
    + apply Qdiv_le_1; lia.
  - split; [apply Q.le_max_l|].
    apply Q.max_lub; [discriminate|].
    destruct (Z.le_gt_cases 1 (N - W)) as [Hbig|Hsmall].
    + rewrite Z.max_r by lia. apply Qdiv_le_1; lia.
    + rewrite Z.max_l by lia. apply Qdiv_le_1; lia.
Qed.

(** Past the budget and the warmup boundary the multiplier is 0. *)
Lemma lr_lambda_after_budget (W N s : Z) :
  (W <= s)%Z -> (N <= s)%Z -> (lr_lambda W N s == 0)%Q.
Proof.
  intros HW HN. unfold lr_lambda.
  destruct (Z.ltb_spec s W) as [Hlt|Hge]; [lia|].
  apply Q.max_l.
  assert (Hd : (0 < Z.max 1 (N - W))%Z) by lia.
  destruct (Z.eq_dec (N - s)%Z 0%Z) as [->|Hne].
  - rewrite Qdiv_zero_num. apply Qle_refl.
  - apply Qlt_le_weak. rewrite <- (Qdiv_zero_num (Z.max 1 (N - W))).
    apply Qdiv_lt_same_den; lia.
Qed.

Section OptimizerMore.
Context `{Collaborators}.

(** X21: with the linear warmup/decay schedule and the factory's warmup
    count of 1000, for every supported selector, every non-negative rate and
    every step budget, the rate the schedule sets never leaves the interval
    from 0 to the configured rate; below step 1000 it is the configured rate
    times step/1000 whatever the budget, and from the larger of the budget
    and 1000 on it is 0. *)
Theorem X21_schedule_rate_bounds (name : string) (lr decay : Q) (train_step : Z)
    (params : Params) (opt : optimizer) (sche : scheduler) :
  get_optimizer name lr decay train_step params default_warmup = Return (opt, sche) ->
  (0 <= lr)%Q ->
  (forall s : Z, (0 <= s)%Z -> (0 <= lr_at sche s <= lr)%Q)
  /\ (forall s : Z, (0 <= s < 1000)%Z ->
        (lr_at sche s == lr * (inject_Z s / 1000))%Q)
  /\ (forall s : Z, (1000 <= s)%Z -> (train_step <= s)%Z -> (lr_at sche s == 0)%Q).
Proof.
  intros Hget Hlr.
  assert (Hsche : num_warmup_steps sche = 1000%Z
                  /\ num_training_steps sche = train_step /\ base_lr sche = lr).
  { revert Hget. unfold get_optimizer, new_optimizer.
    destruct (Qle_bool 0 lr && Qle_bool 0 decay)%bool;
      (destruct (String.eqb name "adam");
         [first [discriminate | intros [= _ <-]; cbn; auto]|]);
      (destruct (String.eqb name "sgd");
         [first [discriminate | intros [= _ <-]; cbn; auto]|]);
      (destruct (String.eqb name "adamw");
         [first [discriminate | intros [= _ <-]; cbn; auto]|]);
      discriminate. }
  destruct Hsche as (HW & HN & Hb). unfold lr_at. rewrite HW, HN, Hb.
  split; [|split].
  - intros s Hs.
    destruct (lr_lambda_bounds 1000 train_step s) as [Hlo Hhi]; [lia | exact Hs |].
    split.
    + apply Qmult_le_0_compat; assumption.
    + rewrite <- (Qmult_1_r lr) at 2.
      apply Qmult_le_compat_nonneg; split; try assumption; apply Qle_refl.
  - intros s Hs. unfold lr_lambda.
    destruct (Z.ltb_spec s 1000); [|lia]. reflexivity.
  - intros s Hs HN'. rewrite lr_lambda_after_budget by assumption.
    apply Qmult_0_r.
Qed.

End OptimizerMore.

Lemma X21_witness :
  (lr_at (snd (get_linear_schedule_with_warmup (H := toy)
                 (fresh_optimizer (H := toy) "sgd" (1 # 10) 0 0%Z) 1000 10)) 2000
   == 0)%Q.
Proof.
  refine (proj2 (proj2 (X21_schedule_rate_bounds (H := toy) "sgd" (1 # 10) 0 10 0%Z
                          _ _ eq_refl _)) 2000%Z _ _).
  - discriminate.
  - lia.
  - lia.
Defined.

(** ** change_to_fasttext_format *)

Example format_d_examples :
  format_d 0 = "0" /\ format_d 7 = "7" /\ format_d 120 = "120" /\ format_d (-3) = "-3".
Proof. vm_compute. repeat split. Qed.

(** A well-formed single-field item yields its printed record. *)
Lemma fasttext_line_ok (item : gmap string pyval) :
  (exists z, item !! "label" = Some (PInt z)) ->
  is_Some (item !! "text0") ->
  exists line, fasttext_line item = Return line.
Proof.
  intros [z Hl] [t Ht]. unfold fasttext_line, py_getitem. rewrite Hl, Ht. cbn. eauto.
Qed.

(** Over single-field items with an integer label and a [text0], the loop
    prints once per item and goes on with what follows. *)
Lemma write_fasttext_items_prefix (items : list (gmap string pyval)) :
  Forall (fun item => item !! "text1" = None
                      /\ (exists z, item !! "label" = Some (PInt z))
                      /\ is_Some (item !! "text0")) items ->
  exists lines,
    Forall2 (fun item line => fasttext_line item = Return line) items lines
    /\ forall rest printed,
         write_fasttext_items (items ++ rest) printed
         = write_fasttext_items rest (printed ++ lines).
Proof.
  induction 1 as [|item items (Hno & Hl & Ht) _ (lines & Hlines & Hrun)].
  - exists []. split; [constructor|]. intros rest printed.
    rewrite app_nil_r. reflexivity.
  - destruct (fasttext_line_ok item Hl Ht) as [line Hline].
    exists (line :: lines). split; [constructor; assumption|].
    intros rest printed. cbn [app write_fasttext_items].
    rewrite py_in_lookup, Hno. unfold bind, lift_outcome, modify.
    rewrite Hline. rewrite Hrun, <- app_assoc. reflexivity.
Qed.

(** X22: on a dataset whose items all have an integer [label], a [text0]
    and no [text1], [change_to_fasttext_format] returns and leaves in the
    file exactly what one [print] per item writes, in the order of the
    dataset: ["__label__<label> <text0>"] with the text as it is (a text
    that contains newlines spreads over several lines of the file); the
    other files are untouched. *)
Theorem X22_fasttext_format_one_print_per_item (dataset : fibber_dataset)
    (filename : string) (files : gmap string (list string)) :
  Forall (fun item => item !! "text1" = None
                      /\ (exists z, item !! "label" = Some (PInt z))
                      /\ is_Some (item !! "text0")) (ds_data dataset) ->
  exists printed,
    change_to_fasttext_format dataset filename files
    = (Return tt, <[filename := printed]> files)
    /\ Forall2 (fun item record =>
                  exists z t, item !! "label" = Some (PInt z)
                              /\ item !! "text0" = Some t
                              /\ record
                                 = "__label__" +:+ format_d z +:+ " " +:+ py_str t)
         (ds_data dataset) printed.
Proof.
  intros Hwf.
  destruct (write_fasttext_items_prefix (ds_data dataset) Hwf) as (lines & Hlines & Hrun).
  exists lines. split.
  - unfold change_to_fasttext_format.
    specialize (Hrun [] []). rewrite app_nil_r in Hrun. rewrite Hrun. reflexivity.
  - clear Hrun. induction Hlines as [|item line items lines Hline _ IH].
    + constructor.
    + inversion Hwf as [|? ? (_ & [z Hl] & [t Ht]) Hrest]; subst.
      constructor; [|apply IH; exact Hrest].
      exists z, t. split; [exact Hl|]. split; [exact Ht|].
      revert Hline. unfold fasttext_line, py_getitem. rewrite Hl, Ht. cbn.
      intros [= <-]. reflexivity.
Qed.

(** X23: the first item that carries a [text1] field makes
    [change_to_fasttext_format] raise RuntimeError; the file then holds the
    lines of the items before it and nothing of that item or of the items
    after it. *)
Theorem X23_fasttext_format_rejects_paired_items (dataset : fibber_dataset)
    (filename : string) (files : gmap string (list string))
    (before after : list (gmap string pyval)) (item : gmap string pyval) :
  ds_data dataset = before ++ item :: after ->
  Forall (fun item => item !! "text1" = None
                      /\ (exists z, item !! "label" = Some (PInt z))
                      /\ is_Some (item !! "text0")) before ->
  is_Some (item !! "text1") ->
  exists lines,
    change_to_fasttext_format dataset filename files
    = (Raise (RuntimeError EmptyString), <[filename := lines]> files)
    /\ Forall2 (fun item line => fasttext_line item = Return line) before lines.
Proof.
  intros Hdata Hwf [v Hv].
  destruct (write_fasttext_items_prefix before Hwf) as (lines & Hlines & Hrun).
  exists lines. split; [|exact Hlines].
  unfold change_to_fasttext_format. rewrite Hdata, Hrun.
  cbn [write_fasttext_items]. rewrite py_in_lookup, Hv. reflexivity.
Qed.

(** ** RefBleuMetric.measure_example *)

Section RefBleuProofs.
Variable Score : Type.
Variable word_tokenize : pyval -> outcome (list string).
Variable sentence_bleu : list (list string) -> list string -> outcome Score.

Lemma tokenize_all_raises (refs : list pyval) :
  Exists (fun v => is_raise (word_tokenize v) = true) refs ->
  is_raise (tokenize_all word_tokenize refs) = true.
Proof.
  induction refs as [|r rest IH]; intros Hex.
  - inversion Hex.
  - cbn [tokenize_all]. destruct (word_tokenize r) as [toks|e] eqn:Hr; [|reflexivity].
    inversion Hex as [? ? Hhead|? ? Htail]; subst.
    + rewrite Hr in Hhead. discriminate.
    + specialize (IH Htail). destruct (tokenize_all word_tokenize rest);
        [discriminate | reflexivity].
Qed.

(** X25: [measure_example] never raises because of the references: without
    a data record, without a [ref] entry, or when a reference cannot be
    tokenized, it returns 0, and it does so without tokenizing or scoring
    the paraphrase. *)
Theorem X25_ref_bleu_without_usable_ref_is_zero (origin paraphrase : pyval)
    (data_record : option (gmap string ref_entry)) (paraphrase_field : string) :
  data_record = None
  \/ (exists r, data_record = Some r /\ r !! "ref" = None)
  \/ (exists r refs, data_record = Some r
                     /\ (r !! "ref" = Some (RefList refs)
                         \/ exists v, r !! "ref" = Some (OneRef v) /\ refs = [v])
                     /\ Exists (fun v => is_raise (word_tokenize v) = true) refs) ->
  measure_example Score word_tokenize sentence_bleu origin paraphrase data_record
    paraphrase_field = Return BleuZero.
Proof.
  intros Hcase. unfold measure_example.
  assert (Hnone : tokenized_refs word_tokenize data_record = None).
  { unfold tokenized_refs.
    destruct Hcase as [-> | [(r & -> & Hr) | (r & refs & -> & Hr & Hex)]].
    - reflexivity.
    - rewrite Hr. reflexivity.
    - apply tokenize_all_raises in Hex.
      destruct Hr as [Hr | (v & Hr & ->)]; rewrite Hr;
        destruct (tokenize_all _ _); [discriminate | reflexivity
                                     | discriminate | reflexivity]. }
  rewrite Hnone. reflexivity.
Qed.

End RefBleuProofs.

Lemma X22_witness :
  exists printed,
    change_to_fasttext_format
      {| ds_data := [single_record]; ds_label_mapping := ["neg"; "pos"];
         ds_cased := true; ds_paraphrase_field := "text0" |}
      "/tmp/mr.train" ∅
    = (Return tt, <["/tmp/mr.train" := printed]> ∅)
    /\ length printed = 1%nat.
Proof.
  destruct (X22_fasttext_format_one_print_per_item
              {| ds_data := [single_record]; ds_label_mapping := ["neg"; "pos"];
                 ds_cased := true; ds_paraphrase_field := "text0" |}
              "/tmp/mr.train" ∅) as (printed & Hrun & Hall).
  - repeat constructor; vm_compute; eauto.
  - exists printed. split; [exact Hrun|].
    apply Forall2_length in Hall. symmetry. exact Hall.
Defined.

Lemma X23_witness :
  exists lines,
    change_to_fasttext_format
      {| ds_data := [single_record; paired_record; single_record];
         ds_label_mapping := ["neg"; "pos"];
         ds_cased := true; ds_paraphrase_field := "text0" |}
      "/tmp/snli.train" ∅
    = (Raise (RuntimeError EmptyString), <["/tmp/snli.train" := lines]> ∅)
    /\ length lines = 1%nat.
Proof.
  destruct (X23_fasttext_format_rejects_paired_items
              {| ds_data := [single_record; paired_record; single_record];
                 ds_label_mapping := ["neg"; "pos"];
                 ds_cased := true; ds_paraphrase_field := "text0" |}
              "/tmp/snli.train" ∅ [single_record] [single_record] paired_record)
    as (lines & Hrun & Hlines).
  - reflexivity.
  - repeat constructor; vm_compute; eauto.
  - vm_compute. eauto.
  - exists lines. split; [exact Hrun|].
    apply Forall2_length in Hlines. symmetry. exact Hlines.
Defined.

Lemma X25_witness :
  measure_example Z (fun v => Return [py_str v]) (fun _ _ => Return 1%Z)
    (PStr "a fine film") (PStr "a good film") None "text0" = Return BleuZero.
Proof.
  apply (X25_ref_bleu_without_usable_ref_is_zero Z). left. reflexivity.
Defined.

(** X24: the label token of a fasttext line determines the label: the
    digits after ["__label__"] read back as the integer that was written,
    so two different labels never give the same token. *)
Theorem X24_fasttext_label_token_round_trip (z z' : Z) :
  parse_04d (format_d z) = Some z
  /\ ("__label__" +:+ format_d z = "__label__" +:+ format_d z' -> z = z').
Proof.
  assert (Hparse : forall x, parse_04d (format_d x) = Some x).
  { intros x. unfold format_d, parse_04d, str_of_N.
    destruct (Z.ltb_spec x 0) as [Hneg|Hpos].
    - change ("-" +:+ NilEmpty.string_of_uint (N.to_uint (Z.to_N (- x))))
        with (String "-"%char (NilEmpty.string_of_uint (N.to_uint (Z.to_N (- x))))).
      cbn [NilEmpty.uint_of_string]. rewrite NilEmpty.usu. cbn.
      rewrite DecimalN.Unsigned.of_to. f_equal. lia.
    - rewrite NilEmpty.usu, DecimalN.Unsigned.of_to. f_equal. lia. }
  split; [apply Hparse|].
  intros E. apply str_app_inv_head in E.
  pose proof (Hparse z) as P. rewrite E, Hparse in P. congruence.
Qed.

(** ** StrategyBase.__init__ *)

Section StrategyProofs.
Variable Device : Type.
Variable MetricBundle : Type.
Variable torch_device : string -> outcome Device.

(** The loop returns when the names are pairwise distinct and none is in
    the configuration yet; it then adds, for each hyperparameter, the value
    of its argument or its default, and nothing else. *)
Lemma read_hyperparameters_ok (abbr : string) (arg_dict : gmap string pyval)
    (hps : list hyperparameter) :
  forall config0 : gmap string pyval,
    NoDup (map p_name hps) ->
    Forall (fun hp => config0 !! p_name hp = None) hps ->
    exists config,
      read_hyperparameters abbr arg_dict hps config0 = (Return tt, config)
      /\ (forall hp, hp ∈ hps ->
            config !! p_name hp
            = Some (match arg_dict !! (abbr +:+ "_" +:+ p_name hp) with
                    | None => p_default hp
                    | Some v => v
                    end))
      /\ (forall k, k ∉ map p_name hps -> config !! k = config0 !! k).
Proof.
  induction hps as [|hp rest IH]; intros config0 Hnd Hfresh.
  - exists config0. cbn. unfold ret. repeat split.
    intros hp Hin. inversion Hin.
  - cbn [map] in Hnd. apply NoDup_cons in Hnd as [Hnotin Hnd].
    inversion Hfresh as [|? ? Hhead Htail]; subst.
    cbn [read_hyperparameters]. unfold bind, get, modify, py_assert.
    rewrite py_in_lookup, Hhead. cbn [negb]. unfold ret.
    destruct (IH (<[p_name hp := match arg_dict !! (abbr +:+ "_" +:+ p_name hp) with
                                 | None => p_default hp
                                 | Some v => v
                                 end]> config0) Hnd)
      as (config & Hrun & Hvals & Hother).
    { apply Forall_forall. intros hp' Hin'.
      rewrite lookup_insert_ne.
      - rewrite Forall_forall in Htail. apply Htail. exact Hin'.
      - intros E. apply Hnotin. rewrite E. apply list_elem_of_fmap. eauto. }
    exists config. split; [exact Hrun|]. split.
    + intros hp' Hin'. apply elem_of_cons in Hin' as [-> | Hin'].
      * rewrite (Hother (p_name hp) Hnotin). apply lookup_insert_eq.
      * apply Hvals. exact Hin'.
    + intros k Hk. cbn [map] in Hk. apply not_elem_of_cons in Hk as [Hne Hk].
      rewrite (Hother k Hk). apply lookup_insert_ne. congruence.
Qed.

(** Otherwise the assertion of line 86 fails. *)
Lemma read_hyperparameters_collision (abbr : string) (arg_dict : gmap string pyval)
    (hps : list hyperparameter) :
  forall config0 : gmap string pyval,
    ~ (NoDup (map p_name hps)
       /\ Forall (fun hp => config0 !! p_name hp = None) hps) ->
    fst (read_hyperparameters abbr arg_dict hps config0)
    = Raise (AssertionError EmptyString).
Proof.
  induction hps as [|hp rest IH]; intros config0 Hbad.
  - exfalso. apply Hbad. split; constructor.
  - cbn [read_hyperparameters]. unfold bind, get, modify, py_assert.
    rewrite py_in_lookup.
    destruct (config0 !! p_name hp) as [v|] eqn:Hhead; [reflexivity|].
    cbn [negb]. unfold ret. apply IH.
    intros [Hnd Hfresh]. apply Hbad.
    assert (Hnotin : p_name hp ∉ map p_name rest).
    { intros Hin. apply list_elem_of_fmap in Hin as (hp' & E & Hin').
      rewrite Forall_forall in Hfresh. specialize (Hfresh hp' Hin').
      rewrite <- E, lookup_insert_eq in Hfresh. discriminate. }
    split.
    + cbn [map]. apply NoDup_cons. split; assumption.
    + constructor; [exact Hhead|].
      apply Forall_forall. intros hp' Hin'.
      rewrite Forall_forall in Hfresh. specialize (Hfresh hp' Hin').
      rewrite lookup_insert_ne in Hfresh; [exact Hfresh|].
      intros E. apply Hnotin. rewrite E. apply list_elem_of_fmap. eauto.
Qed.

(** X26: when the hyperparameter names are pairwise distinct and none of
    them is ["strategy_name"], and the device can be built, [__init__]
    returns with a configuration that maps ["strategy_name"] to the class
    name and every hyperparameter name to the value of the argument
    [<abbr>_<name>], or to its default when that argument is absent, and
    that has no other entry: other arguments are not copied. *)
Theorem X26_strategy_config_from_args (class_name abbr : string)
    (hps : list hyperparameter) (arg_dict : gmap string pyval)
    (metric_bundle : MetricBundle) (dev : Device) :
  NoDup ("strategy_name" :: map p_name hps) ->
  strategy_device Device torch_device arg_dict = Return dev ->
  exists sb,
    StrategyBase_init Device MetricBundle torch_device class_name abbr hps arg_dict
      metric_bundle = Return sb
    /\ _device Device MetricBundle sb = dev
    /\ _metric_bundle Device MetricBundle sb = metric_bundle
    /\ _strategy_config Device MetricBundle sb !! "strategy_name"
       = Some (PStr class_name)
    /\ (forall hp, hp ∈ hps ->
          _strategy_config Device MetricBundle sb !! p_name hp
          = Some (match arg_dict !! (abbr +:+ "_" +:+ p_name hp) with
                  | None => p_default hp
                  | Some v => v
                  end))
    /\ (forall k, is_Some (_strategy_config Device MetricBundle sb !! k) ->
          k = "strategy_name" \/ k ∈ map p_name hps).
Proof.
  intros Hnd Hdev. apply NoDup_cons in Hnd as [Hnotin Hnd].
  destruct (read_hyperparameters_ok abbr arg_dict hps
              (<["strategy_name" := PStr class_name]> ∅) Hnd)
    as (config & Hrun & Hvals & Hother).
  { apply Forall_forall. intros hp Hin. rewrite lookup_insert_ne.
    - apply lookup_empty.
    - intros E. apply Hnotin. rewrite E. apply list_elem_of_fmap. eauto. }
  unfold StrategyBase_init. rewrite Hrun, Hdev.
  eexists. split; [reflexivity|]. cbn.
  split; [reflexivity|]. split; [reflexivity|]. split.
  - rewrite (Hother "strategy_name" Hnotin). apply lookup_insert_eq.
  - split; [exact Hvals|].
    intros k Hk.
    destruct (decide (k ∈ map p_name hps)) as [Hin|Hout]; [right; exact Hin|].
    left. rewrite (Hother k Hout) in Hk.
    destruct (decide (k = "strategy_name")) as [->|Hne]; [reflexivity|].
    rewrite lookup_insert_ne, lookup_empty in Hk by congruence.
    destruct Hk as [? Hk]. discriminate.
Qed.

(** X27: when two hyperparameters share a name, or one of them is named
    ["strategy_name"], [__init__] fails with the AssertionError of line 86,
    whatever the arguments are. *)
Theorem X27_strategy_duplicate_hyperparameter (class_name abbr : string)
    (hps : list hyperparameter) (arg_dict : gmap string pyval)
    (metric_bundle : MetricBundle) :
  ~ NoDup ("strategy_name" :: map p_name hps) ->
  StrategyBase_init Device MetricBundle torch_device class_name abbr hps arg_dict
    metric_bundle = Raise (AssertionError EmptyString).
Proof.
  intros Hbad. unfold StrategyBase_init.
  pose proof (read_hyperparameters_collision abbr arg_dict hps
                (<["strategy_name" := PStr class_name]> ∅)) as Hraise.
  destruct (read_hyperparameters _ _ _ _) as [r config]. cbn in Hraise.
  rewrite Hraise; [reflexivity|].
  intros [Hnd Hfresh]. apply Hbad. apply NoDup_cons. split; [|exact Hnd].
  intros Hin. apply list_elem_of_fmap in Hin as (hp & E & Hin).
  rewrite Forall_forall in Hfresh. specialize (Hfresh hp Hin).
  rewrite <- E, lookup_insert_eq in Hfresh. discriminate.
Qed.

End StrategyProofs.

Lemma X26_witness :
  exists sb,
    StrategyBase_init string unit (fun name => Return name) "RandomStrategy" "rand"
      [ {| p_name := "seed"; p_type := "int"; p_default := PInt 7; p_help := "seed" |} ]
      (<["strategy_gpu_id" := PInt (-1)]> (<["rand_seed" := PInt 42]> ∅)) tt
    = Return sb
    /\ _device string unit sb = "cpu"
    /\ _strategy_config string unit sb !! "seed" = Some (PInt 42).
Proof.
  destruct (X26_strategy_config_from_args string unit (fun name => Return name)
              "RandomStrategy" "rand"
              [ {| p_name := "seed"; p_type := "int"; p_default := PInt 7;
                   p_help := "seed" |} ]
              (<["strategy_gpu_id" := PInt (-1)]> (<["rand_seed" := PInt 42]> ∅)) tt
              "cpu") as (sb & Hrun & Hdev & _ & _ & Hvals & _).
  - apply NoDup_cons. split.
    + cbn. intros Hin. apply list_elem_of_singleton in Hin. discriminate.
    + cbn. apply NoDup_singleton.
  - vm_compute. reflexivity.
  - exists sb. split; [exact Hrun|]. split; [exact Hdev|].
    exact (Hvals _ (list_elem_of_here _ _)).
Defined.

Lemma X27_witness :
  StrategyBase_init string unit (fun name => Return name) "RandomStrategy" "rand"
    [ {| p_name := "strategy_name"; p_type := "str"; p_default := PStr "x";
         p_help := "clash" |} ]
    ∅ tt
  = Raise (AssertionError EmptyString).
Proof.
  apply (X27_strategy_duplicate_hyperparameter string unit).
  intros Hnd. apply NoDup_cons in Hnd as [Hnotin _]. apply Hnotin.
  cbn. apply list_elem_of_here.
Defined.

(** ** The benchmark launcher *)

Lemma dict_get_in {V : Type} (d : list (string * V)) (k : string) :
  In k (dict_keys d) -> exists v, dict_get d k = Return v.
Proof.
  induction d as [|[k' v'] rest IH]; intros Hin; [destruct Hin|].
  cbn [dict_get]. destruct (String.eqb_spec k' k) as [->|Hne]; [eauto|].
  apply IH. destruct Hin as [E|Hin]; [cbn in E; congruence | exact Hin].
Qed.

Lemma dict_get_not_in {V : Type} (d : list (string * V)) (k : string) :
  ~ In k (dict_keys d) -> dict_get d k = Raise (KeyError k).
Proof.
  induction d as [|[k' v'] rest IH]; intros Hnot; [reflexivity|].
  cbn [dict_get]. destruct (String.eqb_spec k' k) as [->|Hne].
  - exfalso. apply Hnot. left. reflexivity.
  - apply IH. intros Hin. apply Hnot. right. exact Hin.
Qed.

Lemma strategy_command_known (strategy : string) :
  In strategy (dict_keys STRATEGY_CONFIG) ->
  exists st, strategy_command strategy = Return st.
Proof.
  intros Hin. cbn in Hin.
  repeat (destruct Hin as [<-|Hin]; [vm_compute; eauto|]).
  destruct Hin.
Qed.

(** A loop whose body appends the same number of commands for every element. *)
Lemma for_each_blocks {A : Type} (l : list A)
    (body : A -> M (list (list string)) unit) (n : nat)
    (P : list string -> Prop) :
  (forall x, In x l -> forall calls, exists cmds,
       body x calls = (Return tt, calls ++ cmds)
       /\ length cmds = n /\ Forall P cmds) ->
  forall calls, exists cmds,
    for_each l body calls = (Return tt, calls ++ cmds)
    /\ length cmds = (length l * n)%nat /\ Forall P cmds.
Proof.
  induction l as [|x rest IH]; intros Hbody calls.
  - exists []. cbn. unfold ret. rewrite app_nil_r. repeat split. constructor.
  - destruct (Hbody x (or_introl eq_refl) calls) as (c1 & Hx & Hn1 & HP1).
    destruct (IH (fun y Hy => Hbody y (or_intror Hy)) (calls ++ c1))
      as (c2 & Hrest & Hn2 & HP2).
    exists (c1 ++ c2). cbn [for_each]. unfold bind. rewrite Hx, Hrest.
    rewrite app_assoc. split; [reflexivity|]. split.
    + rewrite length_app. cbn [length]. lia.
    + apply Forall_app. split; assumption.
Qed.

(** X28: [--defense] is not restricted by the parser.  For a GPU and a
    dataset the parser accepts, a defense that is not a key of
    [DEFENSE_CONFIG] makes [main] raise KeyError on it while building the
    first command: no benchmark is launched at all. *)
Theorem X28_launcher_unknown_defense_launches_nothing (args : launcher_args)
    (calls : list (list string)) :
  In (arg_gpu args) (dict_keys GPU_CONFIG) ->
  arg_dataset args = "all" \/ In (arg_dataset args) (dict_keys DATASET_CONFIG) ->
  ~ In (arg_defense args) (dict_keys DEFENSE_CONFIG) ->
  main args calls = (Raise (KeyError (arg_defense args)), calls).
Proof.
  intros Hgpu Hds Hdef. unfold main.
  set (common := if String.eqb (arg_robust_tuning args) "1" then _ else _).
  assert (Hcmd : forall dataset strategy,
            In dataset (dict_keys DATASET_CONFIG) ->
            build_command args common dataset strategy
            = Raise (KeyError (arg_defense args))).
  { intros dataset strategy Hin. unfold build_command.
    destruct (dict_get_in GPU_CONFIG (arg_gpu args) Hgpu) as [g ->].
    destruct (dict_get_in DATASET_CONFIG dataset Hin) as [d ->].
    rewrite (dict_get_not_in DEFENSE_CONFIG (arg_defense args) Hdef). reflexivity. }
  assert (Hloop : forall dataset rest_d s0 rest_s,
            In dataset (dict_keys DATASET_CONFIG) ->
            for_each (dataset :: rest_d) (fun dataset =>
              for_each (s0 :: rest_s) (fun strategy =>
                (command <- lift_outcome (build_command args common dataset strategy) ;;
                 modify (fun calls => calls ++ [command]))%py)) calls
            = (Raise (KeyError (arg_defense args)), calls)).
  { intros dataset rest_d s0 rest_s Hin. cbn [for_each].
    unfold bind, lift_outcome. rewrite (Hcmd dataset s0 Hin). reflexivity. }
  destruct Hds as [Hall | Hin].
  - rewrite Hall. cbn [String.eqb Ascii.eqb Bool.eqb].
    destruct (String.eqb (arg_strategy args) "all");
      apply Hloop; cbn; auto.
  - assert (Hne : String.eqb (arg_dataset args) "all" = false).
    { apply String.eqb_neq. intros E. rewrite E in Hin. cbn in Hin.
      repeat (destruct Hin as [Hin|Hin]; [discriminate|]). destruct Hin. }
    rewrite Hne.
    destruct (String.eqb (arg_strategy args) "all"); apply Hloop; exact Hin.
Qed.

(** X29: for arguments the parser accepts and a defense that is a key of
    [DEFENSE_CONFIG], [main] returns after launching one command per pair of
    a selected dataset and a selected strategy (126 for "all" and "all"),
    each starting with [python3 -m fibber.benchmark.benchmark]; earlier
    calls are left in place. *)
Theorem X29_launcher_one_command_per_pair (args : launcher_args)
    (calls : list (list string)) :
  In (arg_gpu args) (dict_keys GPU_CONFIG) ->
  arg_dataset args = "all" \/ In (arg_dataset args) (dict_keys DATASET_CONFIG) ->
  arg_strategy args = "all" \/ In (arg_strategy args) (dict_keys STRATEGY_CONFIG) ->
  In (arg_defense args) (dict_keys DEFENSE_CONFIG) ->
  exists commands,
    main args calls = (Return tt, calls ++ commands)
    /\ length commands
       = ((if String.eqb (arg_dataset args) "all" then 9 else 1)
          * (if String.eqb (arg_strategy args) "all" then 14 else 1))%nat
    /\ Forall (fun c => exists rest,
                 c = "python3" :: "-m" :: "fibber.benchmark.benchmark" :: rest)
         commands.
Proof.
  intros Hgpu Hds Hst Hdef. unfold main.
  set (common := if String.eqb (arg_robust_tuning args) "1" then _ else _).
  set (P := fun c : list string =>
              exists rest, c = "python3" :: "-m" :: "fibber.benchmark.benchmark" :: rest).
  assert (Hcmd : forall dataset strategy,
            In dataset (dict_keys DATASET_CONFIG) ->
            In strategy (dict_keys STRATEGY_CONFIG) ->
            exists c, build_command args common dataset strategy = Return c /\ P c).
  { intros dataset strategy Hd Hs. unfold build_command.
    destruct (dict_get_in GPU_CONFIG (arg_gpu args) Hgpu) as [g ->].
    destruct (dict_get_in DATASET_CONFIG dataset Hd) as [d ->].
    destruct (dict_get_in DEFENSE_CONFIG (arg_defense args) Hdef) as [df ->].
    destruct (strategy_command_known strategy Hs) as [st ->].
    eexists. split; [reflexivity|].
    unfold P. destruct (arg_robust_desc args); cbn [app]; eauto. }
  set (dataset_list := if String.eqb (arg_dataset args) "all" then _ else _).
  set (strategy_list := if String.eqb (arg_strategy args) "all" then _ else _).
  assert (Hdl : Forall (fun d => In d (dict_keys DATASET_CONFIG)) dataset_list
                /\ length dataset_list
                   = if String.eqb (arg_dataset args) "all" then 9%nat else 1%nat).
  { subst dataset_list. destruct Hds as [Hall | Hin].
    - rewrite Hall. cbn [String.eqb Ascii.eqb Bool.eqb]. split; [|reflexivity].
      apply Forall_forall. intros d Hd. apply list_elem_of_In. exact Hd.
    - destruct (String.eqb (arg_dataset args) "all") eqn:E.
      + apply String.eqb_eq in E. rewrite E in Hin. cbn in Hin.
        repeat (destruct Hin as [Hin|Hin]; [discriminate|]). destruct Hin.
      + split; [|reflexivity]. constructor; [exact Hin | constructor]. }
  assert (Hsl : Forall (fun s => In s (dict_keys STRATEGY_CONFIG)) strategy_list
                /\ length strategy_list
                   = if String.eqb (arg_strategy args) "all" then 14%nat else 1%nat).
  { subst strategy_list. destruct Hst as [Hall | Hin].
    - rewrite Hall. cbn [String.eqb Ascii.eqb Bool.eqb]. split; [|reflexivity].
      apply Forall_forall. intros s Hs. apply list_elem_of_In. exact Hs.
    - destruct (String.eqb (arg_strategy args) "all") eqn:E.
      + apply String.eqb_eq in E. rewrite E in Hin. cbn in Hin.
        repeat (destruct Hin as [Hin|Hin]; [discriminate|]). destruct Hin.
      + split; [|reflexivity]. constructor; [exact Hin | constructor]. }
  destruct Hdl as [Hdl Hdn]. destruct Hsl as [Hsl Hsn].
  rewrite <- Hdn, <- Hsn.
  apply (for_each_blocks dataset_list _ (length strategy_list) P).
  intros dataset Hd calls1.
  rewrite Forall_forall in Hdl. specialize (Hdl dataset (proj2 (list_elem_of_In _ _) Hd)).
  rewrite <- (Nat.mul_1_r (length strategy_list)).
  apply (for_each_blocks strategy_list _ 1%nat P).
  intros strategy Hs calls2.
  rewrite Forall_forall in Hsl. specialize (Hsl strategy (proj2 (list_elem_of_In _ _) Hs)).
  destruct (Hcmd dataset strategy Hdl Hsl) as (c & Hc & HP).
  exists [c]. unfold bind, lift_outcome, modify. rewrite Hc.
  repeat split. constructor; [exact HP | constructor].
Qed.

Lemma X28_witness :
  main {| arg_gpu := "0"; arg_dataset := "mr"; arg_strategy := "all";
          arg_robust_desc := None; arg_robust_tuning := "0";
          arg_defense := "lmag2" |} []
  = (Raise (KeyError "lmag2"), []).
Proof.
  apply (X28_launcher_unknown_defense_launches_nothing
           {| arg_gpu := "0"; arg_dataset := "mr"; arg_strategy := "all";
              arg_robust_desc := None; arg_robust_tuning := "0";
              arg_defense := "lmag2" |} []).
  - cbn. auto.
  - right. cbn. auto.
  - cbn. intros [E|[E|[E|[]]]]; discriminate.
Defined.

Lemma X29_witness :
  exists commands,
    main {| arg_gpu := "1"; arg_dataset := "all"; arg_strategy := "asrs-u";
            arg_robust_desc := Some "pso"; arg_robust_tuning := "1";
            arg_defense := "sem" |} []
    = (Return tt, [] ++ commands)
    /\ length commands = 9%nat.
Proof.
  destruct (X29_launcher_one_command_per_pair
              {| arg_gpu := "1"; arg_dataset := "all"; arg_strategy := "asrs-u";
                 arg_robust_desc := Some "pso"; arg_robust_tuning := "1";
                 arg_defense := "sem" |} []) as (commands & Hrun & Hlen & _).
  - cbn. auto.
  - left. reflexivity.
  - right. cbn. auto 20.
  - cbn. auto.
  - exists commands. split; [exact Hrun | exact Hlen].
Defined.
